(** * OpenManus agent execution engine: a shallow embedding

    The development follows the Python sources under [app/]:
    - [app/exceptions.py], [app/tool/base.py], [app/tool/tool_collection.py]
    - [app/agent/base.py], [app/agent/react.py], [app/agent/toolcall.py]
    - [app/agent/planning.py], [app/flow/base.py], [app/flow/planning.py]

    Python [str] values are represented by their UTF-8 encoding (a Rocq
    [string] is a list of bytes); Python [int] is [Z]; a [dict] is a [gmap];
    attributes of [self] are fields of a record that is threaded through
    every method.  Only instances of [Exception] are modelled as
    exceptions. *)

From Stdlib Require Import ZArith String Ascii List Bool Lia.
From stdpp Require Import base option list gmap strings pretty.

Local Open Scope string_scope.
Local Open Scope Z_scope.
Local Set Warnings "-register-all".

(** ** Exceptions ([app/exceptions.py] and the builtins the engine names) *)

Inductive exn_class : Type :=
  | ValueError
  | RuntimeError
  | TypeError
  | AttributeError
  | IndexError
  | JSONDecodeError
  | ToolError
  | OpenManusError
  | TokenLimitExceeded
  | RetryError
  | OtherException.

(** An exception instance: its class, [str(e)] (for [ToolError] this is
    also [e.message]) and [e.__cause__]. *)
Inductive exn : Type :=
  | Exn (cls : exn_class) (msg : string) (cause : option exn).

Definition exn_cls (e : exn) : exn_class := let 'Exn c _ _ := e in c.
Definition exn_str (e : exn) : string := let 'Exn _ m _ := e in m.
Definition exn_cause (e : exn) : option exn := let 'Exn _ _ c := e in c.

Definition exn_class_eqb (c d : exn_class) : bool :=
  match c, d with
  | ValueError, ValueError | RuntimeError, RuntimeError
  | TypeError, TypeError | AttributeError, AttributeError
  | IndexError, IndexError | JSONDecodeError, JSONDecodeError
  | ToolError, ToolError | OpenManusError, OpenManusError
  | TokenLimitExceeded, TokenLimitExceeded | RetryError, RetryError
  | OtherException, OtherException => true
  | _, _ => false
  end.

(** [isinstance(e, C)] along the class hierarchy: [json.JSONDecodeError]
    derives from [ValueError], [TokenLimitExceeded] from [OpenManusError]. *)
Definition isinstance (e : exn) (c : exn_class) : bool :=
  exn_class_eqb (exn_cls e) c ||
  match exn_cls e, c with
  | JSONDecodeError, ValueError => true
  | TokenLimitExceeded, OpenManusError => true
  | _, _ => false
  end.

(** ** Results of fallible, stateful code *)

Inductive Res (A : Type) : Type :=
  | Ok (a : A)
  | Raise (e : exn).
Arguments Ok {A} a.
Arguments Raise {A} e.

(** A method of an object of type [S]: it returns or raises, and in both
    cases leaves the mutations it performed. *)
Definition M (S A : Type) : Type := S -> Res A * S.

Definition ret {S A} (x : A) : M S A := fun s => (Ok x, s).
Definition raise {S A} (e : exn) : M S A := fun s => (Raise e, s).
Definition bind {S A B} (m : M S A) (k : A -> M S B) : M S B :=
  fun s => match m s with
           | (Ok x, s') => k x s'
           | (Raise e, s') => (Raise e, s')
           end.
Definition try_except {S A} (m : M S A) (handler : exn -> M S A) : M S A :=
  fun s => match m s with
           | (Ok x, s') => (Ok x, s')
           | (Raise e, s') => handler e s'
           end.
Definition modify {S} (f : S -> S) : M S unit := fun s => (Ok tt, f s).
Definition gets {S A} (f : S -> A) : M S A := fun s => (Ok (f s), s).

Notation "'let!' x ':=' m 'in' k" := (bind m (fun x => k))
  (at level 10, x name, m at level 100, k at level 200).
Notation "'exec!' m 'in' k" := (bind m (fun _ => k))
  (at level 10, m at level 100, k at level 200).

(** ** Text helpers *)

Definition LF : string := String "010" "".

(** Truth value of a Python [str] and of an [Optional[str]]. *)
Definition str_truthy (s : string) : bool :=
  match s with "" => false | _ => true end.
Definition opt_truthy (o : option string) : bool :=
  match o with Some s => str_truthy s | None => false end.

(** [sep.join(l)] *)
Definition join (sep : string) (l : list string) : string :=
  String.concat sep l.

(** [s.lower()] of a text of ASCII characters, where the capital letters A
    to Z are the only characters that change.  It is applied to the type
    tag of a step, made of capital letters and underscores, and stands for
    [str.lower] in the examples, whose tool names are ASCII. *)
Definition ascii_lower (c : ascii) : ascii :=
  let n := nat_of_ascii c in
  if (Nat.leb 65 n && Nat.leb n 90)%bool then ascii_of_nat (n + 32) else c.
Fixpoint lower (s : string) : string :=
  match s with
  | "" => ""
  | String c s' => String (ascii_lower c) (lower s')
  end.

(** [needle in hay] for strings. *)
Fixpoint contains (needle hay : string) : bool :=
  String.prefix needle hay ||
  match hay with
  | "" => false
  | String _ hay' => contains needle hay'
  end.

(** Code points of a UTF-8 string: a byte in [0x80, 0xC0) continues the
    code point begun before it. *)
Definition is_cont (c : ascii) : bool :=
  let n := nat_of_ascii c in (Nat.leb 128 n && Nat.ltb n 192)%bool.
Fixpoint cp_len (s : string) : nat :=
  match s with
  | "" => 0%nat
  | String c s' => if is_cont c then cp_len s' else S (cp_len s')
  end.
(** The first [n] code points of [s]. *)
Fixpoint cp_take (n : nat) (s : string) : string :=
  match s with
  | "" => ""
  | String c s' =>
      if is_cont c then String c (cp_take n s')
      else match n with
           | O => ""
           | S n' => String c (cp_take n' s')
           end
  end.
(** [s[:k]] for a Python [int] [k] (a negative [k] counts from the end). *)
Definition slice_to (k : Z) (s : string) : string :=
  if 0 <=? k then cp_take (Z.to_nat k) s
  else cp_take (Z.to_nat (Z.of_nat (cp_len s) + k)) s.

(** A text that starts with the error marker. *)
Definition error_prefixed (s : string) : bool := String.prefix "错误: " s.

(** ** Schema ([app/schema.py]) *)

(** Modelled from the spec: [app/schema.py] is not part of the sources at
    hand; AgentState is the enum {IDLE, RUNNING, FINISHED, ERROR}. *)
Inductive AgentState : Type := IDLE | RUNNING | FINISHED | ERROR.

Definition state_eqb (s t : AgentState) : bool :=
  match s, t with
  | IDLE, IDLE | RUNNING, RUNNING | FINISHED, FINISHED | ERROR, ERROR => true
  | _, _ => false
  end.

Definition AgentState_str (s : AgentState) : string :=
  match s with
  | IDLE => "AgentState.IDLE" | RUNNING => "AgentState.RUNNING"
  | FINISHED => "AgentState.FINISHED" | ERROR => "AgentState.ERROR"
  end.

(** Modelled from the spec: the tool-choice policy of [app/schema.py],
    one of {AUTO, REQUIRED, NONE}. *)
Inductive ToolChoice : Type := AUTO | REQUIRED | NONE.

(** Modelled from the spec: the message roles of [app/schema.py]. *)
Inductive Role : Type := user | system | assistant | tool.

Definition role_eqb (r q : Role) : bool :=
  match r, q with
  | user, user | system, system | assistant, assistant | tool, tool => true
  | _, _ => false
  end.

(** Modelled from the spec: a ToolCall of [app/schema.py] carries an
    identifier, the target tool name and the argument payload as a
    string.  The optional layers are the ones [execute_tool] guards
    against. *)
Record Function : Type := {
  fn_name : string;
  arguments : option string }.
Record ToolCall : Type := {
  id : string;
  function : option Function }.

(** Modelled from the spec: a Message of [app/schema.py] with its role,
    textual content, optional image, the tool-call identifier and name of
    a tool message and the tool calls requested by an assistant message. *)
Record Message : Type := {
  role : Role;
  content : option string;
  msg_tool_calls : option (list ToolCall);
  msg_name : option string;
  tool_call_id : option string;
  base64_image : option string }.

Definition user_message (c : string) (img : option string) : Message :=
  {| role := user; content := Some c; msg_tool_calls := None;
     msg_name := None; tool_call_id := None; base64_image := img |}.
Definition system_message (c : string) : Message :=
  {| role := system; content := Some c; msg_tool_calls := None;
     msg_name := None; tool_call_id := None; base64_image := None |}.
Definition assistant_message (c : option string) (img : option string)
  : Message :=
  {| role := assistant; content := c; msg_tool_calls := None;
     msg_name := None; tool_call_id := None; base64_image := img |}.
Definition tool_message (c : string) (nm : string) (cid : string)
    (img : option string) : Message :=
  {| role := tool; content := Some c; msg_tool_calls := None;
     msg_name := Some nm; tool_call_id := Some cid; base64_image := img |}.
Definition from_tool_calls (calls : list ToolCall) (c : option string)
  : Message :=
  {| role := assistant; content := c; msg_tool_calls := Some calls;
     msg_name := None; tool_call_id := None; base64_image := None |}.

(** Modelled from the spec: the reply of the model client ([app/llm.py]):
    optional text and an optional ordered list of tool calls. *)
Record Response : Type := {
  resp_content : option string;
  resp_tool_calls : option (list ToolCall) }.

(** ** Tool results ([app/tool/base.py]) *)

Record ToolResult : Type := {
  output : option string;
  error : option string;
  result_base64_image : option string;
  system_note : option string }.

Inductive result_class : Type := PlainResult | CLIResult | ToolFailure.

(** [ToolResult.__bool__]: any field is truthy. *)
Definition ToolResult_bool (r : ToolResult) : bool :=
  opt_truthy (output r) || opt_truthy (error r) ||
  opt_truthy (result_base64_image r) || opt_truthy (system_note r).

(** [ToolResult.__str__]; [str()] of an object whose [__str__] returns
    [None] raises [TypeError]. *)
Definition ToolResult_str (r : ToolResult) : Res string :=
  if opt_truthy (error r)
  then Ok ("错误: " +:+ default "" (error r))
  else match output r with
       | Some s => Ok s
       | None => Raise (Exn TypeError
                   "__str__ returned non-string (type NoneType)" None)
       end.

Definition tool_failure (err : string) : ToolResult :=
  {| output := None; error := Some err;
     result_base64_image := None; system_note := None |}.

(** What a tool call evaluates to: a plain [str] (as [Terminate] returns),
    a [ToolResult] of one of its classes, or any other object, known by
    its truth value and its [str()]. *)
Inductive pyvalue : Type :=
  | VStr (s : string)
  | VResult (cls : result_class) (r : ToolResult)
  | VOther (truthy : bool) (text : string).

Definition py_bool (v : pyvalue) : bool :=
  match v with
  | VStr s => str_truthy s
  | VResult _ r => ToolResult_bool r
  | VOther b _ => b
  end.
Definition py_str (v : pyvalue) : Res string :=
  match v with
  | VStr s => Ok s
  | VResult _ r => ToolResult_str r
  | VOther _ t => Ok t
  end.
(** [hasattr(v, "base64_image") and v.base64_image] *)
Definition py_image (v : pyvalue) : option string :=
  match v with
  | VResult _ r => if opt_truthy (result_base64_image r)
                   then result_base64_image r else None
  | _ => None
  end.

(** Values produced by [json.loads]. *)
Inductive json : Type :=
  | JNull
  | JBool (b : bool)
  | JNum (n : Z)
  | JStr (s : string)
  | JArr (l : list json)
  | JObj (kw : list (string * json)).

(** ** Tools ([app/tool/base.py]) and their collection
    ([app/tool/tool_collection.py]) *)

(** A tool, known by its name and by what [execute] does, given its
    keyword arguments, to the outside world [W]: it returns a value or
    raises (binding of the keyword arguments to the parameters of
    [execute] included). *)
Record BaseTool (W : Type) : Type := {
  tool_name : string;
  tool_description : string;
  tool_execute : list (string * json) -> M W pyvalue }.
Arguments tool_name {W} _.
Arguments tool_description {W} _.
Arguments tool_execute {W} _ _ _.

(** Awaiting the tool on the unpacked [tool_input]: unpacking anything
    but a mapping raises [TypeError]. *)
Definition tool_call {W} (t : BaseTool W) (tool_input : json) : M W pyvalue :=
  match tool_input with
  | JObj kw => tool_execute t kw
  | _ => raise (Exn TypeError "argument after ** must be a mapping" None)
  end.

Record ToolCollection (W : Type) : Type := {
  tools : list (BaseTool W);
  tool_map : gmap string (BaseTool W) }.
Arguments tools {W} _.
Arguments tool_map {W} _.

(** [ToolCollection.__init__]: a later tool of the same name wins. *)
Definition ToolCollection_init {W} (ts : list (BaseTool W)) : ToolCollection W :=
  {| tools := ts;
     tool_map := foldl (fun m t => <[tool_name t := t]> m) ∅ ts |}.

Definition to_params {W} (tc : ToolCollection W) : list (string * string) :=
  map (fun t => (tool_name t, tool_description t)) (tools tc).

(** [ToolCollection.execute] *)
Definition ToolCollection_execute {W} (tc : ToolCollection W)
    (name : string) (tool_input : json) : M W pyvalue :=
  match tool_map tc !! name with
  | None => ret (VResult ToolFailure (tool_failure ("工具 " +:+ name +:+ " 无效")))
  | Some t =>
      try_except (tool_call t tool_input)
        (fun e => if isinstance e ToolError
                  then ret (VResult ToolFailure (tool_failure (exn_str e)))
                  else raise e)
  end.

(** ** Agents ([app/agent/base.py], [app/agent/toolcall.py]) *)

(** Modelled from the spec: the model client of [app/llm.py], consumed
    through [ask_tool(messages, system_msgs, tools, tool_choice)]. *)
Definition LLM (W : Type) : Type :=
  list Message -> option (list Message) -> list (string * string) ->
  ToolChoice -> M W Response.

(** The attributes of an agent instance.  [memory] is [memory.messages];
    [env] is the part of the outside world that the agent's collaborators
    (model client, tools, sandbox) read and write. *)
Record Agent (W : Type) : Type := {
  name : string;
  system_prompt : option string;
  next_step_prompt : option string;
  llm : LLM W;
  memory : list Message;
  state : AgentState;
  max_steps : Z;
  current_step : Z;
  duplicate_threshold : Z;
  available_tools : ToolCollection W;
  tool_choices : ToolChoice;
  special_tool_names : list string;
  tool_calls : option (list ToolCall);
  current_base64_image : option string;
  max_observe : option Z;
  env : W }.
Arguments name {W} _.
Arguments system_prompt {W} _.
Arguments next_step_prompt {W} _.
Arguments llm {W} _.
Arguments memory {W} _.
Arguments state {W} _.
Arguments max_steps {W} _.
Arguments current_step {W} _.
Arguments duplicate_threshold {W} _.
Arguments available_tools {W} _.
Arguments tool_choices {W} _.
Arguments special_tool_names {W} _.
Arguments tool_calls {W} _.
Arguments current_base64_image {W} _.
Arguments max_observe {W} _.
Arguments env {W} _.

(** Assignments to single attributes. *)
Definition set_state {W} (v : AgentState) (a : Agent W) : Agent W :=
  {| name := name a; system_prompt := system_prompt a;
     next_step_prompt := next_step_prompt a; llm := llm a;
     memory := memory a; state := v; max_steps := max_steps a;
     current_step := current_step a;
     duplicate_threshold := duplicate_threshold a;
     available_tools := available_tools a; tool_choices := tool_choices a;
     special_tool_names := special_tool_names a;
     tool_calls := tool_calls a;
     current_base64_image := current_base64_image a;
     max_observe := max_observe a; env := env a |}.
Definition set_current_step {W} (v : Z) (a : Agent W) : Agent W :=
  {| name := name a; system_prompt := system_prompt a;
     next_step_prompt := next_step_prompt a; llm := llm a;
     memory := memory a; state := state a; max_steps := max_steps a;
     current_step := v; duplicate_threshold := duplicate_threshold a;
     available_tools := available_tools a; tool_choices := tool_choices a;
     special_tool_names := special_tool_names a;
     tool_calls := tool_calls a;
     current_base64_image := current_base64_image a;
     max_observe := max_observe a; env := env a |}.
Definition set_memory {W} (v : list Message) (a : Agent W) : Agent W :=
  {| name := name a; system_prompt := system_prompt a;
     next_step_prompt := next_step_prompt a; llm := llm a; memory := v;
     state := state a; max_steps := max_steps a;
     current_step := current_step a;
     duplicate_threshold := duplicate_threshold a;
     available_tools := available_tools a; tool_choices := tool_choices a;
     special_tool_names := special_tool_names a;
     tool_calls := tool_calls a;
     current_base64_image := current_base64_image a;
     max_observe := max_observe a; env := env a |}.
Definition set_next_step_prompt {W} (v : option string) (a : Agent W) : Agent W :=
  {| name := name a; system_prompt := system_prompt a;
     next_step_prompt := v; llm := llm a; memory := memory a;
     state := state a; max_steps := max_steps a;
     current_step := current_step a;
     duplicate_threshold := duplicate_threshold a;
     available_tools := available_tools a; tool_choices := tool_choices a;
     special_tool_names := special_tool_names a;
     tool_calls := tool_calls a;
     current_base64_image := current_base64_image a;
     max_observe := max_observe a; env := env a |}.
Definition set_tool_calls {W} (v : option (list ToolCall)) (a : Agent W) : Agent W :=
  {| name := name a; system_prompt := system_prompt a;
     next_step_prompt := next_step_prompt a; llm := llm a;
     memory := memory a; state := state a; max_steps := max_steps a;
     current_step := current_step a;
     duplicate_threshold := duplicate_threshold a;
     available_tools := available_tools a; tool_choices := tool_choices a;
     special_tool_names := special_tool_names a; tool_calls := v;
     current_base64_image := current_base64_image a;
     max_observe := max_observe a; env := env a |}.
Definition set_current_base64_image {W} (v : option string) (a : Agent W) : Agent W :=
  {| name := name a; system_prompt := system_prompt a;
     next_step_prompt := next_step_prompt a; llm := llm a;
     memory := memory a; state := state a; max_steps := max_steps a;
     current_step := current_step a;
     duplicate_threshold := duplicate_threshold a;
     available_tools := available_tools a; tool_choices := tool_choices a;
     special_tool_names := special_tool_names a;
     tool_calls := tool_calls a; current_base64_image := v;
     max_observe := max_observe a; env := env a |}.
Definition set_env {W} (v : W) (a : Agent W) : Agent W :=
  {| name := name a; system_prompt := system_prompt a;
     next_step_prompt := next_step_prompt a; llm := llm a;
     memory := memory a; state := state a; max_steps := max_steps a;
     current_step := current_step a;
     duplicate_threshold := duplicate_threshold a;
     available_tools := available_tools a; tool_choices := tool_choices a;
     special_tool_names := special_tool_names a;
     tool_calls := tool_calls a;
     current_base64_image := current_base64_image a;
     max_observe := max_observe a; env := v |}.

(** *** [BaseAgent] ([app/agent/base.py]) *)

Section BaseAgent.
Context {W : Type}.
(** The abstract method [step] of the concrete agent class. *)
Variable step : M (Agent W) string.
(** [SANDBOX_CLIENT.cleanup()], an external hook acting on the world. *)
Variable sandbox_cleanup : W -> W.

(** [memory.add_message].  Modelled from the spec: Memory is an ordered
    sequence of messages mutated by appending only. *)
Definition add_message (m : Message) (a : Agent W) : Agent W :=
  set_memory (memory a ++ [m])%list a.

(** [update_memory(role, content, base64_image, **kwargs)]; the keyword
    arguments (name and call identifier) are passed on for a tool message
    only.  A role outside the four raises [ValueError] in the source; the
    type [Role] has no such value. *)
Definition update_memory (r : Role) (c : string) (img : option string)
    (kw_name kw_id : string) (a : Agent W) : Agent W :=
  add_message
    match r with
    | user => user_message c img
    | system => system_message c
    | assistant => assistant_message (Some c) img
    | tool => tool_message c kw_name kw_id img
    end a.

(** [state_context]: the three parts of the context manager.  The check
    that [new_state] is an [AgentState] is done by the type. *)
Definition state_enter (new_state : AgentState) (a : Agent W) : Agent W :=
  set_state new_state a.
(** [except Exception as e: self.state = AgentState.ERROR; raise e] *)
Definition state_except (a : Agent W) : Agent W :=
  set_state ERROR a.
(** [finally: self.state = previous_state] *)
Definition state_finally (previous_state : AgentState) (a : Agent W) : Agent W :=
  set_state previous_state a.

(** [async with self.state_context(new_state): body].  The body may need
    fuel, hence the [option]. *)
Definition state_context {A} (new_state : AgentState)
    (body : Agent W -> option (Res A * Agent W)) (a : Agent W)
  : option (Res A * Agent W) :=
  let previous_state := state a in
  match body (state_enter new_state a) with
  | None => None
  | Some (Ok r, a') => Some (Ok r, state_finally previous_state a')
  | Some (Raise e, a') =>
      Some (Raise e, state_finally previous_state (state_except a'))
  end.

(** [is_stuck] *)
Definition is_stuck (a : Agent W) : bool :=
  if (length (memory a) <? 2)%nat then false
  else match last (memory a) with
       | None => false
       | Some last_message =>
           if negb (opt_truthy (content last_message)) then false
           else
             let duplicate_count :=
               Z.of_nat (length (List.filter
                 (fun msg => role_eqb (role msg) assistant &&
                             bool_decide (content msg = content last_message))
                 (removelast (memory a)))) in
             duplicate_threshold a <=? duplicate_count
       end.

(** The reading of the specification, to be compared with [is_stuck]:
    the memory holds at least two messages and the content of the most
    recent assistant message is non-empty and equals the content of at
    least [duplicate_threshold] earlier assistant messages.  The list is
    scanned from its end. *)
Fixpoint latest_assistant (reversed : list Message)
  : option (Message * list Message) :=
  match reversed with
  | [] => None
  | m :: earlier => if role_eqb (role m) assistant then Some (m, earlier)
                    else latest_assistant earlier
  end.
Definition spec_is_stuck (a : Agent W) : bool :=
  (2 <=? length (memory a))%nat &&
  match latest_assistant (rev (memory a)) with
  | Some (m, earlier) =>
      opt_truthy (content m) &&
      (duplicate_threshold a <=?
       Z.of_nat (length (List.filter
         (fun msg => role_eqb (role msg) assistant &&
                     bool_decide (content msg = content m)) earlier)))
  | None => false
  end.

Definition stuck_prompt : string :=
  "        观察到重复响应。考虑新的策略，避免重复已经尝试过的无效路径。".

(** [handle_stuck_state]; an unset prompt is formatted as [None]. *)
Definition handle_stuck_state (a : Agent W) : Agent W :=
  set_next_step_prompt
    (Some (stuck_prompt +:+ LF +:+ default "None" (next_step_prompt a))) a.

Definition step_line (n : Z) (step_result : string) : string :=
  "步骤 " +:+ pretty n +:+ ": " +:+ step_result.
Definition budget_notice (n : Z) : string :=
  "终止: 达到最大步骤数 (" +:+ pretty n +:+ ")".

(** The [while] loop of [run]: one unit of fuel per iteration. *)
Fixpoint run_loop (fuel : nat) (results : list string) (a : Agent W)
  : option (Res (list string) * Agent W) :=
  if (current_step a <? max_steps a) && negb (state_eqb (state a) FINISHED)
  then match fuel with
       | O => None
       | S fuel' =>
           let a1 := set_current_step (current_step a + 1) a in
           match step a1 with
           | (Raise e, a2) => Some (Raise e, a2)
           | (Ok step_result, a2) =>
               let a3 := if is_stuck a2 then handle_stuck_state a2 else a2 in
               run_loop fuel'
                 (results ++ [step_line (current_step a3) step_result])%list a3
           end
       end
  else Some (Ok results, a).

(** The body of the [async with] block of [run]. *)
Definition run_body (fuel : nat) (a : Agent W)
  : option (Res (list string) * Agent W) :=
  match run_loop fuel [] a with
  | None => None
  | Some (Raise e, a') => Some (Raise e, a')
  | Some (Ok results, a') =>
      if max_steps a' <=? current_step a'
      then Some (Ok (results ++ [budget_notice (max_steps a')])%list,
                 set_state IDLE (set_current_step 0 a'))
      else Some (Ok results, a')
  end.

Definition invalid_state (s : AgentState) : exn :=
  Exn RuntimeError ("无法从状态运行代理: " +:+ AgentState_str s) None.

(** [if request: self.update_memory("user", request)] *)
Definition accept_request (request : option string) (a : Agent W) : Agent W :=
  match request with
  | Some r => if str_truthy r then update_memory user r None "" "" a else a
  | None => a
  end.

(** [run(request)] up to the end of its [async with] block: the list
    [results]. *)
Definition run_results (fuel : nat) (request : option string) (a : Agent W)
  : option (Res (list string) * Agent W) :=
  if negb (state_eqb (state a) IDLE)
  then Some (Raise (invalid_state (state a)), a)
  else state_context RUNNING (run_body fuel) (accept_request request a).

(** [run(request)] *)
Definition run (fuel : nat) (request : option string) (a : Agent W)
  : option (Res string * Agent W) :=
  match run_results fuel request a with
  | None => None
  | Some (Raise e, a2) => Some (Raise e, a2)
  | Some (Ok results, a2) =>
      let a3 := set_env (sandbox_cleanup (env a2)) a2 in
      Some (Ok match results with
               | [] => "未执行任何步骤"
               | _ => join LF results
               end, a3)
  end.

End BaseAgent.

(** A method that leaves the step counter and the budget of the agent as
    they are, whether it returns or raises. *)
Definition keeps_counters {W A} (m : M (Agent W) A) : Prop :=
  forall a r a', m a = (r, a') ->
                 current_step a' = current_step a /\ max_steps a' = max_steps a.

(** *** [ReActAgent] ([app/agent/react.py]) *)

Definition no_action : string := "思考完成 - 无需行动".

(** [ReActAgent.step] over the abstract [think] and [act]. *)
Definition react_step {W} (think : M (Agent W) bool) (act : M (Agent W) string)
  : M (Agent W) string :=
  let! should_act := think in
  if negb should_act then ret no_action else act.

(** *** [ToolCallAgent] ([app/agent/toolcall.py]) *)

Section ToolCallAgent.
Context {W : Type}.
(** [json.loads]: [None] stands for [json.JSONDecodeError]. *)
Variable json_loads : string -> option json.
(** [str.lower]: the lower-case form of a text, every cased character of
    Unicode included. *)
Variable str_lower : string -> string.

Definition TOOL_CALL_REQUIRED : string := "需要工具调用但未提供".

(** A call of a collaborator that acts on the outside world. *)
Definition lift_env {A} (m : M W A) : M (Agent W) A :=
  fun a => let '(r, w) := m (env a) in (r, set_env w a).

Definition calls_truthy (o : option (list ToolCall)) : bool :=
  match o with Some (_ :: _) => true | _ => false end.

Definition choice_eqb (c d : ToolChoice) : bool :=
  match c, d with
  | AUTO, AUTO | REQUIRED, REQUIRED | NONE, NONE => true
  | _, _ => false
  end.

(** [command.function.name]: [AttributeError] when [function] is [None]. *)
Definition function_name {S} (c : ToolCall) : M S string :=
  match function c with
  | Some f => ret (fn_name f)
  | None => raise (Exn AttributeError
              "'NoneType' object has no attribute 'name'" None)
  end.

Fixpoint function_names {S} (calls : list ToolCall) : M S (list string) :=
  match calls with
  | [] => ret []
  | c :: cs => let! n := function_name c in
               let! ns := function_names cs in
               ret (n :: ns)
  end.

(** The arguments of the log records between the two [try] blocks of
    [think] are evaluated outside any handler. *)
Definition think_log (response : Response) : M (Agent W) unit :=
  match resp_tool_calls response with
  | Some (c :: cs) =>
      exec! function_names (c :: cs) in
      match function c with
      | Some _ => ret tt
      | None => raise (Exn AttributeError
                  "'NoneType' object has no attribute 'arguments'" None)
      end
  | _ => ret tt
  end.

Definition token_limit_text (token_limit_error : exn) : string :=
  "达到最大令牌限制，无法继续执行: " +:+ exn_str token_limit_error.

(** [if self.next_step_prompt: self.messages += [user_msg]] *)
Definition append_next_step_prompt (a : Agent W) : Agent W :=
  if opt_truthy (next_step_prompt a)
  then set_memory
         (memory a ++ [user_message (default "" (next_step_prompt a)) None])%list a
  else a.

(** The [system_msgs] argument of the query. *)
Definition system_msgs (a : Agent W) : option (list Message) :=
  if opt_truthy (system_prompt a)
  then Some [system_message (default "" (system_prompt a))]
  else None.

(** [await self.llm.ask_tool(...)] *)
Definition ask_tool : M (Agent W) Response :=
  fun a => lift_env
             (llm a (memory a) (system_msgs a) (to_params (available_tools a))
                (tool_choices a)) a.

(** [think] *)
Definition think : M (Agent W) bool :=
  exec! modify append_next_step_prompt in
  let! outcome :=
    try_except
      (let! response := ask_tool in
       ret (Some response))
      (fun e =>
         if isinstance e ValueError then raise e
         else match exn_cause e with
              | Some token_limit_error =>
                  if isinstance token_limit_error TokenLimitExceeded
                  then
                    exec! modify (add_message
                            (assistant_message
                               (Some (token_limit_text token_limit_error)) None)) in
                    exec! modify (set_state FINISHED) in
                    ret None
                  else raise e
              | None => raise e
              end) in
  match outcome with
  | None => ret false
  | Some response =>
      exec! modify (set_tool_calls (resp_tool_calls response)) in
      exec! think_log response in
      try_except
        (let! choice := gets tool_choices in
         let! calls := gets tool_calls in
         if choice_eqb choice NONE
         then
           if opt_truthy (resp_content response)
           then exec! modify (add_message
                        (assistant_message (resp_content response) None)) in
                ret true
           else ret false
         else
           exec! modify (add_message
                   (if calls_truthy calls
                    then from_tool_calls (default [] calls) (resp_content response)
                    else assistant_message (resp_content response) None)) in
           if choice_eqb choice REQUIRED && negb (calls_truthy calls)
           then ret true
           else if choice_eqb choice AUTO && negb (calls_truthy calls)
           then ret (opt_truthy (resp_content response))
           else ret (calls_truthy calls))
        (fun e =>
           exec! modify (add_message
                   (assistant_message
                      (Some ("处理过程中遇到错误: " +:+ exn_str e)) None)) in
           ret false)
  end.

(** [_is_special_tool] *)
Definition is_special_tool (name : string) (a : Agent W) : bool :=
  existsb (String.eqb (str_lower name)) (map str_lower (special_tool_names a)).

(** [_should_finish_execution] *)
Definition should_finish_execution (name : string) (result : pyvalue) : bool :=
  true.

(** [_handle_special_tool] *)
Definition handle_special_tool (name : string) (result : pyvalue)
  : M (Agent W) unit :=
  let! special := gets (is_special_tool name) in
  if negb special then ret tt
  else if should_finish_execution name result
       then modify (set_state FINISHED)
       else ret tt.

Definition invalid_command : string := "错误: 无效的命令格式".
Definition unknown_tool (name : string) : string :=
  "错误: 未知工具 '" +:+ name +:+ "'".
Definition observed (name text : string) : string :=
  "观察到命令 `" +:+ name +:+ "` 执行的输出:" +:+ LF +:+ text.
Definition no_output (name : string) : string :=
  "命令 `" +:+ name +:+ "` 完成，无输出".
Definition json_error (name : string) : string :=
  "错误: " +:+ ("解析 " +:+ name +:+ " 的参数时出错: 无效的JSON格式").
Definition tool_problem (name : string) (e : exn) : string :=
  "错误: " +:+ ("⚠️ 工具 '" +:+ name +:+ "' 遇到了问题: " +:+ exn_str e).

(** The conditional expression that formats a result for display. *)
Definition observation {S} (name : string) (result : pyvalue) : M S string :=
  if py_bool result
  then match py_str result with
       | Ok text => ret (observed name text)
       | Raise e => raise e
       end
  else ret (no_output name).

(** The text handed to [json.loads]: [command.function.arguments or "{}"]. *)
Definition payload (f : Function) : string :=
  if opt_truthy (arguments f) then default "" (arguments f) else "{}".

(** [execute_tool] *)
Definition execute_tool (command : option ToolCall) : M (Agent W) string :=
  match command with
  | None => ret invalid_command
  | Some c =>
      match function c with
      | None => ret invalid_command
      | Some f =>
          if negb (str_truthy (fn_name f)) then ret invalid_command
          else
            let name := fn_name f in
            let! known := gets (fun a => tool_map (available_tools a) !! name) in
            match known with
            | None => ret (unknown_tool name)
            | Some _ =>
                try_except
                  (let! args :=
                     match json_loads (payload f) with
                     | Some v => ret v
                     | None => raise (Exn JSONDecodeError
                                 "Expecting value" None)
                     end in
                   let! result :=
                     (fun a => lift_env
                        (ToolCollection_execute (available_tools a) name args) a) in
                   exec! handle_special_tool name result in
                   match py_image result with
                   | Some img =>
                       exec! modify (set_current_base64_image (Some img)) in
                       observation name result
                   | None => observation name result
                   end)
                  (fun e =>
                     if isinstance e JSONDecodeError
                     then ret (json_error name)
                     else ret (tool_problem name e))
            end
      end
  end.

(** The [for] loop of [act]. *)
Fixpoint act_loop (commands : list ToolCall) (results : list string)
  : M (Agent W) (list string) :=
  match commands with
  | [] => ret results
  | command :: rest =>
      exec! modify (set_current_base64_image None) in
      let! result := execute_tool (Some command) in
      let! limit := gets max_observe in
      let result := match limit with
                    | Some k => if k =? 0 then result else slice_to k result
                    | None => result
                    end in
      let! name := function_name command in
      let! img := gets current_base64_image in
      exec! modify (add_message (tool_message result name (id command) img)) in
      act_loop rest (results ++ [result])%list
  end.

(** [act] *)
Definition act : M (Agent W) string :=
  let! calls := gets tool_calls in
  if negb (calls_truthy calls)
  then
    let! choice := gets tool_choices in
    if choice_eqb choice REQUIRED
    then raise (Exn ValueError TOOL_CALL_REQUIRED None)
    else
      let! msgs := gets memory in
      match last msgs with
      | None => raise (Exn IndexError "list index out of range" None)
      | Some m => ret (if opt_truthy (content m)
                       then default "" (content m)
                       else "没有内容或命令可执行")
      end
  else
    let! results := act_loop (default [] calls) [] in
    ret (join (LF +:+ LF) results).

(** [ToolCallAgent.step], inherited from [ReActAgent]. *)
Definition toolcall_step : M (Agent W) string := react_step think act.

End ToolCallAgent.

(** ** Lines and blanks of a text ([str.splitlines], [str.strip]) *)

Definition byte_is (c : ascii) (n : nat) : bool := Nat.eqb (nat_of_ascii c) n.

(** Length in bytes of the line boundary at the head of [s], [0] when there
    is none.  The boundaries of [str.splitlines] are LF, CR, CR LF, VT, FF,
    FS, GS, RS, NEL (C2 85), LS and PS (E2 80 A8, E2 80 A9). *)
Definition break_at (s : string) : nat :=
  match s with
  | "" => 0
  | String c r =>
      if byte_is c 13
      then match r with
           | String d _ => if byte_is d 10 then 2 else 1
           | "" => 1
           end
      else if byte_is c 10 || byte_is c 11 || byte_is c 12 ||
              byte_is c 28 || byte_is c 29 || byte_is c 30 then 1
      else if byte_is c 194
      then match r with
           | String d _ => if byte_is d 133 then 2 else 0
           | "" => 0
           end
      else if byte_is c 226
      then match r with
           | String d (String e _) =>
               if byte_is d 128 && (byte_is e 168 || byte_is e 169)
               then 3 else 0
           | _ => 0
           end
      else 0
  end%nat.

(** [cur] is the line being read; [skip] counts the bytes of a boundary
    still to be passed over. *)
Fixpoint splitlines_go (skip : nat) (cur : string) (s : string) : list string :=
  match s with
  | "" => match cur with "" => [] | _ => [cur] end
  | String c r =>
      match skip with
      | S k => splitlines_go k cur r
      | O => match break_at s with
             | O => splitlines_go 0 (cur +:+ String c "") r
             | S k => cur :: splitlines_go k "" r
             end
      end
  end.

(** A text without a line boundary. *)
Fixpoint single_line (s : string) : bool :=
  match s with
  | "" => true
  | String _ r => Nat.eqb (break_at s) 0 && single_line r
  end.

(** [s.splitlines()] *)
Definition splitlines (s : string) : list string := splitlines_go 0 "" s.

(** Length in bytes of the white-space character at the head of [s], [0]
    when there is none: the characters [str.strip] removes are U+0009 to
    U+000D, U+001C to U+0020, U+0085, U+00A0, U+1680, U+2000 to U+200A,
    U+2028, U+2029, U+202F, U+205F and U+3000. *)
Definition space_at (s : string) : nat :=
  match s with
  | "" => 0
  | String c r =>
      let n := nat_of_ascii c in
      if (Nat.leb 9 n && Nat.leb n 13) || (Nat.leb 28 n && Nat.leb n 32)
      then 1
      else match r with
           | String d r' =>
               let m := nat_of_ascii d in
               if Nat.eqb n 194 && (Nat.eqb m 133 || Nat.eqb m 160) then 2
               else match r' with
                    | String e _ =>
                        let k := nat_of_ascii e in
                        if Nat.eqb n 225 && Nat.eqb m 154 && Nat.eqb k 128
                        then 3
                        else if Nat.eqb n 226 && Nat.eqb m 128 &&
                                ((Nat.leb 128 k && Nat.leb k 138) ||
                                 Nat.eqb k 168 || Nat.eqb k 169 ||
                                 Nat.eqb k 175)
                        then 3
                        else if Nat.eqb n 226 && Nat.eqb m 129 &&
                                Nat.eqb k 159
                        then 3
                        else if Nat.eqb n 227 && Nat.eqb m 128 &&
                                Nat.eqb k 128
                        then 3
                        else 0
                    | "" => 0
                    end
           | "" => 0
           end
  end%nat.

Fixpoint lstrip_go (skip : nat) (s : string) : string :=
  match s with
  | "" => ""
  | String c r =>
      match skip with
      | S k => lstrip_go k r
      | O => match space_at s with
             | O => s
             | S k => lstrip_go k r
             end
      end
  end.
Definition lstrip (s : string) : string := lstrip_go 0 s.

Fixpoint rstrip (s : string) : string :=
  match s with
  | "" => ""
  | String c r => match lstrip s with
                  | "" => ""
                  | _ => String c (rstrip r)
                  end
  end.

(** [s.strip()] *)
Definition strip (s : string) : string := rstrip (lstrip s).

(** [re.search(r"\[([A-Z_]+)\]", s)], giving group 1. *)
Definition is_type_char (c : ascii) : bool :=
  let n := nat_of_ascii c in ((Nat.leb 65 n && Nat.leb n 90) || Nat.eqb n 95)%nat.
Fixpoint type_run (s : string) : string * string :=
  match s with
  | String c r => if is_type_char c
                  then let '(run, rest) := type_run r in (String c run, rest)
                  else ("", s)
  | "" => ("", "")
  end.
Definition type_tag_here (s : string) : option string :=
  match s with
  | String "[" r =>
      match type_run r with
      | (String c run, String "]" _) => Some (String c run)
      | _ => None
      end
  | _ => None
  end.
Fixpoint search_type_tag (s : string) : option string :=
  match type_tag_here s with
  | Some t => Some t
  | None => match s with
            | "" => None
            | String _ r => search_type_tag r
            end
  end.

(** ** Plan step statuses ([app/flow/base.py]) *)

Inductive PlanStepStatus : Type := NOT_STARTED | IN_PROGRESS | COMPLETED | BLOCKED.

(** [status.value] *)
Definition status_value (s : PlanStepStatus) : string :=
  match s with
  | NOT_STARTED => "not_started"
  | IN_PROGRESS => "in_progress"
  | COMPLETED => "completed"
  | BLOCKED => "blocked"
  end.

(** [PlanStepStatus.get_active_statuses()] *)
Definition get_active_statuses : list string :=
  [status_value NOT_STARTED; status_value IN_PROGRESS].

(** [PlanStepStatus.get_status_marks()] *)
Definition get_status_marks : list (string * string) :=
  [(status_value COMPLETED, "[✓]"); (status_value IN_PROGRESS, "[→]");
   (status_value BLOCKED, "[!]"); (status_value NOT_STARTED, "[ ]")].

(** [d.get(key, default)] on a dictionary written as a literal. *)
Fixpoint dict_get (d : list (string * string)) (key default : string) : string :=
  match d with
  | [] => default
  | (k, v) :: d' => if String.eqb k key then v else dict_get d' key default
  end.

(** ** The plan store *)

(** The value stored under a plan identifier: the title, the steps and
    the status of each step. *)
Record PlanData : Type := {
  title : option string;
  steps : list string;
  step_statuses : list string }.

(** The plan text built by [PlanningFlow._generate_plan_text_from_storage]
    from the stored data. *)
Definition plan_lines_text (sts : list string) (statuses : list string) : string :=
  String.concat ""
    (imap (fun i step =>
             let status := default (status_value NOT_STARTED) (statuses !! i) in
             dict_get get_status_marks status "[ ]" +:+ " " +:+ step +:+ LF)
          sts).
Definition plan_text (plan_data : PlanData) : string :=
  "计划: " +:+ default "未命名计划" (title plan_data) +:+ LF +:+ LF +:+
  "步骤:" +:+ LF +:+
  plan_lines_text (steps plan_data) (step_statuses plan_data).

Module PlanningTool.

(** Modelled from the spec: [app/tool/planning.py] (the Plan Store) is not
    part of the sources at hand.  [create] registers a new plan identifier
    with a title and an ordered list of steps, all not started. *)
Definition create (plan_id ttl : string) (sts : list string)
  : M (gmap string PlanData) ToolResult :=
  exec! modify (fun plans : gmap string PlanData =>
                  <[plan_id := {| title := Some ttl; steps := sts;
                                  step_statuses :=
                                    map (fun _ => status_value NOT_STARTED) sts |}]>
                    plans) in
  ret {| output := Some ("plan created: " +:+ plan_id); error := None;
         result_base64_image := None; system_note := None |}.

(** Modelled from the spec: [mark_step] sets one step's status by index and
    fails if the plan or the index is unknown. *)
Definition mark_step (plan_id : string) (step_index : nat) (step_status : string)
  : M (gmap string PlanData) ToolResult :=
  fun plans =>
    match plans !! plan_id with
    | None => (Raise (Exn ToolError ("no plan found with id: " +:+ plan_id) None),
               plans)
    | Some plan_data =>
        if (step_index <? length (steps plan_data))%nat &&
           (step_index <? length (step_statuses plan_data))%nat
        then (Ok {| output := Some ("step marked in plan: " +:+ plan_id);
                    error := None; result_base64_image := None;
                    system_note := None |},
              <[plan_id := {| title := title plan_data;
                              steps := steps plan_data;
                              step_statuses :=
                                <[step_index := step_status]>
                                  (step_statuses plan_data) |}]> plans)
        else (Raise (Exn ToolError "invalid step index" None), plans)
    end.

(** Modelled from the spec: [get] and [get_plan_text] render the plan as a
    title plus one line per step prefixed with its status glyph, in the
    documented plan rendering format. *)
Definition get_plan_text (plan_id : string)
  : M (gmap string PlanData) ToolResult :=
  fun plans =>
    match plans !! plan_id with
    | None => (Raise (Exn ToolError ("no plan found with id: " +:+ plan_id) None),
               plans)
    | Some plan_data =>
        (Ok {| output := Some (plan_text plan_data); error := None;
               result_base64_image := None; system_note := None |}, plans)
    end.

End PlanningTool.

(** ** [PlanningAgent] ([app/agent/planning.py]) *)

Module PlanningAgent.
Section PlanningAgent.
Context {W : Type}.
(** [self.active_plan_id], set once by the validator. *)
Variable active_plan_id : option string.

(** One record of [step_execution_tracker]. *)
Record Tracked : Type := {
  step_index : nat;
  tracked_tool_name : string;
  tracked_status : string;
  tracked_result : option string }.

(** [get_plan] *)
Definition get_plan : M (Agent W) (option string) :=
  if negb (opt_truthy active_plan_id)
  then ret (Some "没有活动计划。请先创建一个计划。")
  else
    let! result :=
      (fun a => lift_env
         (ToolCollection_execute (available_tools a) "planning"
            (JObj [("command", JStr "get");
                   ("plan_id", JStr (default "" active_plan_id))])) a) in
    match result with
    | VResult _ r => ret (output r)
    | VStr s => ret (Some s)
    | VOther _ t => ret (Some t)
    end.

(** Index of the first line whose stripped content is the marker. *)
Fixpoint find_steps_line (i : nat) (plan_lines : list string) : option nat :=
  match plan_lines with
  | [] => None
  | line :: rest => if String.eqb (strip line) "Steps:" then Some i
                    else find_steps_line (S i) rest
  end.

(** Index of the first line that shows a step not started or in progress. *)
Fixpoint find_active_line (i : nat) (plan_lines : list string) : option nat :=
  match plan_lines with
  | [] => None
  | line :: rest => if contains "[ ]" line || contains "[→]" line then Some i
                    else find_active_line (S i) rest
  end.

(** [_get_current_step_index].  [get_plan] is awaited before the [try]
    block; calling [splitlines] on [None] raises [AttributeError] inside. *)
Definition get_current_step_index : M (Agent W) (option nat) :=
  if negb (opt_truthy active_plan_id) then ret None
  else
    let! plan := get_plan in
    try_except
      (match plan with
       | None => raise (Exn AttributeError
                   "'NoneType' object has no attribute 'splitlines'" None)
       | Some p =>
           let plan_lines := splitlines p in
           match find_steps_line 0 plan_lines with
           | None => ret None
           | Some steps_index =>
               match find_active_line 0 (drop (S steps_index) plan_lines) with
               | Some i =>
                   exec! (fun a => lift_env
                            (ToolCollection_execute (available_tools a) "planning"
                               (JObj [("command", JStr "mark_step");
                                      ("plan_id", JStr (default "" active_plan_id));
                                      ("step_index", JNum (Z.of_nat i));
                                      ("step_status", JStr "in_progress")])) a) in
                   ret (Some i)
               | None => ret None
               end
           end
       end)
      (fun _ => ret None).

(** [think]: the prompt, the current step and, after the inherited
    [think], the association of the first tool call with the current
    step.  The tracker and the current step index are returned with the
    decision. *)
Definition planning_think (tracker : gmap string Tracked)
  : M (Agent W) (bool * option nat * gmap string Tracked) :=
  let! plan := (if opt_truthy active_plan_id then get_plan else ret None) in
  let! nsp := gets next_step_prompt in
  let prompt :=
    if opt_truthy active_plan_id
    then "CURRENT PLAN STATUS:" +:+ LF +:+ default "None" plan +:+ LF +:+ LF +:+
         default "None" nsp
    else default "None" nsp in
  exec! modify (add_message (user_message prompt None)) in
  let! current_step_index := get_current_step_index in
  let! result := think in
  let! calls := gets tool_calls in
  match result, calls with
  | true, Some (latest_tool_call :: _) =>
      let! tool_name := function_name latest_tool_call in
      let! specials := gets special_tool_names in
      match current_step_index with
      | Some i =>
          if negb (String.eqb tool_name "planning") &&
             negb (existsb (String.eqb tool_name) specials)
          then ret (result, current_step_index,
                    <[id latest_tool_call :=
                        {| step_index := i; tracked_tool_name := tool_name;
                           tracked_status := "pending";
                           tracked_result := None |}]> tracker)
          else ret (result, current_step_index, tracker)
      | None => ret (result, current_step_index, tracker)
      end
  | _, _ => ret (result, current_step_index, tracker)
  end.

(** What [create_initial_plan] and [run] need besides: [json.loads],
    [str.lower], the [step] method and the cleanup hook of the sandbox. *)
Variable json_loads : string -> option json.
Variable str_lower : string -> string.
Variable step : M (Agent W) string.
Variable sandbox_cleanup : W -> W.

(** The [for] loop of [create_initial_plan]: the first call of the
    planning tool is executed and recorded, and ends the loop. *)
Fixpoint initial_plan_loop (calls : list ToolCall) : M (Agent W) bool :=
  match calls with
  | [] => ret false
  | tool_call :: rest =>
      let! name := function_name tool_call in
      if String.eqb name "planning"
      then
        let! result := execute_tool json_loads str_lower (Some tool_call) in
        exec! modify (add_message
                (tool_message result name (id tool_call) None)) in
        ret true
      else initial_plan_loop rest
  end.

(** [create_initial_plan].  The request goes to the memory before the
    model is asked.  The assistant message is built by going through the
    calls of the answer, as the loop after it does, so that an answer
    without calls raises [TypeError]. *)
Definition create_initial_plan (request : string) : M (Agent W) unit :=
  let messages :=
    [user_message ("分析请求并创建ID为 " +:+ default "None" active_plan_id +:+
                   " 的计划: " +:+ request) None] in
  exec! modify (fun a => set_memory (memory a ++ messages)%list a) in
  let! response :=
    (fun a => lift_env
       (llm a messages
          (Some [{| role := system; content := system_prompt a;
                    msg_tool_calls := None; msg_name := None;
                    tool_call_id := None; base64_image := None |}])
          (to_params (available_tools a)) AUTO) a) in
  match resp_tool_calls response with
  | None => raise (Exn TypeError "'NoneType' object is not iterable" None)
  | Some calls =>
      exec! modify (add_message
              (from_tool_calls calls (resp_content response))) in
      let! plan_created := initial_plan_loop calls in
      if plan_created then ret tt
      else modify (add_message
             (assistant_message
                (Some "错误: 命令需要参数 `plan_id`: create") None))
  end.

(** [PlanningAgent.run]: the initial plan is created for a request, then
    the inherited [run] is called without a request. *)
Definition run (fuel : nat) (request : option string) (a : Agent W)
  : option (Res string * Agent W) :=
  match (if opt_truthy request
         then create_initial_plan (default "" request)
         else ret tt) a with
  | (Raise e, a1) => Some (Raise e, a1)
  | (Ok _, a1) => run step sandbox_cleanup fuel None a1
  end.

End PlanningAgent.
End PlanningAgent.

(** Modelled from the spec: the dispatch of [PlanningTool.execute] on its
    keyword arguments ([app/tool/planning.py] is not part of the sources at
    hand); a call that names no known operation, or lacks an argument of
    it, fails with the tool's error. *)
Module PlanningToolCall.

Fixpoint kw_get (kw : list (string * json)) (key : string) : option json :=
  match kw with
  | [] => None
  | (k, v) :: kw' => if String.eqb k key then Some v else kw_get kw' key
  end.

Fixpoint json_strings (l : list json) : option (list string) :=
  match l with
  | [] => Some []
  | JStr s :: l' => match json_strings l' with
                    | Some ss => Some (s :: ss)
                    | None => None
                    end
  | _ => None
  end.

Definition bad_call : exn := Exn ToolError "unrecognized planning call" None.

Definition execute (kw : list (string * json))
  : M (gmap string PlanData) ToolResult :=
  match kw_get kw "command", kw_get kw "plan_id" with
  | Some (JStr "create"), Some (JStr plan_id) =>
      match kw_get kw "title", kw_get kw "steps" with
      | Some (JStr ttl), Some (JArr l) =>
          match json_strings l with
          | Some sts => PlanningTool.create plan_id ttl sts
          | None => raise bad_call
          end
      | _, _ => raise bad_call
      end
  | Some (JStr "mark_step"), Some (JStr plan_id) =>
      match kw_get kw "step_index", kw_get kw "step_status" with
      | Some (JNum n), Some (JStr st) =>
          if 0 <=? n then PlanningTool.mark_step plan_id (Z.to_nat n) st
          else raise bad_call
      | _, _ => raise bad_call
      end
  | Some (JStr "get"), Some (JStr plan_id)
  | Some (JStr "get_plan_text"), Some (JStr plan_id) =>
      PlanningTool.get_plan_text plan_id
  | _, _ => raise bad_call
  end.

End PlanningToolCall.

(** ** [PlanningFlow] ([app/flow/base.py], [app/flow/planning.py]) *)

Module PlanningFlow.

Definition DQ : string := String (ascii_of_nat 34) "".
Definition indent8 : string := "        ".
Definition indent12 : string := "            ".

(** The attributes of a flow instance.  [plans] is [planning_tool.plans];
    [flow_env] is the outside world, handed to an executor while it runs. *)
Record Flow (W : Type) : Type := {
  agents : gmap string (Agent W);
  primary_agent_key : option string;
  flow_llm : LLM W;
  executor_keys : list string;
  active_plan_id : string;
  current_step_index : option nat;
  plans : gmap string PlanData;
  flow_env : W }.
Arguments agents {W} _.
Arguments primary_agent_key {W} _.
Arguments flow_llm {W} _.
Arguments executor_keys {W} _.
Arguments active_plan_id {W} _.
Arguments current_step_index {W} _.
Arguments plans {W} _.
Arguments flow_env {W} _.

Definition set_agents {W} (v : gmap string (Agent W)) (f : Flow W) : Flow W :=
  {| agents := v; primary_agent_key := primary_agent_key f;
     flow_llm := flow_llm f; executor_keys := executor_keys f;
     active_plan_id := active_plan_id f;
     current_step_index := current_step_index f; plans := plans f;
     flow_env := flow_env f |}.
Definition set_current_step_index {W} (v : option nat) (f : Flow W) : Flow W :=
  {| agents := agents f; primary_agent_key := primary_agent_key f;
     flow_llm := flow_llm f; executor_keys := executor_keys f;
     active_plan_id := active_plan_id f;
     current_step_index := v; plans := plans f; flow_env := flow_env f |}.
Definition set_plans {W} (v : gmap string PlanData) (f : Flow W) : Flow W :=
  {| agents := agents f; primary_agent_key := primary_agent_key f;
     flow_llm := flow_llm f; executor_keys := executor_keys f;
     active_plan_id := active_plan_id f;
     current_step_index := current_step_index f; plans := v;
     flow_env := flow_env f |}.
Definition set_flow_env {W} (v : W) (f : Flow W) : Flow W :=
  {| agents := agents f; primary_agent_key := primary_agent_key f;
     flow_llm := flow_llm f; executor_keys := executor_keys f;
     active_plan_id := active_plan_id f;
     current_step_index := current_step_index f; plans := plans f;
     flow_env := v |}.

(** What [_get_current_step_info] returns next to the index. *)
Record StepInfo : Type := {
  text : string;
  type : option string }.

Section PlanningFlow.
Context {W : Type}.
Variable json_loads : string -> option json.
(** The [step] method of the executors and the sandbox cleanup hook. *)
Variable step : M (Agent W) string.
Variable sandbox_cleanup : W -> W.

(** A call of [self.planning_tool.execute]. *)
Definition on_plans {A} (m : M (gmap string PlanData) A) : M (Flow W) A :=
  fun f => let '(r, p) := m (plans f) in (r, set_plans p f).

(** [primary_agent]: the key, when it names an agent. *)
Definition primary_agent (f : Flow W) : option string :=
  match primary_agent_key f with
  | Some k => match agents f !! k with Some _ => Some k | None => None end
  | None => None
  end.

(** [get_executor], giving the key of the agent it returns. *)
Definition get_executor (step_type : option string) (f : Flow W) : option string :=
  match step_type with
  | Some t => if str_truthy t && bool_decide (is_Some (agents f !! t))
              then Some t
              else match List.find (fun key => bool_decide (is_Some (agents f !! key)))
                           (executor_keys f) with
                   | Some key => Some key
                   | None => primary_agent f
                   end
  | None => match List.find (fun key => bool_decide (is_Some (agents f !! key)))
                    (executor_keys f) with
            | Some key => Some key
            | None => primary_agent f
            end
  end.

(** [_generate_plan_text_from_storage] *)
Definition generate_plan_text_from_storage (f : Flow W) : string :=
  if negb (str_truthy (active_plan_id f)) then "未找到计划"
  else match plans f !! active_plan_id f with
       | None => "未找到计划"
       | Some plan_data => plan_text plan_data
       end.

(** [_get_plan_text] *)
Definition get_plan_text : M (Flow W) string :=
  fun f =>
    match on_plans (PlanningTool.get_plan_text (active_plan_id f)) f with
    | (Ok result, f') =>
        if ToolResult_bool result && negb (opt_truthy (error result))
        then (Ok (default "None" (output result)), f')
        else (Ok (generate_plan_text_from_storage f'), f')
    | (Raise _, f') => (Ok (generate_plan_text_from_storage f'), f')
    end.

(** [_mark_step_completed] *)
Definition mark_step_completed : M (Flow W) unit :=
  fun f =>
    match current_step_index f with
    | Some i =>
        match on_plans (PlanningTool.mark_step (active_plan_id f) i
                          (status_value COMPLETED)) f with
        | (_, f') => (Ok tt, f')
        end
    | None => (Ok tt, f)
    end.

(** The direct update of the status list made when [mark_step] fails. *)
Definition force_in_progress (i : nat) (statuses : list string) : list string :=
  if (i <? length statuses)%nat
  then <[i := status_value IN_PROGRESS]> statuses
  else (statuses ++ replicate (i - length statuses) (status_value NOT_STARTED)
          ++ [status_value IN_PROGRESS])%list.

(** The scan of [_get_current_step_info] over [enumerate(steps)]. *)
Fixpoint first_active_step (i : nat) (sts : list string) (statuses : list string)
  : option (nat * string) :=
  match sts with
  | [] => None
  | s :: rest =>
      let status := default (status_value NOT_STARTED) (statuses !! i) in
      if existsb (String.eqb status) get_active_statuses
      then Some (i, s)
      else first_active_step (S i) rest statuses
  end.

(** [_get_current_step_info] *)
Definition get_current_step_info : M (Flow W) (option nat * option StepInfo) :=
  fun f =>
    if negb (str_truthy (active_plan_id f)) then (Ok (None, None), f)
    else match plans f !! active_plan_id f with
         | None => (Ok (None, None), f)
         | Some plan_data =>
             match first_active_step 0 (steps plan_data)
                     (step_statuses plan_data) with
             | None => (Ok (None, None), f)
             | Some (i, s) =>
                 let step_info :=
                   {| text := s; type := lower <$> search_type_tag s |} in
                 match on_plans (PlanningTool.mark_step (active_plan_id f) i
                                   (status_value IN_PROGRESS)) f with
                 | (Ok _, f') => (Ok (Some i, Some step_info), f')
                 | (Raise _, f') =>
                     (Ok (Some i, Some step_info),
                      set_plans
                        (<[active_plan_id f' :=
                             {| title := title plan_data;
                                steps := steps plan_data;
                                step_statuses :=
                                  force_in_progress i (step_statuses plan_data) |}]>
                           (plans f')) f')
                 end
             end
         end.

Definition step_prompt (plan_status : string) (i : option nat) (step_text : string)
  : string :=
  LF +:+ indent8 +:+ "当前计划状态:" +:+ LF +:+
  indent8 +:+ plan_status +:+ LF +:+ LF +:+
  indent8 +:+ "你的当前任务:" +:+ LF +:+
  indent8 +:+ "你现在正在处理步骤 " +:+
    match i with Some n => pretty (Z.of_nat n) | None => "None" end +:+
    ": " +:+ DQ +:+ step_text +:+ DQ +:+ LF +:+ LF +:+
  indent8 +:+ "请使用适当的工具执行此步骤。完成后，提供你完成内容的摘要。" +:+ LF +:+
  indent8.

(** [await executor.run(step_prompt)] on the agent stored under [key]: the
    agent acts on the flow's world and is stored back afterwards. *)
Definition run_executor (fuel : nat) (key : option string) (prompt : string)
    (f : Flow W) : option (Res string * Flow W) :=
  match key with
  | None => Some (Raise (Exn AttributeError
                    "'NoneType' object has no attribute 'run'" None), f)
  | Some k =>
      match agents f !! k with
      | None => Some (Raise (Exn AttributeError
                        "'NoneType' object has no attribute 'run'" None), f)
      | Some executor =>
          match run step sandbox_cleanup fuel (Some prompt)
                  (set_env (flow_env f) executor) with
          | None => None
          | Some (r, executor') =>
              Some (r, set_flow_env (env executor')
                         (set_agents (<[k := executor']> (agents f)) f))
          end
      end
  end.

(** [_execute_step] *)
Definition execute_step (fuel : nat) (key : option string) (step_info : StepInfo)
    (f : Flow W) : option (Res string * Flow W) :=
  let '(plan_status, f1) :=
    match get_plan_text f with
    | (Ok t, f1) => (t, f1)
    | (Raise _, f1) => ("", f1)
    end in
  let prompt := step_prompt plan_status (current_step_index f1) (text step_info) in
  match run_executor fuel key prompt f1 with
  | None => None
  | Some (Ok step_result, f2) =>
      match mark_step_completed f2 with
      | (_, f3) => Some (Ok step_result, f3)
      end
  | Some (Raise e, f2) => Some (Ok ("步骤执行失败: " +:+ exn_str e), f2)
  end.

(** [_finalize_plan] *)
Definition finalize_plan : M (Flow W) string :=
  let! plan_status := get_plan_text in
  ret (LF +:+ indent12 +:+ "计划完成！" +:+ LF +:+ LF +:+
       indent12 +:+ "最终计划状态:" +:+ LF +:+
       indent12 +:+ plan_status +:+ LF +:+ LF +:+
       indent12 +:+ "所有步骤已完成。计划已成功执行。" +:+ LF +:+
       indent12).

(** [executor.state == AgentState.FINISHED] for the agent under [key]. *)
Definition executor_finished (key : option string) (f : Flow W) : bool :=
  match key with
  | Some k => match agents f !! k with
              | Some executor => state_eqb (state executor) FINISHED
              | None => false
              end
  | None => false
  end.

(** The [while True] loop of [execute]: one unit of [fuel] per plan step
    taken up; [run_fuel] is the fuel of each executor run. *)
Fixpoint execute_loop (fuel run_fuel : nat) (result : string) (f : Flow W)
  : option (Res string * Flow W) :=
  match fuel with
  | O => None
  | S fuel' =>
      match get_current_step_info f with
      | (Raise e, f1) => Some (Raise e, f1)
      | (Ok (idx, step_info), f0) =>
          let f1 := set_current_step_index idx f0 in
          match idx, step_info with
          | Some _, Some info =>
              let executor := get_executor (type info) f1 in
              match execute_step run_fuel executor info f1 with
              | None => None
              | Some (Raise e, f2) => Some (Raise e, f2)
              | Some (Ok step_result, f2) =>
                  let result := result +:+ step_result +:+ LF in
                  if executor_finished executor f2
                  then Some (Ok result, f2)
                  else execute_loop fuel' run_fuel result f2
              end
          | _, _ =>
              match finalize_plan f1 with
              | (Ok t, f2) => Some (Ok (result +:+ t), f2)
              | (Raise e, f2) => Some (Raise e, f2)
              end
          end
      end
  end.

Definition default_steps : list string := ["分析请求"; "执行任务"; "验证结果"].

(** [_create_initial_plan] *)
Definition create_initial_plan (request : string) : M (Flow W) unit :=
  let system_msg := system_message
    ("你是一个规划助手。创建一个简洁、可执行的计划，包含清晰的步骤。" +:+
     "关注关键里程碑而不是详细的子步骤。" +:+ "优化清晰度和效率。") in
  let user_msg := user_message
    ("创建一个合理的计划，包含清晰的步骤来完成以下任务: " +:+ request) None in
  let! response :=
    (fun f => let '(r, w) := flow_llm f [user_msg] (Some [system_msg])
                               [("planning", "")] AUTO (flow_env f) in
              (r, set_flow_env w f)) in
  let! pid := gets active_plan_id in
  let fix calls_loop (calls : list ToolCall) : M (Flow W) bool :=
    match calls with
    | [] => ret false
    | tool_call :: rest =>
        let! name := function_name tool_call in
        if String.eqb name "planning"
        then
          match function tool_call with
          | Some fn =>
              match arguments fn with
              | Some args =>
                  match json_loads args with
                  | None => calls_loop rest
                  | Some (JObj kw) =>
                      exec! on_plans (PlanningToolCall.execute
                                        (("plan_id", JStr pid) :: kw)) in
                      ret true
                  | Some _ => raise (Exn TypeError
                                "object does not support item assignment" None)
                  end
              | None => raise (Exn TypeError
                          "'NoneType' object does not support item assignment" None)
              end
          | None => calls_loop rest
          end
        else calls_loop rest
    end in
  let! created := calls_loop (default [] (resp_tool_calls response)) in
  if created then ret tt
  else
    exec! on_plans (PlanningTool.create pid
            ("计划: " +:+ slice_to 50 request +:+
             (if (50 <? cp_len request)%nat then "..." else ""))
            default_steps) in
    ret tt.

(** [execute] *)
Definition execute (fuel run_fuel : nat) (input_text : string) (f : Flow W)
  : option (string * Flow W) :=
  let failed (e : exn) (f' : Flow W) := Some ("执行失败: " +:+ exn_str e, f') in
  match primary_agent f with
  | None => failed (Exn ValueError "没有可用的主代理" None) f
  | Some _ =>
      let prepared :=
        if str_truthy input_text
        then match create_initial_plan input_text f with
             | (Ok _, f1) =>
                 match plans f1 !! active_plan_id f1 with
                 | Some _ => inr f1
                 | None => inl (Some ("为以下内容创建计划失败: " +:+ input_text, f1))
                 end
             | (Raise e, f1) => inl (failed e f1)
             end
        else inr f in
      match prepared with
      | inl answer => answer
      | inr f1 =>
          match execute_loop fuel run_fuel "" f1 with
          | None => None
          | Some (Ok result, f2) => Some (result, f2)
          | Some (Raise e, f2) => failed e f2
          end
      end
  end.

End PlanningFlow.
End PlanningFlow.

(** ** Concrete collaborators and agents

    The world is a counter of the queries sent to the model client. *)

Module Examples.

Definition DQ : string := String (ascii_of_nat 34) "".
Definition status_success : string :=
  "{" +:+ DQ +:+ "status" +:+ DQ +:+ ": " +:+ DQ +:+ "success" +:+ DQ +:+ "}".

(** The two payloads used below, as [json.loads] reads them. *)
Definition loads (s : string) : option json :=
  if String.eqb s "{}" then Some (JObj [])
  else if String.eqb s status_success
  then Some (JObj [("status", JStr "success")])
  else None.

(** [Terminate] ([app/tool/terminate.py]): [execute(status)]. *)
Definition terminate : BaseTool nat :=
  {| tool_name := "terminate";
     tool_description := "当请求已满足或助手无法继续执行任务时终止交互。";
     tool_execute := fun kw =>
       match kw with
       | [("status", JStr status)] => ret (VStr ("交互已完成，状态: " +:+ status))
       | _ => raise (Exn TypeError "execute() got unexpected arguments" None)
       end |}.

(** A tool that fails with [ToolError], as [Bash] does without a command
    ([app/tool/bash.py]). *)
Definition bash_no_command : BaseTool nat :=
  {| tool_name := "bash";
     tool_description := "shell";
     tool_execute := fun _ => raise (Exn ToolError "未提供命令。" None) |}.

(** A tool that fails with another exception. *)
Definition broken : BaseTool nat :=
  {| tool_name := "broken";
     tool_description := "fails";
     tool_execute := fun _ => raise (Exn OtherException "boom" None) |}.

Definition toolbox : ToolCollection nat :=
  ToolCollection_init [terminate; bash_no_command; broken].

Definition call (cid name : string) (args : option string) : ToolCall :=
  {| id := cid; function := Some {| fn_name := name; arguments := args |} |}.

(** A model that only talks. *)
Definition llm_talk : LLM nat :=
  fun _ _ _ _ w =>
    (Ok {| resp_content := Some ("thought " +:+ pretty (Z.of_nat w));
           resp_tool_calls := None |}, S w).

(** A model that asks for [terminate] at once. *)
Definition llm_terminate : LLM nat :=
  fun _ _ _ _ w =>
    (Ok {| resp_content := Some "done";
           resp_tool_calls := Some [call "call_1" "terminate" (Some status_success)] |},
     S w).

(** A model whose query fails: the retry layer gives up on a token limit. *)
Definition token_limit : exn := Exn TokenLimitExceeded "limit 4096" None.
Definition llm_token_limit : LLM nat :=
  fun _ _ _ _ w => (Raise (Exn RetryError "RetryError" (Some token_limit)), S w).
(** The same failure surfacing as a [ValueError]. *)
Definition llm_value_error : LLM nat :=
  fun _ _ _ _ w => (Raise (Exn ValueError "bad request" (Some token_limit)), S w).

Definition agent (model : LLM nat) (st : AgentState) (budget current : Z)
  : Agent nat :=
  {| name := "toolcall"; system_prompt := Some "system";
     next_step_prompt := Some "next"; llm := model; memory := [];
     state := st; max_steps := budget; current_step := current;
     duplicate_threshold := 2; available_tools := toolbox;
     tool_choices := AUTO; special_tool_names := ["terminate"];
     tool_calls := None; current_base64_image := None;
     max_observe := None; env := O |}.

Definition example_step : M (Agent nat) string := toolcall_step loads lower.
Definition cleanup (w : nat) : nat := w.

Definition msg (r : Role) (c : string) : Message :=
  {| role := r; content := Some c; msg_tool_calls := None; msg_name := None;
     tool_call_id := None; base64_image := None |}.

(** Three identical answers of the model, then the observation of a
    tool. *)
Definition repeating : Agent nat :=
  set_memory [msg assistant "again"; msg assistant "again";
              msg assistant "again"; msg tool "observed"]
    (agent llm_talk RUNNING 3 0).

(** A flow with one executor, whose model asks for [terminate] at once,
    and a planning model that offers no plan, so that the default plan of
    three steps is created. *)
Definition flow : PlanningFlow.Flow nat :=
  {| PlanningFlow.agents := {["default" := agent llm_terminate IDLE 20 0]};
     PlanningFlow.primary_agent_key := Some "default";
     PlanningFlow.flow_llm := llm_talk;
     PlanningFlow.executor_keys := ["default"];
     PlanningFlow.active_plan_id := "plan_1";
     PlanningFlow.current_step_index := None;
     PlanningFlow.plans := ∅;
     PlanningFlow.flow_env := O |}.

(** A plan in the store, and a planning tool that renders it. *)
Definition sample_plan : PlanData :=
  {| title := Some "旅行"; steps := ["[SEARCH] find data"; "summarize"];
     step_statuses := ["not_started"; "not_started"] |}.
Definition planning_stub : BaseTool nat :=
  {| tool_name := "planning";
     tool_description := "plans";
     tool_execute := fun _ =>
       ret (VResult PlainResult
              {| output := Some (plan_text sample_plan); error := None;
                 result_base64_image := None; system_note := None |}) |}.
Definition planner : Agent nat :=
  {| name := "planning"; system_prompt := Some "system";
     next_step_prompt := Some "next"; llm := llm_talk; memory := [];
     state := IDLE; max_steps := 20; current_step := 0;
     duplicate_threshold := 2;
     available_tools := ToolCollection_init [planning_stub; terminate];
     tool_choices := AUTO; special_tool_names := ["terminate"];
     tool_calls := None; current_base64_image := None;
     max_observe := None; env := O |}.

End Examples.

(** ** More of [app/tool/base.py] and [app/tool/tool_collection.py] *)

(** [combine_fields] of [ToolResult.__add__] *)
Definition combine_fields (field other_field : option string)
    (concatenate : bool) : Res (option string) :=
  if opt_truthy field && opt_truthy other_field
  then if concatenate
       then Ok (Some (default "" field +:+ default "" other_field))
       else Raise (Exn ValueError "无法合并工具结果" None)
  else Ok (if opt_truthy field then field else other_field).

(** [ToolResult.__add__]: the four fields are combined in the order of the
    keyword arguments, the image being the only one that is not
    concatenated. *)
Definition ToolResult_add (r other : ToolResult) : Res ToolResult :=
  match combine_fields (output r) (output other) true with
  | Raise e => Raise e
  | Ok out =>
      match combine_fields (error r) (error other) true with
      | Raise e => Raise e
      | Ok err =>
          match combine_fields (result_base64_image r)
                  (result_base64_image other) false with
          | Raise e => Raise e
          | Ok img =>
              match combine_fields (system_note r) (system_note other) true with
              | Raise e => Raise e
              | Ok sys =>
                  Ok {| output := out; error := err;
                        result_base64_image := img; system_note := sys |}
              end
          end
      end
  end.

(** [ToolCollection.get_tool] *)
Definition get_tool {W} (tc : ToolCollection W) (name : string)
  : option (BaseTool W) :=
  tool_map tc !! name.

(** [ToolCollection.add_tool] *)
Definition add_tool {W} (t : BaseTool W) (tc : ToolCollection W)
  : ToolCollection W :=
  {| tools := (tools tc ++ [t])%list;
     tool_map := <[tool_name t := t]> (tool_map tc) |}.

(** [ToolCollection.add_tools] *)
Definition add_tools {W} (ts : list (BaseTool W)) (tc : ToolCollection W)
  : ToolCollection W :=
  foldl (fun c t => add_tool t c) tc ts.



(** A method that leaves an attribute of the agent as it is, whether it
    returns or raises. *)
Definition preserves {W A X} (f : Agent W -> X) (m : M (Agent W) A) : Prop :=
  forall a r a', m a = (r, a') -> f a' = f a.

(** ** The construction of a flow ([BaseFlow.__init__],
    [PlanningFlow.__init__]) *)

(** The ways to hand agents to a flow: one agent, a list, or a dictionary
    (its items in insertion order). *)
Inductive AgentsArg (W : Type) : Type :=
  | OneAgent (a : Agent W)
  | AgentList (l : list (Agent W))
  | AgentDict (d : list (string * Agent W)).
Arguments OneAgent {W} a.
Arguments AgentList {W} l.
Arguments AgentDict {W} d.

(** [agents_dict] of [BaseFlow.__init__] *)
Definition agents_dict {W} (arg : AgentsArg W) : list (string * Agent W) :=
  match arg with
  | OneAgent a => [("default", a)]
  | AgentList l => imap (fun i a => ("agent_" +:+ pretty i, a)) l
  | AgentDict d => d
  end.

(** [PlanningFlow.__init__] after [BaseFlow.__init__]: the primary key
    defaults to the first key, the executor keys to all keys.  The plan
    identifier, which defaults to a time stamp, is given. *)
Definition PlanningFlow_init {W} (arg : AgentsArg W)
    (primary_agent_key : option string) (executors : list string)
    (plan_id : string) (model : LLM W) (world : W) : PlanningFlow.Flow W :=
  let d := agents_dict arg in
  {| PlanningFlow.agents := list_to_map (reverse d);
     PlanningFlow.primary_agent_key :=
       if opt_truthy primary_agent_key then primary_agent_key
       else match d with
            | (k, _) :: _ => Some k
            | [] => primary_agent_key
            end;
     PlanningFlow.flow_llm := model;
     PlanningFlow.executor_keys :=
       match executors with
       | [] => d.*1
       | _ => executors
       end;
     PlanningFlow.active_plan_id := plan_id;
     PlanningFlow.current_step_index := None;
     PlanningFlow.plans := ∅;
     PlanningFlow.flow_env := world |}.

(** ** Further collaborators and agents *)

Module Samples.
Import Examples.

(** [Bash] asked to restart ([app/tool/bash.py]): the result carries a
    system note and nothing else. *)
Definition bash_restart : BaseTool nat :=
  {| tool_name := "bash";
     tool_description := "shell";
     tool_execute := fun _ =>
       ret (VResult PlainResult
              {| output := None; error := None; result_base64_image := None;
                 system_note := Some "工具已重新启动。" |}) |}.

(** An agent in the middle of a run, with its policy, its pending calls
    and its tools; observations are cut after 12 characters. *)
Definition worker (model : LLM nat) (choice : ToolChoice)
    (calls : option (list ToolCall)) (ts : list (BaseTool nat)) : Agent nat :=
  {| name := "worker"; system_prompt := Some "system";
     next_step_prompt := Some "next"; llm := model;
     memory := [msg user "hi"]; state := RUNNING; max_steps := 3;
     current_step := 1; duplicate_threshold := 2;
     available_tools := ToolCollection_init ts;
     tool_choices := choice; special_tool_names := ["terminate"];
     tool_calls := calls; current_base64_image := None;
     max_observe := Some 12; env := O |}.

(** A call of [terminate] and a call of [bash] without a command. *)
Definition two_calls : list ToolCall :=
  [call "call_1" "terminate" (Some status_success); call "call_2" "bash" None].

(** A result with an image. *)
Definition image_result : ToolResult :=
  {| output := Some " shot"; error := None;
     result_base64_image := Some "aGVsbG8="; system_note := None |}.

(** A model that talks once and then meets the token limit. *)
Definition llm_limit_later : LLM nat :=
  fun messages system_msgs tools choice w =>
    match w with
    | O => llm_talk messages system_msgs tools choice w
    | S _ => llm_token_limit messages system_msgs tools choice w
    end.

(** A plan whose title runs over two lines, the second being the English
    marker, and a planning tool that renders it. *)
Definition marker_plan : PlanData :=
  {| title := Some ("旅行" +:+ LF +:+ "Steps:"); steps := ["find data"];
     step_statuses := ["not_started"] |}.
Definition planning_of (plan_data : PlanData) : BaseTool nat :=
  {| tool_name := "planning";
     tool_description := "plans";
     tool_execute := fun _ =>
       ret (VResult PlainResult
              {| output := Some (plan_text plan_data); error := None;
                 result_base64_image := None; system_note := None |}) |}.

(** A planning agent with its model, its state and its planning tool. *)
Definition planner_of (model : LLM nat) (st : AgentState)
    (plan_data : PlanData) : Agent nat :=
  {| name := "planning"; system_prompt := Some "system";
     next_step_prompt := Some "next"; llm := model; memory := [];
     state := st; max_steps := 20; current_step := 0;
     duplicate_threshold := 2;
     available_tools := ToolCollection_init [planning_of plan_data; terminate];
     tool_choices := AUTO; special_tool_names := ["terminate"];
     tool_calls := None; current_base64_image := None;
     max_observe := None; env := O |}.

End Samples.

(** The text of a call that [act] records: the name of its function. *)
Definition call_name (c : ToolCall) : string :=
  default "" (fn_name <$> function c).

(** ** The calls that [run] and [act] make *)

(** One call of [step] made by the loop of [run]: the agent handed to
    [step], its counter advanced; what [step] returned; the agent as
    [step] left it. *)
Record StepCall (W : Type) : Type := {
  called : Agent W;
  returned : string;
  left_as : Agent W }.
Arguments called {W} _.
Arguments returned {W} _.
Arguments left_as {W} _.

(** The stuck check that follows a step. *)
Definition after_step {W} (a2 : Agent W) : Agent W :=
  if is_stuck a2 then handle_stuck_state a2 else a2.

(** The loop condition of [run]. *)
Definition loop_goes_on {W} (a : Agent W) : bool :=
  (current_step a <? max_steps a) && negb (state_eqb (state a) FINISHED).

(** The iterations of the [while] loop of [run], from the agent at which
    the loop is entered to the agent at which its condition is tested
    next: in each iteration the condition holds, the counter is advanced,
    [step] is called once and returns, and the stuck check is made. *)
Inductive loop_trace {W} (step : M (Agent W) string)
  : Agent W -> list (StepCall W) -> Agent W -> Prop :=
  | loop_rest a : loop_trace step a [] a
  | loop_iteration a r a2 rest a' :
      loop_goes_on a = true ->
      step (set_current_step (current_step a + 1) a) = (Ok r, a2) ->
      loop_trace step (after_step a2) rest a' ->
      loop_trace step a
        ({| called := set_current_step (current_step a + 1) a;
            returned := r; left_as := a2 |} :: rest) a'.

(** The lines that the loop appends to [results], one per call. *)
Definition trace_lines {W} (trace : list (StepCall W)) : list string :=
  map (fun c => step_line (current_step (after_step (left_as c))) (returned c))
    trace.

(** [result[: self.max_observe]], made when [max_observe] is truthy. *)
Definition observe_limit (limit : option Z) (result : string) : string :=
  match limit with
  | Some k => if k =? 0 then result else slice_to k result
  | None => result
  end.

(** The iterations of the [for] loop of [act] over calls that name a
    function: [execute_tool] is called once on each call, in their order,
    its result is cut to the observation limit and recorded in a tool
    message; the observations are collected. *)
Inductive act_trace {W} (json_loads : string -> option json)
    (str_lower : string -> string)
  : list ToolCall -> Agent W -> list string -> Agent W -> Prop :=
  | act_done a : act_trace json_loads str_lower [] a [] a
  | act_call c rest a s b outs a' :
      execute_tool json_loads str_lower (Some c)
        (set_current_base64_image None a) = (Ok s, b) ->
      act_trace json_loads str_lower rest
        (add_message
           (tool_message (observe_limit (max_observe b) s) (call_name c)
              (id c) (current_base64_image b)) b) outs a' ->
      act_trace json_loads str_lower (c :: rest) a
        (observe_limit (max_observe b) s :: outs) a'.

(** * Properties *)

(** Splits a conjunction into its parts. *)
Ltac conjs := repeat match goal with |- _ /\ _ => split end.

(** ** The text functions on sample inputs *)

Example splitlines_sample :
  splitlines ("a" +:+ LF +:+ LF +:+ "b" +:+ LF) = ["a"; ""; "b"].
Proof. reflexivity. Qed.

Example strip_sample : strip ("  Steps: " +:+ LF) = "Steps:".
Proof. reflexivity. Qed.

Example step_type_sample :
  lower <$> search_type_tag "[SEARCH] find data" = Some "search".
Proof. reflexivity. Qed.

Example plan_text_sample :
  splitlines (plan_text {| title := Some "t"; steps := ["a"; "b"; "c"; "d"];
                           step_statuses := ["not_started"; "in_progress";
                                             "completed"; "blocked"] |})
  = ["计划: t"; ""; "步骤:"; "[ ] a"; "[→] b"; "[✓] c"; "[!] d"].
Proof. reflexivity. Qed.

Example slice_sample : slice_to 2 "步骤ab" = "步骤" /\ slice_to (-1) "abc" = "ab".
Proof. split; reflexivity. Qed.

(** ** The lifecycle of [BaseAgent] *)

Section BaseAgentProofs.
Context {W : Type}.
Variable step : M (Agent W) string.
Variable sandbox_cleanup : W -> W.


Lemma state_eqb_neq (s t : AgentState) : state_eqb s t = false <-> s <> t.
Proof. destruct s, t; simpl; split; congruence. Qed.

Lemma state_accept_request (request : option string) (a : Agent W) :
  state (accept_request request a) = state a.
Proof.
  destruct request as [r|]; simpl; [|reflexivity].
  destruct (str_truthy r); reflexivity.
Qed.

(** Whatever the loop raises was raised by a step. *)
Lemma run_loop_raise (fuel : nat) :
  forall results (a : Agent W) e a',
    run_loop step fuel results a = Some (Raise e, a') ->
    exists a0, step a0 = (Raise e, a').
Proof.
  induction fuel as [|fuel IH]; intros results a e a' H; simpl in H.
  - destruct (_ && _); discriminate.
  - destruct (_ && _); [|discriminate].
    destruct (step (set_current_step (current_step a + 1) a)) as [[r|e0] a2] eqn:Hs.
    + eapply IH; exact H.
    + inversion H; subst. eexists; exact Hs.
Qed.

Lemma run_body_raise (fuel : nat) (a : Agent W) e a' :
  run_body step fuel a = Some (Raise e, a') ->
  exists a0, step a0 = (Raise e, a').
Proof.
  unfold run_body. destruct (run_loop step fuel [] a) as [[[r|e0] a1]|] eqn:Hl;
    try discriminate.
  - destruct (_ <=? _); discriminate.
  - intros H; inversion H; subst. eapply run_loop_raise; exact Hl.
Qed.

(** The scope gives back the state it found. *)
Lemma state_context_restores {A} (new_state : AgentState)
    (body : Agent W -> option (Res A * Agent W)) (a : Agent W) r a' :
  state_context new_state body a = Some (r, a') -> state a' = state a.
Proof.
  unfold state_context.
  destruct (body (state_enter new_state a)) as [[[x|e] a1]|];
    intros H; inversion H; reflexivity.
Qed.

Lemma run_results_idle (fuel : nat) (request : option string) (a : Agent W) r a' :
  state a = IDLE ->
  run_results step fuel request a = Some (r, a') -> state a' = IDLE.
Proof.
  intros Hidle. unfold run_results. rewrite Hidle. simpl.
  intros H. apply state_context_restores in H.
  rewrite H, state_accept_request. exact Hidle.
Qed.

(** A run entered from IDLE ends in IDLE, whether it returns or raises. *)
Lemma run_idle (fuel : nat) (request : option string) (a : Agent W) r a' :
  state a = IDLE ->
  run step sandbox_cleanup fuel request a = Some (r, a') -> state a' = IDLE.
Proof.
  intros Hidle. unfold run.
  destruct (run_results step fuel request a) as [[[x|e] a1]|] eqn:Hr;
    intros H; inversion H; subst; simpl;
    eapply run_results_idle; eauto.
Qed.

(** C7 (amended): [BaseAgent.run], the [run] of every agent class that
    does not override it, called in a state other than IDLE raises the
    invalid-state error and leaves the agent (its state and its memory
    with it) as it was; called in IDLE, the only exceptions that leave
    [run] are those a step raised, so the invalid-state error of the
    guard is not among them.  [PlanningAgent.run], the one override, is
    this [run] when it is given no request. *)
Theorem C7_run_guard (fuel : nat) (request : option string) (a : Agent W) :
  (state a <> IDLE ->
   run step sandbox_cleanup fuel request a
   = Some (Raise (invalid_state (state a)), a)) /\
  (state a = IDLE ->
   forall e a', run step sandbox_cleanup fuel request a = Some (Raise e, a') ->
                exists a0 a1, step a0 = (Raise e, a1)) /\
  (opt_truthy request = false ->
   forall active_plan_id json_loads str_lower,
     PlanningAgent.run active_plan_id json_loads str_lower step sandbox_cleanup
       fuel request a
     = run step sandbox_cleanup fuel None a).
Proof.
  conjs.
  - intros Hne. apply state_eqb_neq in Hne.
    unfold run, run_results. rewrite Hne. reflexivity.
  - intros Hidle e a'. unfold run, run_results. rewrite Hidle. simpl.
    unfold state_context.
    destruct (run_body step fuel _) as [[[x|e0] a1]|] eqn:Hb; try discriminate.
    intros H; inversion H; subst.
    apply run_body_raise in Hb as [a0 Ha0]. eauto.
  - intros Hreq active_plan_id json_loads str_lower.
    unfold PlanningAgent.run. rewrite Hreq. reflexivity.
Qed.


(** Stuck handling touches the prompt only. *)
Lemma stuck_frame (a : Agent W) :
  let a' := if is_stuck a then handle_stuck_state a else a in
  state a' = state a /\ current_step a' = current_step a /\
  max_steps a' = max_steps a.
Proof. simpl. destruct (is_stuck a); conjs; reflexivity. Qed.

Lemma run_loop_done (fuel : nat) results (a : Agent W) :
  (current_step a <? max_steps a) && negb (state_eqb (state a) FINISHED) = false ->
  run_loop step fuel results a = Some (Ok results, a).
Proof. intros H. destruct fuel; simpl; rewrite H; reflexivity. Qed.

Lemma accept_request_frame (request : option string) (a : Agent W) :
  current_step (accept_request request a) = current_step a /\
  max_steps (accept_request request a) = max_steps a.
Proof.
  destruct request as [r|]; simpl; [destruct (str_truthy r)|]; split; reflexivity.
Qed.

(** The loop makes the iterations of a trace, and nothing else. *)
Lemma run_loop_trace (fuel : nat) :
  forall results (a : Agent W) lines a',
    run_loop step fuel results a = Some (Ok lines, a') ->
    exists trace,
      loop_trace step a trace a' /\
      lines = (results ++ trace_lines trace)%list /\
      loop_goes_on a' = false /\ (length trace <= fuel)%nat.
Proof.
  induction fuel as [|fuel IH]; intros results a lines a' H; simpl in H.
  - destruct (_ && _) eqn:Hc; [discriminate|]. inversion H; subst.
    exists []. rewrite app_nil_r.
    conjs; [constructor | reflexivity | exact Hc | simpl; lia].
  - destruct (_ && _) eqn:Hc.
    + destruct (step (set_current_step (current_step a + 1) a))
        as [[r|e] a2] eqn:Hs; [|discriminate].
      apply IH in H as (trace & Ht & Hl & Hend & Hlen).
      eexists (_ :: trace). conjs.
      * eapply loop_iteration; [exact Hc | exact Hs | exact Ht].
      * rewrite Hl, <- app_assoc. reflexivity.
      * exact Hend.
      * simpl. lia.
    + inversion H; subst. exists []. rewrite app_nil_r.
      conjs; [constructor | reflexivity | exact Hc | simpl; lia].
Qed.

Lemma trace_run_loop (a : Agent W) trace a' :
  loop_trace step a trace a' -> loop_goes_on a' = false ->
  forall fuel results, (length trace <= fuel)%nat ->
    run_loop step fuel results a
    = Some (Ok (results ++ trace_lines trace)%list, a').
Proof.
  induction 1 as [a|a r a2 rest a' Hc Hs Ht IH]; intros Hend fuel results Hfuel.
  - rewrite app_nil_r. apply run_loop_done. exact Hend.
  - destruct fuel as [|fuel]; [simpl in Hfuel; lia|]. simpl.
    unfold loop_goes_on in Hc. rewrite Hc, Hs.
    rewrite (IH Hend fuel) by (simpl in Hfuel; lia).
    rewrite <- app_assoc. reflexivity.
Qed.

Lemma loop_trace_app (a : Agent W) t1 b t2 c :
  loop_trace step a t1 b -> loop_trace step b t2 c ->
  loop_trace step a (t1 ++ t2) c.
Proof.
  induction 1 as [a|a r a2 rest b Hc Hs Ht IH]; intros H2; [exact H2|].
  simpl. eapply loop_iteration; [exact Hc | exact Hs | exact (IH H2)].
Qed.



Section Budget.
(** The run in which every step that the loop comes to make returns,
    without finishing the agent and without writing the step counter (as
    the loop advanced it) or the budget. *)
Variable entry : Agent W.
Hypothesis steps_return : forall t b,
  loop_trace step entry t b -> loop_goes_on b = true ->
  exists r b2,
    step (set_current_step (current_step b + 1) b) = (Ok r, b2) /\
    state b2 <> FINISHED /\
    current_step b2 = current_step b + 1 /\ max_steps b2 = max_steps b.


End Budget.


Section Counter.
(** Steps leave the step counter and the budget alone. *)
Hypothesis step_frame : forall a r a',
  step a = (Ok r, a') ->
  current_step a' = current_step a /\ max_steps a' = max_steps a.

(** Where a trace leaves the counter. *)
Lemma loop_trace_count (a : Agent W) trace a' :
  loop_trace step a trace a' ->
  max_steps a' = max_steps a /\
  current_step a' = current_step a + Z.of_nat (length trace) /\
  (trace <> [] -> current_step a' <= max_steps a).
Proof.
  induction 1 as [a|a r a2 rest a' Hc Hs Ht IH].
  - conjs; [reflexivity | simpl; lia | congruence].
  - destruct (step_frame _ _ _ Hs) as [Hc2 Hm2]. simpl in Hc2, Hm2.
    destruct (stuck_frame a2) as (_ & Hc3 & Hm3).
    fold (after_step a2) in Hc3, Hm3.
    destruct IH as (Hm' & Hc' & Hle).
    apply andb_true_iff in Hc as [Hlt _]. apply Z.ltb_lt in Hlt.
    conjs.
    + congruence.
    + rewrite Hc', Hc3, Hc2. simpl length. lia.
    + intros _. destruct rest as [|x rest].
      * inversion Ht; subst. rewrite Hc3, Hc2. lia.
      * specialize (Hle ltac:(discriminate)). rewrite Hm3, Hm2 in Hle. exact Hle.
Qed.

(** C8 (amended): an IDLE agent whose step counter is 0 is run with steps
    that leave the counter and the budget alone, and the loop ends because
    the state became FINISHED after k calls of [step], k below the budget.
    Then [run] returns the k lines with the counter at k (it is reset on
    budget exhaustion only) and the state IDLE; the next run on the same
    agent then makes at most [max_steps - k] calls of [step], and exactly
    that many when it reports budget exhaustion. *)
Theorem C8_counter_kept (request : option string) (a : Agent W)
    (trace : list (StepCall W)) (a2 : Agent W) :
  state a = IDLE -> current_step a = 0 ->
  loop_trace step (state_enter RUNNING (accept_request request a)) trace a2 ->
  state a2 = FINISHED ->
  let k := Z.of_nat (length trace) in
  k < max_steps a ->
  forall fuel, (length trace <= fuel)%nat ->
  exists a',
    run step sandbox_cleanup fuel request a
    = Some (Ok (join LF (trace_lines trace)), a') /\
    current_step a' = k /\ state a' = IDLE /\ max_steps a' = max_steps a /\
    forall fuel2 request2 lines2 a'',
      run_results step fuel2 request2 a' = Some (Ok lines2, a'') ->
      exists trace2 b,
        loop_trace step (state_enter RUNNING (accept_request request2 a'))
          trace2 b /\
        Z.of_nat (length trace2) <= max_steps a - k /\
        (lines2 = trace_lines trace2 \/
         (lines2 = (trace_lines trace2 ++ [budget_notice (max_steps a)])%list /\
          Z.of_nat (length trace2) = max_steps a - k)).
Proof.
  intros Hidle H0 Ht Hfin k Hlt fuel Hfuel.
  destruct (loop_trace_count _ _ _ Ht) as (Hm2 & Hc2 & _).
  destruct (accept_request_frame request a) as [Hca Hma].
  simpl in Hm2, Hc2. rewrite Hma in Hm2. rewrite Hca, H0 in Hc2.
  assert (loop_goes_on a2 = false) as Hend.
  { unfold loop_goes_on. rewrite Hfin. apply andb_false_r. }
  assert (trace <> []) as Hne.
  { intros ->. inversion Ht; subst. discriminate. }
  exists (set_env (sandbox_cleanup (env a2)) (state_finally IDLE a2)). conjs.
  - unfold run, run_results. rewrite Hidle. simpl.
    unfold state_context, run_body.
    rewrite (trace_run_loop _ _ _ Ht Hend fuel []) by exact Hfuel. simpl.
    replace (max_steps a2 <=? current_step a2) with false
      by (symmetry; apply Z.leb_gt; fold k in Hc2; lia).
    destruct (trace_lines trace) eqn:Hl.
    { destruct trace; [contradiction | discriminate]. }
    rewrite state_accept_request, Hidle. reflexivity.
  - simpl. exact Hc2.
  - reflexivity.
  - simpl. exact Hm2.
  - intros fuel2 request2 lines2 a'' Hrun2.
    unfold run_results in Hrun2. simpl in Hrun2.
    unfold state_context, run_body in Hrun2.
    set (b := state_enter RUNNING (accept_request request2 _)) in *.
    assert (current_step b = k /\ max_steps b = max_steps a) as [Hcb Hmb].
    { subst b. destruct request2 as [r|]; simpl; [destruct (str_truthy r)|];
        simpl; auto. }
    destruct (run_loop step fuel2 [] b) as [[[res|e] b']|] eqn:Hloop2;
      try discriminate.
    destruct (run_loop_trace _ _ _ _ _ Hloop2) as (trace2 & Ht2 & Hl2 & _ & _).
    simpl in Hl2. subst res.
    destruct (loop_trace_count _ _ _ Ht2) as (Hm' & Hc' & Hle).
    exists trace2. exists b'. split; [exact Ht2|].
    assert (Z.of_nat (length trace2) <= max_steps a - k) as Hbound.
    { destruct trace2 as [|x trace2]; [simpl; lia|].
      specialize (Hle ltac:(discriminate)). lia. }
    split; [exact Hbound|].
    destruct (max_steps b' <=? current_step b') eqn:Hbud.
    + right. inversion Hrun2; subst. split.
      * rewrite Hm', Hmb. reflexivity.
      * apply Z.leb_le in Hbud. lia.
    + left. inversion Hrun2; subst. reflexivity.
Qed.

End Counter.

(** C4 (amended): [is_stuck] holds exactly when the memory has at least
    two messages and its last message, whatever its role, has a non-empty
    content that at least [duplicate_threshold] earlier assistant messages
    have too. *)
Theorem C4_is_stuck_last_message (a : Agent W) :
  is_stuck a = true <->
  exists earlier last_message,
    memory a = (earlier ++ [last_message])%list /\
    (1 <= length earlier)%nat /\
    opt_truthy (content last_message) = true /\
    duplicate_threshold a <=
    Z.of_nat (length (List.filter
      (fun msg => role_eqb (role msg) assistant &&
                  bool_decide (content msg = content last_message)) earlier)).
Proof.
  unfold is_stuck.
  assert (memory a = [] \/ exists l x, memory a = (l ++ [x])%list) as [Hm|(l & x & Hm)].
  { destruct (memory a) using rev_ind; eauto. }
  - rewrite Hm. simpl. split; [discriminate|].
    intros (earlier & m & H & _). destruct earlier; discriminate.
  - rewrite Hm, last_snoc, removelast_last, length_app. simpl.
    split.
    + destruct (length l + 1 <? 2)%nat eqn:Hlen; [discriminate|].
      apply Nat.ltb_ge in Hlen.
      destruct (opt_truthy (content x)) eqn:Hc; [|discriminate]. simpl.
      intros Hd. apply Z.leb_le in Hd.
      exists l. exists x. conjs; auto. lia.
    + intros (earlier & m & H & Hlen & Hc & Hd).
      apply app_inj_tail in H as [-> ->].
      replace (length earlier + 1 <? 2)%nat with false
        by (symmetry; apply Nat.ltb_ge; lia).
      rewrite Hc. simpl. apply Z.leb_le. exact Hd.
Qed.

End BaseAgentProofs.

(** ** Tool dispatch *)

Section ToolProofs.
Context {W : Type}.
Variable json_loads : string -> option json.
Variable str_lower : string -> string.

(** C9: [ToolCollection.execute] returns a [ToolFailure] when no tool has
    the name and when the tool raises [ToolError]; a value the tool returns
    is passed on; any other exception, raised by the tool or by the
    binding of its arguments, reaches the caller. *)
Theorem C9_collection_execute (tc : ToolCollection W) (name : string)
    (tool_input : json) (w : W) :
  (tool_map tc !! name = None ->
   ToolCollection_execute tc name tool_input w
   = (Ok (VResult ToolFailure (tool_failure ("工具 " +:+ name +:+ " 无效"))), w)) /\
  (forall t, tool_map tc !! name = Some t ->
     (forall v w', tool_call t tool_input w = (Ok v, w') ->
        ToolCollection_execute tc name tool_input w = (Ok v, w')) /\
     (forall e w', tool_call t tool_input w = (Raise e, w') ->
        isinstance e ToolError = true ->
        ToolCollection_execute tc name tool_input w
        = (Ok (VResult ToolFailure (tool_failure (exn_str e))), w')) /\
     (forall e w', tool_call t tool_input w = (Raise e, w') ->
        isinstance e ToolError = false ->
        ToolCollection_execute tc name tool_input w = (Raise e, w')) /\
     ((forall kw, tool_input <> JObj kw) ->
      exists e, exn_cls e = TypeError /\
                ToolCollection_execute tc name tool_input w = (Raise e, w))).
Proof.
  unfold ToolCollection_execute. split.
  - intros ->. reflexivity.
  - intros t ->. unfold try_except. conjs.
    + intros v w' ->. reflexivity.
    + intros e w' -> ->. reflexivity.
    + intros e w' -> ->. reflexivity.
    + intros Hkw. destruct tool_input; simpl;
        try (eexists; split; [|reflexivity]; reflexivity).
      exfalso. eapply Hkw. reflexivity.
Qed.

Lemma str_truthy_true (s : string) : s <> "" -> str_truthy s = true.
Proof. destruct s; [contradiction | reflexivity]. Qed.

Ltac run_tool :=
  cbv beta iota zeta delta
    [execute_tool bind try_except gets ret raise modify lift_env negb
     ToolCollection_execute handle_special_tool should_finish_execution
     observation].

(** [execute_tool] on a well-formed call of a known tool, step by step:
    the payload is read, the tool is called, and either the failure or the
    result is reported. *)
Lemma execute_tool_known (c : ToolCall) (f : Function) (t : BaseTool W)
    (a : Agent W) :
  function c = Some f -> fn_name f <> "" ->
  tool_map (available_tools a) !! fn_name f = Some t ->
  execute_tool json_loads str_lower (Some c) a =
  match json_loads (payload f) with
  | None => (Ok (json_error (fn_name f)), a)
  | Some args =>
      let name := fn_name f in
      let failed e (a1 : Agent W) :=
        (Ok (if isinstance e JSONDecodeError then json_error name
             else tool_problem name e), a1) in
      let report v (a1 : Agent W) :=
        let a2 := if is_special_tool str_lower name a1
                  then set_state FINISHED a1 else a1 in
        let a3 := match py_image v with
                  | Some img => set_current_base64_image (Some img) a2
                  | None => a2
                  end in
        if py_bool v
        then match py_str v with
             | Ok text => (Ok (observed name text), a3)
             | Raise e => failed e a3
             end
        else (Ok (no_output name), a3) in
      match tool_call t args (env a) with
      | (Ok v, w') => report v (set_env w' a)
      | (Raise e, w') =>
          if isinstance e ToolError
          then report (VResult ToolFailure (tool_failure (exn_str e)))
                 (set_env w' a)
          else failed e (set_env w' a)
      end
  end.
Proof.
  intros Hf Hn Hmap. run_tool. rewrite Hf.
  rewrite (str_truthy_true _ Hn). run_tool. rewrite Hmap.
  destruct (json_loads (payload f)) as [args|]; run_tool; [|reflexivity].
  rewrite Hmap.
  destruct (tool_call t args (env a)) as [[v|e] w']; run_tool.
  - destruct (is_special_tool str_lower (fn_name f) (set_env w' a)); run_tool;
      destruct (py_image v); run_tool;
      destruct (py_bool v); run_tool; try reflexivity;
      destruct (py_str v); run_tool; try reflexivity;
      destruct (isinstance _ _); reflexivity.
  - destruct (isinstance e ToolError); run_tool.
    + destruct (is_special_tool str_lower (fn_name f) (set_env w' a)); run_tool;
        destruct (py_image _); run_tool;
        destruct (py_bool _); run_tool; try reflexivity;
        destruct (py_str _); run_tool; try reflexivity;
        destruct (isinstance _ _); reflexivity.
    + destruct (isinstance e JSONDecodeError); reflexivity.
Qed.

(** C5 (amended): [execute_tool] never raises.  A missing or malformed
    call, an unknown tool name, a payload that is not JSON and an exception
    other than [ToolError] raised by the tool each give a text with the
    error marker in front.  A [ToolError] raised by the tool is turned into
    a [ToolFailure] by the collection and reported like a result; a result
    that is falsy or whose text form is a string gives the "completed, no
    output" text or the "observed output" text. *)
Theorem C5_execute_tool (command : option ToolCall) (a : Agent W) :
  (exists s a', execute_tool json_loads str_lower command a = (Ok s, a')) /\
  error_prefixed invalid_command = true /\
  (command = None -> execute_tool json_loads str_lower command a = (Ok invalid_command, a)) /\
  (forall c, command = Some c -> function c = None ->
     execute_tool json_loads str_lower command a = (Ok invalid_command, a)) /\
  (forall c f, command = Some c -> function c = Some f ->
     let name := fn_name f in
     error_prefixed (unknown_tool name) = true /\
     error_prefixed (json_error name) = true /\
     (forall e, error_prefixed (tool_problem name e) = true) /\
     (name = "" -> execute_tool json_loads str_lower command a = (Ok invalid_command, a)) /\
     (name <> "" -> tool_map (available_tools a) !! name = None ->
      execute_tool json_loads str_lower command a = (Ok (unknown_tool name), a)) /\
     (forall t, name <> "" -> tool_map (available_tools a) !! name = Some t ->
        (json_loads (payload f) = None ->
         execute_tool json_loads str_lower command a = (Ok (json_error name), a)) /\
        (forall args, json_loads (payload f) = Some args ->
           (forall e w', tool_call t args (env a) = (Raise e, w') ->
              isinstance e ToolError = false ->
              execute_tool json_loads str_lower command a
              = (Ok (if isinstance e JSONDecodeError then json_error name
                     else tool_problem name e), set_env w' a)) /\
           (forall e w', tool_call t args (env a) = (Raise e, w') ->
              isinstance e ToolError = true ->
              exists a', execute_tool json_loads str_lower command a
                = (Ok (if str_truthy (exn_str e)
                       then observed name ("错误: " +:+ exn_str e)
                       else no_output name), a')) /\
           (forall v w', tool_call t args (env a) = (Ok v, w') ->
              (py_bool v = false ->
               exists a', execute_tool json_loads str_lower command a
                          = (Ok (no_output name), a')) /\
              (forall text, py_bool v = true -> py_str v = Ok text ->
               exists a', execute_tool json_loads str_lower command a
                          = (Ok (observed name text), a')))))).
Proof.
  conjs.
  - destruct command as [c|]; [|run_tool; eauto].
    destruct (function c) as [f|] eqn:Hf; [|run_tool; rewrite Hf; eauto].
    destruct (string_dec (fn_name f) "") as [Hn|Hn].
    { run_tool. rewrite Hf, Hn. eauto. }
    destruct (tool_map (available_tools a) !! fn_name f) as [t|] eqn:Hmap.
    2:{ run_tool. rewrite Hf, (str_truthy_true _ Hn). run_tool.
        rewrite Hmap. eauto. }
    rewrite (execute_tool_known c f t a Hf Hn Hmap).
    destruct (json_loads (payload f)) as [args|]; [|eauto]. cbv zeta.
    destruct (tool_call t args (env a)) as [[v|e] w'].
    + destruct (py_bool v); [destruct (py_str v)|]; eauto.
    + destruct (isinstance e ToolError); [|eauto].
      destruct (py_bool _); [destruct (py_str _)|]; eauto.
  - reflexivity.
  - intros ->. reflexivity.
  - intros c -> Hf. run_tool. rewrite Hf. reflexivity.
  - intros c f -> Hf name. conjs.
    + reflexivity.
    + reflexivity.
    + intros e. reflexivity.
    + intros Hn. run_tool. rewrite Hf. fold name. rewrite Hn. reflexivity.
    + intros Hn Hmap. run_tool. rewrite Hf. fold name.
      rewrite (str_truthy_true _ Hn). run_tool. rewrite Hmap. reflexivity.
    + intros t Hn Hmap. rewrite (execute_tool_known c f t a Hf Hn Hmap).
      fold name. split; [|intros args Hargs; conjs].
      * intros ->. reflexivity.
      * intros e w' Hcall He. rewrite Hargs. cbv zeta.
        rewrite Hcall, He. reflexivity.
      * intros e w' Hcall He. rewrite Hargs. cbv zeta.
        rewrite Hcall, He. simpl.
        unfold ToolResult_bool, ToolResult_str. simpl.
        destruct (str_truthy (exn_str e)); simpl; eauto.
      * intros v w' Hcall. rewrite Hargs. cbv zeta. rewrite Hcall. split.
        -- intros ->. eauto.
        -- intros text -> ->. eauto.
Qed.

(** ** Token limits in [think] *)

Variable sandbox_cleanup : W -> W.

Ltac run_think :=
  cbv beta iota zeta delta
    [think bind try_except ask_tool lift_env modify ret raise gets
     react_step toolcall_step negb].

(** The memory-limit record that [think] leaves. *)
Lemma think_token_limit (a : Agent W) (e c : exn) (w' : W) :
  let a1 := append_next_step_prompt a in
  llm a1 (memory a1) (system_msgs a1) (to_params (available_tools a1))
    (tool_choices a1) (env a1) = (Raise e, w') ->
  isinstance e ValueError = false ->
  exn_cause e = Some c ->
  isinstance c TokenLimitExceeded = true ->
  think a
  = (Ok false,
     set_state FINISHED
       (add_message (assistant_message (Some (token_limit_text c)) None)
          (set_env w' a1))).
Proof.
  intros a1 Hq Hv Hc Ht. run_think. fold a1. rewrite Hq, Hv, Hc, Ht.
  reflexivity.
Qed.

Lemma append_prompt_frame (a : Agent W) :
  state (append_next_step_prompt a) = state a /\
  current_step (append_next_step_prompt a) = current_step a /\
  max_steps (append_next_step_prompt a) = max_steps a.
Proof.
  unfold append_next_step_prompt.
  destruct (opt_truthy (next_step_prompt a)); conjs; reflexivity.
Qed.

(** C6 (amended): when the model query of [think] fails with an exception
    that is not a [ValueError] and whose cause is a token-limit error,
    [think] appends an assistant message describing the limit, sets the
    state to FINISHED and returns false without raising; [step] then
    returns the fixed no-action text.  When this happens at any step of a
    run, after the calls of [step] of a trace that all returned, [run]
    returns normally the lines of these calls followed by the line of that
    step (and by the budget notice when that step was the last of the
    budget), in state IDLE. *)
Theorem C6_token_limit :
  (forall (a : Agent W) (e c : exn) (w' : W),
     let a1 := append_next_step_prompt a in
     llm a1 (memory a1) (system_msgs a1) (to_params (available_tools a1))
       (tool_choices a1) (env a1) = (Raise e, w') ->
     isinstance e ValueError = false ->
     exn_cause e = Some c ->
     isinstance c TokenLimitExceeded = true ->
     exists a2,
       think a = (Ok false, a2) /\
       toolcall_step json_loads str_lower a = (Ok no_action, a2) /\
       memory a2
       = (memory a1 ++ [assistant_message (Some (token_limit_text c)) None])%list /\
       state a2 = FINISHED) /\
  (forall (a0 : Agent W) (request : option string)
          (trace : list (StepCall W)) (a_k : Agent W) (fuel : nat)
          (e c : exn) (w' : W),
     state a0 = IDLE ->
     loop_trace (toolcall_step json_loads str_lower)
       (state_enter RUNNING (accept_request request a0)) trace a_k ->
     loop_goes_on a_k = true ->
     let a1 := append_next_step_prompt
                 (set_current_step (current_step a_k + 1) a_k) in
     llm a1 (memory a1) (system_msgs a1) (to_params (available_tools a1))
       (tool_choices a1) (env a1) = (Raise e, w') ->
     isinstance e ValueError = false ->
     exn_cause e = Some c ->
     isinstance c TokenLimitExceeded = true ->
     (length trace < fuel)%nat ->
     let line := step_line (current_step a_k + 1) no_action in
     exists a',
       run (toolcall_step json_loads str_lower) sandbox_cleanup fuel request a0
       = Some (Ok (join LF
                     (trace_lines trace ++
                      line :: (if max_steps a_k <=? current_step a_k + 1
                               then [budget_notice (max_steps a_k)]
                               else []))), a') /\
       state a' = IDLE).
Proof.
  split.
  - intros a e c w' a1 Hq Hv Hc Ht.
    pose proof (think_token_limit a e c w' Hq Hv Hc Ht) as Hth.
    eexists. conjs.
    + exact Hth.
    + unfold toolcall_step, react_step, bind. rewrite Hth. reflexivity.
    + reflexivity.
    + reflexivity.
  - intros a0 request trace a_k fuel e c w' Hidle Htrace Hgo a1 Hq Hv Hc Ht
      Hfuel line.
    set (a := set_current_step (current_step a_k + 1) a_k) in *.
    pose proof (think_token_limit a e c w' Hq Hv Hc Ht) as Hth.
    fold a1 in Hth.
    set (a2 := set_state FINISHED
                 (add_message (assistant_message (Some (token_limit_text c)) None)
                    (set_env w' a1))) in *.
    assert (toolcall_step json_loads str_lower a = (Ok no_action, a2)) as Hstep.
    { unfold toolcall_step, react_step, bind. rewrite Hth. reflexivity. }
    destruct (append_prompt_frame a) as (_ & Hc1 & Hm1). fold a1 in Hc1, Hm1.
    assert (current_step a2 = current_step a_k + 1) as Hc2.
    { subst a2. simpl. rewrite Hc1. reflexivity. }
    assert (max_steps a2 = max_steps a_k) as Hm2.
    { subst a2. simpl. rewrite Hm1. reflexivity. }
    destruct (stuck_frame a2) as (Hs3 & Hc3 & Hm3).
    fold (after_step a2) in Hs3, Hc3, Hm3.
    assert (loop_goes_on (after_step a2) = false) as Hend.
    { unfold loop_goes_on. rewrite Hs3. subst a2. simpl. apply andb_false_r. }
    pose proof (loop_trace_app _ _ _ _ _ _ Htrace
                  (loop_iteration _ a_k no_action a2 [] _ Hgo Hstep
                     (loop_rest _ _))) as Hall.
    assert (exists a',
      run (toolcall_step json_loads str_lower) sandbox_cleanup fuel request a0
      = Some (Ok (join LF
                    (trace_lines trace ++
                     line :: (if max_steps a_k <=? current_step a_k + 1
                              then [budget_notice (max_steps a_k)]
                              else []))), a')) as [a' Hrun].
    { unfold run, run_results. rewrite Hidle. simpl.
      unfold state_context, run_body.
      rewrite (trace_run_loop _ _ _ _ Hall Hend fuel [])
        by (rewrite length_app; simpl; lia).
      simpl. rewrite Hm3, Hm2, Hc3, Hc2.
      unfold trace_lines. rewrite map_app. simpl. rewrite Hc3, Hc2.
      fold (trace_lines trace). fold line.
      destruct (max_steps a_k <=? current_step a_k + 1).
      - rewrite <- app_assoc. simpl.
        destruct (trace_lines trace ++ [line; budget_notice (max_steps a_k)])%list
          eqn:Hl; [destruct (trace_lines trace); discriminate|].
        eexists. reflexivity.
      - destruct (trace_lines trace ++ [line])%list
          eqn:Hl; [destruct (trace_lines trace); discriminate|].
        eexists. reflexivity. }
    exists a'. split; [exact Hrun|].
    eapply run_idle; [exact Hidle | exact Hrun].
Qed.

End ToolProofs.

(** ** The step of a [ToolCallAgent] leaves the counters alone *)

Section StepFrame.
Context {W : Type}.
Variable json_loads : string -> option json.
Variable str_lower : string -> string.

Lemma keeps_ret {A} (x : A) : keeps_counters (W:=W) (ret x).
Proof. intros a r a' H. inversion H. auto. Qed.

Lemma keeps_raise {A} (e : exn) : keeps_counters (W:=W) (A:=A) (raise e).
Proof. intros a r a' H. inversion H. auto. Qed.

Lemma keeps_gets {A} (f : Agent W -> A) : keeps_counters (gets f).
Proof. intros a r a' H. inversion H. auto. Qed.

Lemma keeps_modify (f : Agent W -> Agent W) :
  (forall a, current_step (f a) = current_step a /\ max_steps (f a) = max_steps a) ->
  keeps_counters (modify f).
Proof. intros Hf a r a' H. inversion H. apply Hf. Qed.

Lemma keeps_bind {A B} (m : M (Agent W) A) (k : A -> M (Agent W) B) :
  keeps_counters m -> (forall x, keeps_counters (k x)) ->
  keeps_counters (bind m k).
Proof.
  intros Hm Hk a r a' H. unfold bind in H.
  destruct (m a) as [[x|e] a1] eqn:E; apply Hm in E as [Hc Hb].
  - apply Hk in H as [Hc' Hb']. split; congruence.
  - inversion H; subst. auto.
Qed.

Lemma keeps_try {A} (m : M (Agent W) A) (h : exn -> M (Agent W) A) :
  keeps_counters m -> (forall e, keeps_counters (h e)) ->
  keeps_counters (try_except m h).
Proof.
  intros Hm Hh a r a' H. unfold try_except in H.
  destruct (m a) as [[x|e] a1] eqn:E; apply Hm in E as [Hc Hb].
  - inversion H; subst. auto.
  - apply Hh in H as [Hc' Hb']. split; congruence.
Qed.

(** A collaborator acts on the world only. *)
Lemma keeps_lift_env {A} (f : Agent W -> M W A) :
  keeps_counters (fun a => lift_env (f a) a).
Proof.
  intros a r a' H. unfold lift_env in H.
  destruct (f a (env a)) as [x w]. inversion H. auto.
Qed.

(** Composes the lemmas above along the structure of a method. *)
Ltac keeps :=
  repeat first
    [ apply keeps_ret | apply keeps_raise | apply keeps_gets
    | apply keeps_lift_env
    | apply keeps_modify; intros; split; reflexivity
    | apply keeps_bind; [|intros ?]
    | apply keeps_try; [|intros ?]
    | match goal with
      | |- keeps_counters (match ?x with _ => _ end) => destruct x
      | |- keeps_counters (if ?x then _ else _) => destruct x
      end ].

Lemma keeps_function_name (c : ToolCall) :
  keeps_counters (W:=W) (function_name c).
Proof. unfold function_name. keeps. Qed.

Lemma keeps_function_names (calls : list ToolCall) :
  keeps_counters (W:=W) (function_names calls).
Proof.
  induction calls as [|c cs IH]; cbn [function_names]; keeps.
  - apply keeps_function_name.
  - exact IH.
Qed.

Lemma keeps_think : keeps_counters (W:=W) think.
Proof.
  unfold think. apply keeps_bind.
  { apply keeps_modify. intros a. apply (append_prompt_frame a). }
  intros _. apply keeps_bind.
  { unfold ask_tool. keeps. }
  intros outcome. destruct outcome as [response|]; [|keeps].
  unfold think_log.
  keeps; first [apply keeps_function_name | apply keeps_function_names].
Qed.

Lemma keeps_execute_tool (command : option ToolCall) :
  keeps_counters (W:=W) (execute_tool json_loads str_lower command).
Proof.
  unfold execute_tool, handle_special_tool, observation. keeps.
Qed.

Lemma keeps_act_loop (commands : list ToolCall) :
  forall results, keeps_counters (W:=W) (act_loop json_loads str_lower commands results).
Proof.
  induction commands as [|c cs IH]; intros results; cbn [act_loop]; keeps.
  - apply keeps_execute_tool.
  - apply keeps_function_name.
  - apply IH.
Qed.

Lemma keeps_act : keeps_counters (W:=W) (act json_loads str_lower).
Proof. unfold act. keeps. apply keeps_act_loop. Qed.

(** The frame that the counting of steps relies on holds for every agent
    that steps by [think] and [act]. *)
Lemma toolcall_step_frame (a : Agent W) r a' :
  toolcall_step json_loads str_lower a = (Ok r, a') ->
  current_step a' = current_step a /\ max_steps a' = max_steps a.
Proof.
  apply (keeps_bind think (fun should_act =>
           if negb should_act then ret no_action else act json_loads str_lower)).
  - apply keeps_think.
  - intros b. destruct b; simpl; [apply keeps_act | apply keeps_ret].
Qed.

End StepFrame.

(** ** Lines of a rendered plan *)

Lemma append_cons (c : ascii) (s t : string) :
  String c s +:+ t = String c (s +:+ t).
Proof. reflexivity. Qed.

Lemma append_nil_l (t : string) : "" +:+ t = t.
Proof. reflexivity. Qed.

Lemma append_nil_r (s : string) : s +:+ "" = s.
Proof.
  induction s as [|c s IH]; [reflexivity|].
  rewrite append_cons, IH. reflexivity.
Qed.

Lemma append_assoc (s t u : string) : (s +:+ t) +:+ u = s +:+ (t +:+ u).
Proof.
  induction s as [|c s IH]; [reflexivity|].
  rewrite !append_cons, IH. reflexivity.
Qed.

(** Brings the bytes of a literal in front of an appended text. *)
Ltac norm_app := repeat (rewrite append_cons || rewrite append_nil_l).

(** A text that is no boundary by itself is none in front of a line feed. *)
Lemma break_at_before_LF (c : ascii) (r rest : string) :
  break_at (String c r) = 0%nat ->
  break_at (String c (r +:+ LF +:+ rest)) = 0%nat.
Proof.
  unfold break_at.
  destruct (byte_is c 13).
  { destruct r as [|d r]; [discriminate|]. destruct (byte_is d 10); discriminate. }
  destruct (_ || _); [discriminate|].
  destruct (byte_is c 194).
  { destruct r as [|d r]; simpl; [reflexivity|]. auto. }
  destruct (byte_is c 226); [|reflexivity].
  destruct r as [|d [|e r]]; simpl.
  - destruct rest; reflexivity.
  - intros _. rewrite andb_false_r. reflexivity.
  - auto.
Qed.

(** Reading a line that has no boundary inside, up to its line feed. *)
Lemma splitlines_go_line (a : string) :
  forall cur rest,
    single_line a = true ->
    splitlines_go 0 cur (a +:+ LF +:+ rest)
    = (cur +:+ a) :: splitlines_go 0 "" rest.
Proof.
  induction a as [|c r IH]; intros cur rest Ha.
  - rewrite append_nil_l, append_nil_r. reflexivity.
  - simpl in Ha. apply andb_true_iff in Ha as [Hb Hr].
    apply Nat.eqb_eq in Hb.
    rewrite append_cons.
    cbn [splitlines_go]. rewrite (break_at_before_LF c r rest Hb).
    rewrite IH by exact Hr. rewrite append_assoc. reflexivity.
Qed.

Lemma concat_empty_cons (x : string) (l : list string) :
  String.concat "" (x :: l) = x +:+ String.concat "" l.
Proof. destruct l; simpl; [rewrite append_nil_r|]; reflexivity. Qed.

(** Stripping keeps a first byte that begins no white-space character. *)
Lemma strip_keeps_head (c : ascii) (r : string) :
  (forall r', space_at (String c r') = 0%nat) ->
  exists r', strip (String c r) = String c r'.
Proof.
  intros H. exists (rstrip r).
  unfold strip, lstrip. cbn [lstrip_go]. rewrite H.
  cbn [rstrip]. unfold lstrip. cbn [lstrip_go]. rewrite H. reflexivity.
Qed.

Lemma bracket_no_space (r : string) : space_at (String "[" r) = 0%nat.
Proof. destruct r as [|d [|e r]]; reflexivity. Qed.

Lemma mark_cases (status : string) :
  let m := dict_get get_status_marks status "[ ]" in
  m = "[✓]" \/ m = "[→]" \/ m = "[!]" \/ m = "[ ]".
Proof.
  cbv zeta. unfold get_status_marks. cbn [dict_get].
  repeat (destruct (String.eqb _ status); [auto|]). auto.
Qed.

Lemma step_line_not_marker (status step : string) :
  let line := dict_get get_status_marks status "[ ]" +:+ " " +:+ step in
  strip line <> "Steps:" /\ (single_line step = true -> single_line line = true).
Proof.
  intros line. subst line.
  destruct (mark_cases status) as [H|[H|[H|H]]]; rewrite H; norm_app; split;
    try (intros Hs; cbn; exact Hs);
    match goal with
    | |- strip (String "[" ?r) <> _ =>
        destruct (strip_keeps_head "[" r bracket_no_space) as [r' Hr'];
        rewrite Hr'; discriminate
    end.
Qed.

(** No line of the step list of a rendered plan is the marker. *)
Lemma plan_lines_no_marker (statuses : list string) (sts : list string) :
  forall (k : nat),
    Forall (fun s => single_line s = true) sts ->
    Forall (fun line => strip line <> "Steps:")
      (splitlines_go 0 ""
         (String.concat ""
            (imap (fun i step =>
                     dict_get get_status_marks
                       (default (status_value NOT_STARTED) (statuses !! (k + i)%nat))
                       "[ ]" +:+ " " +:+ step +:+ LF) sts))).
Proof.
  induction sts as [|s sts IH]; intros k Hs.
  - constructor.
  - inversion Hs as [|? ? Hs1 Hs2]; subst.
    cbn [imap]. rewrite concat_empty_cons.
    set (m := dict_get get_status_marks _ "[ ]").
    replace ((m +:+ " " +:+ s +:+ LF) +:+
             String.concat "" (imap (_ ∘ S) sts))
      with ((m +:+ " " +:+ s) +:+ LF +:+
            String.concat "" (imap
              (fun i step =>
                 dict_get get_status_marks
                   (default (status_value NOT_STARTED) (statuses !! (S k + i)%nat))
                   "[ ]" +:+ " " +:+ step +:+ LF) sts)).
    + destruct (step_line_not_marker
                  (default (status_value NOT_STARTED) (statuses !! (k + 0)%nat)) s)
        as [Hne Hsl].
      fold m in Hne, Hsl.
      rewrite splitlines_go_line by (apply Hsl; exact Hs1).
      constructor; [exact Hne | apply IH; exact Hs2].
    + rewrite !append_assoc. do 4 f_equal.
      apply (f_equal (String.concat "")).
      apply imap_ext. intros i x _. simpl.
      replace (k + S i)%nat with (S (k + i))%nat by lia. reflexivity.
Qed.

Lemma plan_title_no_space (r : string) : space_at (String "232" r) = 0%nat.
Proof. destruct r as [|d [|e r]]; reflexivity. Qed.

(** No line of a rendered plan is the marker, provided the title and the
    steps are single lines. *)
Lemma plan_text_no_marker (plan_data : PlanData) :
  single_line (default "未命名计划" (title plan_data)) = true ->
  Forall (fun s => single_line s = true) (steps plan_data) ->
  Forall (fun line => strip line <> "Steps:") (splitlines (plan_text plan_data)).
Proof.
  intros Ht Hs. unfold plan_text, splitlines.
  set (ttl := default "未命名计划" (title plan_data)) in *.
  rewrite <- (append_assoc "计划: " ttl).
  rewrite splitlines_go_line by (norm_app; cbn; exact Ht).
  rewrite <- (append_nil_l (LF +:+ "步骤:" +:+ _)).
  rewrite splitlines_go_line by reflexivity.
  rewrite splitlines_go_line by reflexivity.
  constructor; [|constructor; [|constructor]].
  - norm_app.
    match goal with
    | |- strip (String ?c ?r) <> _ =>
        destruct (strip_keeps_head c r plan_title_no_space) as [r' Hr'];
        rewrite Hr'; discriminate
    end.
  - discriminate.
  - vm_compute. discriminate.
  - apply (plan_lines_no_marker (step_statuses plan_data) (steps plan_data) 0).
    exact Hs.
Qed.

(** ** The current step of [PlanningAgent] *)

Section PlanningAgentProofs.
Context {W : Type}.
Variable active_plan_id : option string.

Lemma find_steps_line_none (plan_lines : list string) :
  Forall (fun line => strip line <> "Steps:") plan_lines ->
  forall i, PlanningAgent.find_steps_line i plan_lines = None.
Proof.
  induction 1 as [|line rest Hne _ IH]; intros i; simpl; [reflexivity|].
  apply String.eqb_neq in Hne. rewrite Hne. apply IH.
Qed.

Lemma current_step_index_no_marker (a : Agent W) (p : string) (a' : Agent W) :
  PlanningAgent.get_plan active_plan_id a = (Ok (Some p), a') ->
  Forall (fun line => strip line <> "Steps:") (splitlines p) ->
  PlanningAgent.get_current_step_index active_plan_id a = (Ok None, a').
Proof.
  intros Hplan Hlines.
  unfold PlanningAgent.get_current_step_index, PlanningAgent.get_plan in *.
  destruct (opt_truthy active_plan_id); simpl in *.
  - unfold bind, try_except in *.
    destruct (lift_env _ a) as [[result|e] a1]; [|discriminate].
    assert ((match result with
             | VStr s => ret (Some s)
             | VResult _ r => ret (output r)
             | VOther _ t => ret (Some t)
             end) a1 = (Ok (Some p), a')) as Hr by exact Hplan.
    rewrite Hr. rewrite (find_steps_line_none _ Hlines). reflexivity.
  - inversion Hplan; subst. reflexivity.
Qed.

(** C10 (amended): [_get_current_step_index] returns [None] for every
    plan text without a line whose stripped content is the marker
    [Steps:]; in particular for every plan rendered in the documented
    format, with its header [步骤:], whose title and steps are single
    lines.  When the text that the planning tool of the agent renders has
    no such line, [think] finds no current step and records no tool call
    in the step-execution tracker. *)
Theorem C10_no_steps_marker (a : Agent W) :
  (forall p a',
     PlanningAgent.get_plan active_plan_id a = (Ok (Some p), a') ->
     Forall (fun line => strip line <> "Steps:") (splitlines p) ->
     PlanningAgent.get_current_step_index active_plan_id a = (Ok None, a')) /\
  (forall plan_data a',
     PlanningAgent.get_plan active_plan_id a
     = (Ok (Some (plan_text plan_data)), a') ->
     single_line (default "未命名计划" (title plan_data)) = true ->
     Forall (fun s => single_line s = true) (steps plan_data) ->
     PlanningAgent.get_current_step_index active_plan_id a = (Ok None, a')) /\
  (forall plan a1,
     (if opt_truthy active_plan_id
      then PlanningAgent.get_plan active_plan_id else ret None) a
     = (Ok plan, a1) ->
     (forall (b : Agent W) p b',
        available_tools b = available_tools a1 -> env b = env a1 ->
        PlanningAgent.get_plan active_plan_id b = (Ok (Some p), b') ->
        Forall (fun line => strip line <> "Steps:") (splitlines p)) ->
     forall tracker should_act idx tracker' a',
       PlanningAgent.planning_think active_plan_id tracker a
       = (Ok (should_act, idx, tracker'), a') ->
       idx = None /\ tracker' = tracker).
Proof.
  conjs.
  - intros p a'. apply current_step_index_no_marker.
  - intros plan_data a' Hplan Ht Hs.
    apply (current_step_index_no_marker a _ a' Hplan).
    apply plan_text_no_marker; assumption.
  - intros plan a1 Hfirst Hall tracker should_act idx tracker' a'.
    assert (forall (b : Agent W) r b',
              available_tools b = available_tools a1 -> env b = env a1 ->
              PlanningAgent.get_current_step_index active_plan_id b = (Ok r, b') ->
              r = None) as Hnone.
    { intros b r b' Htools Henv Hb.
      destruct (PlanningAgent.get_plan active_plan_id b) as [[[p|]|e] b1] eqn:Hp.
      - rewrite (current_step_index_no_marker b p b1 Hp
                   (Hall _ _ _ Htools Henv Hp)) in Hb.
        congruence.
      - unfold PlanningAgent.get_current_step_index in Hb.
        destruct (opt_truthy active_plan_id); simpl in Hb;
          [|inversion Hb; reflexivity].
        unfold bind, try_except in Hb. rewrite Hp in Hb.
        inversion Hb; reflexivity.
      - unfold PlanningAgent.get_current_step_index in Hb.
        destruct (opt_truthy active_plan_id); simpl in Hb;
          [|inversion Hb; reflexivity].
        unfold bind in Hb. rewrite Hp in Hb. discriminate. }
    unfold PlanningAgent.planning_think. unfold bind at 1. rewrite Hfirst.
    unfold bind, gets, modify.
    destruct (PlanningAgent.get_current_step_index active_plan_id _)
      as [[r|e] a2] eqn:Hidx; [|discriminate].
    apply Hnone in Hidx; [|reflexivity|reflexivity]. subst r.
    destruct (think a2) as [[res|e] a3]; [|discriminate].
    destruct res; [|intros H; inversion H; auto].
    destruct (tool_calls a3) as [[|c cs]|]; try (intros H; inversion H; auto).
    revert H. unfold function_name.
    destruct (function c); unfold ret, raise; intros H; inversion H; auto.
Qed.

End PlanningAgentProofs.

(** ** The planning flow and the terminate signal *)

Section FlowProofs.
Context {W : Type}.
Variable step : M (Agent W) string.
Variable sandbox_cleanup : W -> W.

Lemma get_plan_text_agents (f : PlanningFlow.Flow W) r f' :
  PlanningFlow.get_plan_text f = (r, f') ->
  PlanningFlow.agents f' = PlanningFlow.agents f.
Proof.
  unfold PlanningFlow.get_plan_text, PlanningFlow.on_plans.
  destruct (PlanningTool.get_plan_text _ _) as [[res|e] p];
    [destruct (_ && _)|]; intros H; inversion H; reflexivity.
Qed.

Lemma mark_step_completed_agents (f : PlanningFlow.Flow W) r f' :
  PlanningFlow.mark_step_completed f = (r, f') ->
  PlanningFlow.agents f' = PlanningFlow.agents f.
Proof.
  unfold PlanningFlow.mark_step_completed, PlanningFlow.on_plans.
  destruct (PlanningFlow.current_step_index f);
    [destruct (PlanningTool.mark_step _ _ _ _)|];
    intros H; inversion H; reflexivity.
Qed.

(** After an executor found in IDLE has run a plan step, whether its run
    returned or raised, the flow does not see it in FINISHED: the scope of
    [state_context] has put IDLE back. *)
Lemma execute_step_not_finished (fuel : nat) (key : string)
    (info : PlanningFlow.StepInfo) (f : PlanningFlow.Flow W)
    (executor : Agent W) r f' :
  PlanningFlow.agents f !! key = Some executor ->
  state executor = IDLE ->
  PlanningFlow.execute_step step sandbox_cleanup fuel (Some key) info f
  = Some (r, f') ->
  PlanningFlow.executor_finished (Some key) f' = false.
Proof.
  intros Hkey Hidle. unfold PlanningFlow.execute_step.
  destruct (PlanningFlow.get_plan_text f) as [rt f1] eqn:Ht.
  apply get_plan_text_agents in Ht.
  set (q := match rt with Ok t => (t, f1) | Raise _ => ("", f1) end).
  assert (snd q = f1) as Hq by (subst q; destruct rt; reflexivity).
  destruct q as [plan_status f1']. simpl in Hq. subst f1'.
  unfold PlanningFlow.run_executor. rewrite Ht, Hkey.
  destruct (run step sandbox_cleanup fuel _ _) as [[[out|err] ex']|] eqn:Hrun;
    [| |discriminate]; apply run_idle in Hrun; try exact Hidle.
  - destruct (PlanningFlow.mark_step_completed _) as [u f3] eqn:Hm.
    apply mark_step_completed_agents in Hm.
    intros H; inversion H; subst.
    unfold PlanningFlow.executor_finished. rewrite Hm. simpl.
    rewrite lookup_insert_eq, Hrun. reflexivity.
  - intros H; inversion H; subst.
    unfold PlanningFlow.executor_finished. simpl.
    rewrite lookup_insert_eq, Hrun. reflexivity.
Qed.

End FlowProofs.

(** C3: the flow whose executor calls [terminate] in every run.  The run
    for the first plan step ends its loop in FINISHED after one step, yet
    the flow goes on: it resolves and executes the second and the third
    plan step with the same executor, marks all three completed and ends
    with the finalization of the plan, the executor resting in IDLE. *)
Theorem C3_terminate_ignored :
  (exists lines a2,
     run_loop Examples.example_step 5 []
       (state_enter RUNNING
          (accept_request (Some "go") (Examples.agent Examples.llm_terminate IDLE 20 0)))
     = Some (Ok lines, a2) /\
     length lines = 1%nat /\ state a2 = FINISHED) /\
  exists result f',
    PlanningFlow.execute Examples.loads Examples.example_step Examples.cleanup
      5 5 "任务" Examples.flow = Some (result, f') /\
    step_statuses <$> (PlanningFlow.plans f' !! "plan_1")
    = Some ["completed"; "completed"; "completed"] /\
    current_step <$> (PlanningFlow.agents f' !! "default") = Some 3 /\
    state <$> (PlanningFlow.agents f' !! "default") = Some IDLE /\
    contains "计划完成" result = true.
Proof.
  split.
  - eexists. eexists. split; [vm_compute; reflexivity|]. split; reflexivity.
  - destruct (PlanningFlow.execute Examples.loads Examples.example_step
                Examples.cleanup 5 5 "任务" Examples.flow) as [[result f']|] eqn:E;
      [|vm_compute in E; discriminate].
    exists result. exists f'. split; [reflexivity|].
    vm_compute in E. inversion E; subst. vm_compute. conjs; reflexivity.
Qed.

(** ** The properties on concrete agents *)

Import Examples.
Import Samples.






(** C7 on an agent found in FINISHED. *)
Lemma C7_witness :
  run example_step cleanup 5 (Some "hi") (agent llm_talk FINISHED 3 0)
  = Some (Raise (invalid_state FINISHED), agent llm_talk FINISHED 3 0).
Proof.
  apply (proj1 (C7_run_guard example_step cleanup 5 (Some "hi")
                  (agent llm_talk FINISHED 3 0))).
  simpl. discriminate.
Defined.

(** C7, as first stated, fails: a planning agent found in FINISHED and
    given a request creates the initial plan first, asking the model and
    writing three messages to its memory, before the guard of the
    inherited [run] raises. *)
Lemma C7_counterexample :
  state (planner_of llm_terminate FINISHED sample_plan) <> IDLE /\
  memory (planner_of llm_terminate FINISHED sample_plan) = [] /\
  exists a',
    PlanningAgent.run (Some "plan_1") loads lower example_step cleanup 5
      (Some "trip") (planner_of llm_terminate FINISHED sample_plan)
    = Some (Raise (invalid_state FINISHED), a') /\
    length (memory a') = 3%nat /\ env a' = 1%nat.
Proof.
  conjs; [discriminate | reflexivity |].
  eexists. split; [vm_compute; reflexivity|]. split; reflexivity.
Qed.

(** C8, as first stated, fails: the agent that a finished run left with
    its counter at 1 is run again; the loop ends because the state became
    FINISHED after one call of [step], and the counter is 2. *)
Lemma C8_counterexample :
  exists out1 a1 trace b a2,
    run example_step cleanup 5 None (agent llm_terminate IDLE 3 0)
    = Some (Ok out1, a1) /\
    state a1 = IDLE /\ current_step a1 = 1 /\
    loop_trace example_step (state_enter RUNNING (accept_request None a1))
      trace b /\
    length trace = 1%nat /\ state b = FINISHED /\
    Z.of_nat (length trace) < max_steps a1 /\
    run example_step cleanup 5 None a1
    = Some (Ok (join LF (trace_lines trace)), a2) /\
    current_step a2 = 2.
Proof.
  assert (exists out1 a1,
            run example_step cleanup 5 None (agent llm_terminate IDLE 3 0)
            = Some (Ok out1, a1) /\
            state a1 = IDLE /\ current_step a1 = 1 /\ max_steps a1 = 3 /\
            exists line b a2,
              run_loop example_step 5 []
                (state_enter RUNNING (accept_request None a1))
              = Some (Ok [line], b) /\
              state b = FINISHED /\
              run example_step cleanup 5 None a1 = Some (Ok line, a2) /\
              current_step a2 = 2)
    as (out1 & a1 & Hrun1 & Hs1 & Hc1 & Hm1 & line & b & a2 & Hloop & Hsb
        & Hrun2 & Hc2).
  { eexists. eexists. split; [vm_compute; reflexivity|].
    conjs; try reflexivity.
    eexists. eexists. eexists. split; [vm_compute; reflexivity|].
    split; [reflexivity|]. split; [vm_compute; reflexivity | reflexivity]. }
  destruct (run_loop_trace _ _ _ _ _ _ Hloop) as (trace & Ht & Hl & _ & _).
  simpl in Hl.
  assert (length trace = 1%nat) as Hlen.
  { apply (f_equal length) in Hl. unfold trace_lines in Hl.
    rewrite length_map in Hl. simpl in Hl. lia. }
  exists out1. exists a1. exists trace. exists b. exists a2.
  conjs; try assumption.
  - rewrite Hlen, Hm1. reflexivity.
  - rewrite <- Hl. exact Hrun2.
Qed.

(** C8 on the agent whose model asks for [terminate] at once: one call of
    [step], and the counter stays at 1. *)
Lemma C8_witness :
  exists a',
    run example_step cleanup 5 None (agent llm_terminate IDLE 3 0)
    = Some (Ok (join LF [step_line 1
                           (observed "terminate" "交互已完成，状态: success")]), a') /\
    current_step a' = 1 /\ state a' = IDLE /\ max_steps a' = 3.
Proof.
  assert (exists a2,
            run_loop example_step 5 []
              (state_enter RUNNING
                 (accept_request None (agent llm_terminate IDLE 3 0)))
            = Some (Ok [step_line 1
                          (observed "terminate" "交互已完成，状态: success")], a2) /\
            state a2 = FINISHED)
    as (a2 & Hloop & Hs).
  { eexists. split; [vm_compute; reflexivity | reflexivity]. }
  destruct (run_loop_trace _ _ _ _ _ _ Hloop) as (trace & Ht & Hl & _ & _).
  simpl in Hl.
  assert (length trace = 1%nat) as Hlen.
  { apply (f_equal length) in Hl. unfold trace_lines in Hl.
    rewrite length_map in Hl. simpl in Hl. lia. }
  destruct (C8_counter_kept example_step cleanup (toolcall_step_frame loads lower)
              None (agent llm_terminate IDLE 3 0) trace a2 eq_refl eq_refl Ht Hs)
    with (fuel := 5%nat)
    as (a' & Hrun & Hc' & Hs' & Hm' & _).
  - rewrite Hlen. reflexivity.
  - rewrite Hlen. lia.
  - exists a'. rewrite Hlen in Hc'. rewrite <- Hl in Hrun.
    conjs; assumption.
Defined.

(** C4, as first stated, fails: the last message is the observation of a
    tool, so [is_stuck] is false although the latest assistant message
    repeats two earlier ones. *)
Lemma C4_counterexample :
  is_stuck repeating = false /\ spec_is_stuck repeating = true.
Proof. split; vm_compute; reflexivity. Qed.

(** C4 on a memory whose last message, of a user, repeats two answers. *)
Lemma C4_witness :
  is_stuck (set_memory [msg assistant "a"; msg assistant "a"; msg user "a"]
              (agent llm_talk RUNNING 3 0)) = true.
Proof.
  apply (proj2 (C4_is_stuck_last_message _)).
  exists [msg assistant "a"; msg assistant "a"]. exists (msg user "a").
  conjs; [reflexivity | simpl; lia | reflexivity | vm_compute; discriminate].
Defined.

(** C5, as first stated, fails: the tool raises [ToolError], and the text
    returned reports an observed output, without the error marker in front. *)
Lemma C5_counterexample :
  tool_call bash_no_command (JObj []) O
  = (Raise (Exn ToolError "未提供命令。" None), O) /\
  exists s a',
    execute_tool loads lower (Some (call "call_1" "bash" None))
      (agent llm_talk RUNNING 3 0) = (Ok s, a') /\
    s = observed "bash" "错误: 未提供命令。" /\
    error_prefixed s = false.
Proof.
  split; [reflexivity|]. eexists. eexists.
  split; [vm_compute; reflexivity|]. split; reflexivity.
Qed.

(** C5 on a tool that raises an exception other than [ToolError]. *)
Lemma C5_witness :
  execute_tool loads lower (Some (call "call_1" "broken" None))
    (agent llm_talk RUNNING 3 0)
  = (Ok (tool_problem "broken" (Exn OtherException "boom" None)),
     set_env O (agent llm_talk RUNNING 3 0)).
Proof.
  destruct (C5_execute_tool loads lower (Some (call "call_1" "broken" None))
              (agent llm_talk RUNNING 3 0)) as (_ & _ & _ & _ & H).
  destruct (H (call "call_1" "broken" None)
              {| fn_name := "broken"; arguments := None |} eq_refl eq_refl)
    as (_ & _ & _ & _ & _ & Hknown).
  destruct (Hknown broken) as [_ Hargs].
  - discriminate.
  - vm_compute. reflexivity.
  - destruct (Hargs (JObj [])) as (Hraise & _).
    + reflexivity.
    + apply (Hraise (Exn OtherException "boom" None) O); reflexivity.
Defined.

(** C6, as first stated, fails: the query fails with a [ValueError] whose
    cause is a token-limit error, and [think] raises it again. *)
Lemma C6_counterexample :
  exists e a',
    think (agent llm_value_error RUNNING 3 1) = (Raise e, a') /\
    exn_cause e = Some token_limit /\
    isinstance token_limit TokenLimitExceeded = true /\
    state a' = RUNNING.
Proof.
  eexists. eexists. split; [vm_compute; reflexivity|]. conjs; reflexivity.
Qed.

(** C6 on a model that talks once and meets the token limit at the second
    step of the run. *)
Lemma C6_witness :
  (exists a2,
     think (agent llm_token_limit RUNNING 3 1) = (Ok false, a2) /\
     toolcall_step loads lower (agent llm_token_limit RUNNING 3 1)
     = (Ok no_action, a2) /\
     memory a2
     = (memory (append_next_step_prompt (agent llm_token_limit RUNNING 3 1)) ++
        [assistant_message (Some (token_limit_text token_limit)) None])%list /\
     state a2 = FINISHED) /\
  (exists a',
     run example_step cleanup 5 (Some "hi") (agent llm_limit_later IDLE 3 0)
     = Some (Ok (join LF [step_line 1 "thought 0"; step_line 2 no_action]), a') /\
     state a' = IDLE).
Proof.
  split.
  - apply (proj1 (C6_token_limit loads lower cleanup)
             (agent llm_token_limit RUNNING 3 1)
             (Exn RetryError "RetryError" (Some token_limit)) token_limit 1%nat);
      reflexivity.
  - assert (exists r a2,
              example_step
                (set_current_step 1
                   (state_enter RUNNING
                      (accept_request (Some "hi") (agent llm_limit_later IDLE 3 0))))
              = (Ok r, a2) /\
              r = "thought 0" /\ current_step (after_step a2) = 1 /\
              max_steps (after_step a2) = 3 /\
              loop_goes_on (after_step a2) = true /\ env (after_step a2) = 1%nat /\
              llm (after_step a2) = llm_limit_later)
      as (r & a2 & Hstep & Hr & Hc2 & Hm2 & Hgo & Henv & Hllm).
    { eexists. eexists. split; [vm_compute; reflexivity|].
      conjs; reflexivity. }
    pose proof (loop_iteration example_step
                  (state_enter RUNNING
                     (accept_request (Some "hi") (agent llm_limit_later IDLE 3 0)))
                  r a2 [] _ eq_refl Hstep (loop_rest _ _)) as Ht.
    destruct (proj2 (C6_token_limit loads lower cleanup)
                (agent llm_limit_later IDLE 3 0) (Some "hi") _ _ 5%nat
                (Exn RetryError "RetryError" (Some token_limit)) token_limit
                2%nat eq_refl Ht Hgo)
      as (a' & Hrun & Hs).
    + unfold append_next_step_prompt.
      destruct (opt_truthy _); simpl; rewrite Hllm, Henv; reflexivity.
    + reflexivity.
    + reflexivity.
    + reflexivity.
    + simpl. lia.
    + exists a'. split; [|exact Hs].
      unfold example_step. rewrite Hrun. unfold trace_lines.
      cbn [map app left_as returned]. rewrite Hc2, Hm2, Hr. reflexivity.
Defined.

(** C9 on a tool that raises [ToolError]. *)
Lemma C9_witness :
  ToolCollection_execute toolbox "bash" (JObj []) O
  = (Ok (VResult ToolFailure (tool_failure "未提供命令。")), O).
Proof.
  destruct (C9_collection_execute toolbox "bash" (JObj []) O) as [_ H].
  destruct (H bash_no_command) as (_ & Herr & _).
  - vm_compute. reflexivity.
  - apply (Herr (Exn ToolError "未提供命令。" None) O); reflexivity.
Defined.

(** C10, as first stated, fails: the plan is rendered in the documented
    format, with its header [步骤:], but the second line of its title is
    the English marker; the step after it is found and marked. *)
Lemma C10_counterexample :
  plan_text marker_plan
  = "计划: 旅行" +:+ LF +:+ "Steps:" +:+ LF +:+ LF +:+ "步骤:" +:+ LF +:+
    "[ ] find data" +:+ LF /\
  PlanningAgent.get_plan (Some "plan_1") (planner_of llm_talk IDLE marker_plan)
  = (Ok (Some (plan_text marker_plan)), planner_of llm_talk IDLE marker_plan) /\
  PlanningAgent.get_current_step_index (Some "plan_1")
    (planner_of llm_talk IDLE marker_plan)
  = (Ok (Some 2%nat), planner_of llm_talk IDLE marker_plan).
Proof. conjs; vm_compute; reflexivity. Qed.

(** C10 on a planning tool that renders the stored plan: no current step
    is found, and [think] tracks nothing. *)
Lemma C10_witness :
  PlanningAgent.get_current_step_index (Some "plan_1") planner = (Ok None, planner) /\
  exists should_act a',
    PlanningAgent.planning_think (Some "plan_1") ∅ planner
    = (Ok (should_act, None, ∅), a').
Proof.
  split.
  - apply (proj1 (proj2 (C10_no_steps_marker (Some "plan_1") planner)) sample_plan).
    + vm_compute. reflexivity.
    + reflexivity.
    + repeat constructor.
  - assert (exists should_act idx tracker' a',
              PlanningAgent.planning_think (Some "plan_1") ∅ planner
              = (Ok (should_act, idx, tracker'), a'))
      as (should_act & idx & tracker' & a' & Hthink)
      by (do 4 eexists; vm_compute; reflexivity).
    destruct (proj2 (proj2 (C10_no_steps_marker (Some "plan_1") planner))
                (Some (plan_text sample_plan)) planner)
      with (tracker := (∅ : gmap string PlanningAgent.Tracked))
           (should_act := should_act) (idx := idx) (tracker' := tracker')
           (a' := a')
      as [-> ->].
    + vm_compute. reflexivity.
    + intros b p b' Htools Henv Hplan.
      assert (p = plan_text sample_plan) as ->.
      { unfold PlanningAgent.get_plan, bind, lift_env in Hplan.
        simpl in Hplan. rewrite Htools in Hplan. simpl in Hplan.
        inversion Hplan. reflexivity. }
      apply plan_text_no_marker; [reflexivity | repeat constructor].
    + exact Hthink.
    + exists should_act. exists a'. exact Hthink.
Defined.

(** * Further properties of the engine *)

(** ** More on [BaseAgent.run] *)

Section RunResults.
Context {W : Type}.
Variable step : M (Agent W) string.
Variable sandbox_cleanup : W -> W.




Section Termination.
Hypothesis step_frame : forall a r a',
  step a = (Ok r, a') ->
  current_step a' = current_step a /\ max_steps a' = max_steps a.

Lemma run_loop_terminates (n : nat) :
  forall fuel results (a : Agent W),
    Z.to_nat (max_steps a - current_step a) = n -> (n <= fuel)%nat ->
    exists res, run_loop step fuel results a = Some res.
Proof.
  induction n as [|n IH]; intros fuel results a Hn Hfuel.
  - rewrite run_loop_done; [eauto|].
    replace (current_step a <? max_steps a) with false; [reflexivity|].
    symmetry. apply Z.ltb_ge. lia.
  - destruct fuel as [|fuel]; [lia|]. simpl.
    destruct (_ && _); [|eauto].
    destruct (step (set_current_step (current_step a + 1) a))
      as [[r|e] a2] eqn:Hs; [|eauto].
    destruct (step_frame _ _ _ Hs) as [Hc2 Hm2]. simpl in Hc2, Hm2.
    destruct (stuck_frame a2) as (_ & Hc3 & Hm3).
    apply IH; [|lia]. rewrite Hm3, Hm2, Hc3, Hc2. lia.
Qed.

(** X3: with steps that leave the step counter and the budget alone, [run]
    comes to an end within [max_steps - current_step] iterations of its
    loop, whatever the steps return or raise. *)
Theorem X3_run_terminates (fuel : nat) (request : option string) (a : Agent W) :
  (Z.to_nat (max_steps a - current_step a) <= fuel)%nat ->
  exists res, run step sandbox_cleanup fuel request a = Some res.
Proof.
  intros Hfuel. unfold run, run_results.
  destruct (negb (state_eqb (state a) IDLE)); [eauto|].
  unfold state_context, run_body.
  set (b := state_enter RUNNING (accept_request request a)).
  destruct (run_loop_terminates (Z.to_nat (max_steps a - current_step a))
              fuel [] b) as [[[lines|e] b'] Hl].
  - subst b. simpl. destruct (accept_request_frame request a) as [-> ->].
    reflexivity.
  - exact Hfuel.
  - rewrite Hl. destruct (max_steps b' <=? current_step b'); eauto.
  - rewrite Hl. eauto.
Qed.

End Termination.
End RunResults.

(** ** More on [ToolCallAgent] *)

Section ActProofs.
Context {W : Type}.
Variable json_loads : string -> option json.
Variable str_lower : string -> string.

(** The equations of the plumbing. *)
Lemma bind_modify {A} (f : Agent W -> Agent W) (k : unit -> M (Agent W) A) a :
  bind (modify f) k a = k tt (f a).
Proof. reflexivity. Qed.

Lemma bind_gets {A B} (f : Agent W -> A) (k : A -> M (Agent W) B) a :
  bind (gets f) k a = k (f a) a.
Proof. reflexivity. Qed.

Lemma bind_ok {A B} (m : M (Agent W) A) (k : A -> M (Agent W) B) a x a' :
  m a = (Ok x, a') -> bind m k a = k x a'.
Proof. intros H. unfold bind. rewrite H. reflexivity. Qed.

Lemma bind_raise {A B} (m : M (Agent W) A) (k : A -> M (Agent W) B) a e a' :
  m a = (Raise e, a') -> bind m k a = (Raise e, a').
Proof. intros H. unfold bind. rewrite H. reflexivity. Qed.

(** [preserves], along the structure of a method. *)
Lemma preserves_ret {A X} (f : Agent W -> X) (x : A) : preserves f (ret x).
Proof. intros a r a' H. inversion H. reflexivity. Qed.

Lemma preserves_raise {A X} (f : Agent W -> X) (e : exn) :
  preserves (A:=A) f (raise e).
Proof. intros a r a' H. inversion H. reflexivity. Qed.

Lemma preserves_gets {A X} (f : Agent W -> X) (g : Agent W -> A) :
  preserves f (gets g).
Proof. intros a r a' H. inversion H. reflexivity. Qed.

Lemma preserves_modify {X} (f : Agent W -> X) (g : Agent W -> Agent W) :
  (forall a, f (g a) = f a) -> preserves f (modify g).
Proof. intros Hg a r a' H. inversion H. apply Hg. Qed.

Lemma preserves_bind {A B X} (f : Agent W -> X)
    (m : M (Agent W) A) (k : A -> M (Agent W) B) :
  preserves f m -> (forall x, preserves f (k x)) -> preserves f (bind m k).
Proof.
  intros Hm Hk a r a' H. unfold bind in H.
  destruct (m a) as [[x|e] a1] eqn:E; apply Hm in E.
  - apply Hk in H. congruence.
  - inversion H; subst. exact E.
Qed.

Lemma preserves_try {A X} (f : Agent W -> X)
    (m : M (Agent W) A) (h : exn -> M (Agent W) A) :
  preserves f m -> (forall e, preserves f (h e)) -> preserves f (try_except m h).
Proof.
  intros Hm Hh a r a' H. unfold try_except in H.
  destruct (m a) as [[x|e] a1] eqn:E; apply Hm in E.
  - inversion H; subst. exact E.
  - apply Hh in H. congruence.
Qed.

Lemma preserves_lift_env {A X} (f : Agent W -> X) (g : Agent W -> M W A) :
  (forall w a, f (set_env w a) = f a) ->
  preserves f (fun a => lift_env (g a) a).
Proof.
  intros Hf a r a' H. unfold lift_env in H.
  destruct (g a (env a)) as [x w]. inversion H. apply Hf.
Qed.

Ltac pres :=
  repeat first
    [ apply preserves_ret | apply preserves_raise | apply preserves_gets
    | apply preserves_lift_env; intros; reflexivity
    | apply preserves_modify; intros; reflexivity
    | apply preserves_bind; [|intros ?]
    | apply preserves_try; [|intros ?]
    | match goal with
      | |- preserves _ (match ?x with _ => _ end) => destruct x
      | |- preserves _ (if ?x then _ else _) => destruct x
      end ].

(** [execute_tool] writes neither the memory nor the observation limit. *)
Lemma execute_tool_memory (command : option ToolCall) :
  preserves (W:=W) memory (execute_tool json_loads str_lower command).
Proof. unfold execute_tool, handle_special_tool, observation. pres. Qed.

Lemma execute_tool_max_observe (command : option ToolCall) :
  preserves (W:=W) max_observe (execute_tool json_loads str_lower command).
Proof. unfold execute_tool, handle_special_tool, observation. pres. Qed.

(** [execute_tool] returns. *)
Lemma execute_tool_returns (command : option ToolCall) (a : Agent W) :
  exists s a', execute_tool json_loads str_lower command a = (Ok s, a').
Proof.
  destruct command as [c|]; [|eexists; eexists; reflexivity].
  destruct (function c) as [f|] eqn:Hf;
    [|unfold execute_tool; rewrite Hf; eexists; eexists; reflexivity].
  destruct (string_dec (fn_name f) "") as [Hn|Hn].
  { unfold execute_tool. rewrite Hf, Hn. eexists; eexists; reflexivity. }
  destruct (tool_map (available_tools a) !! fn_name f) as [t|] eqn:Hmap.
  2:{ unfold execute_tool. rewrite Hf, (str_truthy_true _ Hn). simpl.
      rewrite bind_gets, Hmap. eexists; eexists; reflexivity. }
  rewrite (execute_tool_known json_loads str_lower c f t a Hf Hn Hmap).
  destruct (json_loads (payload f)) as [args|]; [|eauto]. cbv zeta.
  destruct (tool_call t args (env a)) as [[v|e] w'].
  - destruct (py_bool v); [destruct (py_str v)|]; eauto.
  - destruct (isinstance e ToolError); [|eauto].
    destruct (py_bool _); [destruct (py_str _)|]; eauto.
Qed.

Lemma cp_len_take (s : string) : forall n, (cp_len (cp_take n s) <= n)%nat.
Proof.
  induction s as [|c s IH]; intros n; simpl; [lia|].
  destruct (is_cont c) eqn:Hc; simpl.
  - rewrite Hc. apply IH.
  - destruct n as [|n]; simpl; [lia|]. rewrite Hc. specialize (IH n). lia.
Qed.

(** The loop of [act] over calls that all name a function. *)
Lemma act_loop_messages (calls : list ToolCall) :
  forall results (a : Agent W),
    Forall (fun c => function c <> None) calls ->
    exists outs msgs a',
      act_loop json_loads str_lower calls results a = (Ok (results ++ outs)%list, a') /\
      act_trace json_loads str_lower calls a outs a' /\
      memory a' = (memory a ++ msgs)%list /\
      max_observe a' = max_observe a /\
      length outs = length calls /\ length msgs = length calls /\
      (forall i c, calls !! i = Some c ->
         exists out img,
           outs !! i = Some out /\
           msgs !! i = Some (tool_message out (call_name c) (id c) img)) /\
      (forall k, max_observe a = Some k -> 0 < k ->
         Forall (fun out => (cp_len out <= Z.to_nat k)%nat) outs).
Proof.
  induction calls as [|c rest IH]; intros results a Hwf.
  - exists []. exists []. exists a. rewrite !app_nil_r.
    conjs; try reflexivity.
    + constructor.
    + intros i c Hi. destruct i; discriminate.
    + intros k _ _. constructor.
  - inversion Hwf as [|? ? Hc Hrest]; subst.
    destruct (function c) as [f|] eqn:Hf; [|contradiction].
    cbn [act_loop]. rewrite bind_modify.
    destruct (execute_tool_returns (Some c) (set_current_base64_image None a))
      as (s & a1 & He).
    pose proof (execute_tool_memory _ _ _ _ He) as Hm1.
    pose proof (execute_tool_max_observe _ _ _ _ He) as Ho1.
    simpl in Hm1, Ho1.
    rewrite (bind_ok _ _ _ _ _ He), bind_gets.
    fold (observe_limit (max_observe a1) s).
    set (out := observe_limit (max_observe a1) s).
    unfold function_name. rewrite Hf.
    change (bind (ret (fn_name f)) ?k a1) with (k (fn_name f) a1).
    cbv beta. rewrite bind_gets, bind_modify.
    assert (call_name c = fn_name f) as Hname
      by (unfold call_name; rewrite Hf; reflexivity).
    destruct (IH (results ++ [out])%list
                (add_message
                   (tool_message out (fn_name f) (id c) (current_base64_image a1))
                   a1) Hrest)
      as (outs & msgs & a' & Hrun & Htr & Hmem & Hobs & Hlo & Hlm & Hlook & Hbound).
    exists (out :: outs).
    exists (tool_message out (fn_name f) (id c) (current_base64_image a1) :: msgs).
    exists a'. conjs.
    + rewrite Hrun, <- app_assoc. reflexivity.
    + subst out. eapply act_call; [exact He|]. rewrite Hname. exact Htr.
    + rewrite Hmem. simpl. rewrite Hm1, <- app_assoc. reflexivity.
    + rewrite Hobs. simpl. exact Ho1.
    + simpl. lia.
    + simpl. lia.
    + intros i c' Hi. destruct i as [|i]; simpl in Hi.
      * inversion Hi; subst. exists out. exists (current_base64_image a1).
        rewrite Hname. split; reflexivity.
      * apply Hlook. exact Hi.
    + intros k Hk Hpos. constructor.
      * subst out. rewrite Ho1, Hk. unfold observe_limit.
        replace (k =? 0) with false by (symmetry; apply Z.eqb_neq; lia).
        unfold slice_to.
        replace (0 <=? k) with true by (symmetry; apply Z.leb_le; lia).
        apply cp_len_take.
      * apply Hbound; [|exact Hpos]. simpl. rewrite Ho1. exact Hk.
Qed.

(** Every observation of a trace is what [execute_tool] returned for the
    call at its place, cut to the observation limit. *)
Lemma act_trace_calls (calls : list ToolCall) (a : Agent W) outs a' :
  act_trace json_loads str_lower calls a outs a' ->
  forall i c, calls !! i = Some c ->
    exists (a0 : Agent W) s (b : Agent W),
      execute_tool json_loads str_lower (Some c)
        (set_current_base64_image None a0) = (Ok s, b) /\
      outs !! i = Some (observe_limit (max_observe b) s).
Proof.
  induction 1 as [a|c rest a s b outs a' He Ht IH]; intros i c' Hi.
  - destruct i; discriminate.
  - destruct i as [|i]; simpl in Hi.
    + inversion Hi; subst. exists a. exists s. exists b. split; [exact He|reflexivity].
    + exact (IH i c' Hi).
Qed.

(** [act] over pending calls that all name a function. *)
Lemma act_calls (a : Agent W) (calls : list ToolCall) :
  tool_calls a = Some calls -> calls <> [] ->
  Forall (fun c => function c <> None) calls ->
  exists outs msgs a',
    act json_loads str_lower a = (Ok (join (LF +:+ LF) outs), a') /\
    act_trace json_loads str_lower calls a outs a' /\
    memory a' = (memory a ++ msgs)%list /\
    length outs = length calls /\ length msgs = length calls /\
    (forall i c, calls !! i = Some c ->
       exists out img,
         outs !! i = Some out /\
         msgs !! i = Some (tool_message out (call_name c) (id c) img)) /\
    (forall k, max_observe a = Some k -> 0 < k ->
       Forall (fun out => (cp_len out <= Z.to_nat k)%nat) outs).
Proof.
  intros Hcalls Hne Hwf.
  destruct (act_loop_messages calls [] a Hwf)
    as (outs & msgs & a' & Hrun & Htr & Hmem & _ & Hlo & Hlm & Hlook & Hbound).
  exists outs. exists msgs. exists a'. conjs; try assumption.
  unfold act. rewrite bind_gets, Hcalls.
  destruct calls as [|c rest]; [contradiction|].
  change (calls_truthy (Some (c :: rest))) with true.
  change (default [] (Some (c :: rest))) with (c :: rest).
  cbn [negb]. rewrite (bind_ok _ _ _ _ _ Hrun). reflexivity.
Qed.

(** X4: with pending calls that all name a function, [act] calls
    [execute_tool] once on each call, in their order, and returns the
    observations, each being what [execute_tool] returned for its call cut
    to the observation limit, joined by a blank line.  It appends to the
    memory exactly one tool message per call, in the order of the calls,
    each with the observation, the name and the identifier of its call.
    With a positive [max_observe], no observation is longer than that many
    characters. *)
Theorem X4_act_tool_messages (a : Agent W) (calls : list ToolCall) :
  tool_calls a = Some calls -> calls <> [] ->
  Forall (fun c => function c <> None) calls ->
  exists outs msgs a',
    act json_loads str_lower a = (Ok (join (LF +:+ LF) outs), a') /\
    act_trace json_loads str_lower calls a outs a' /\
    (forall i c, calls !! i = Some c ->
       exists (a0 : Agent W) s (b : Agent W),
         execute_tool json_loads str_lower (Some c)
           (set_current_base64_image None a0) = (Ok s, b) /\
         outs !! i = Some (observe_limit (max_observe b) s)) /\
    memory a' = (memory a ++ msgs)%list /\
    length outs = length calls /\ length msgs = length calls /\
    (forall i c, calls !! i = Some c ->
       exists out img,
         outs !! i = Some out /\
         msgs !! i = Some (tool_message out (call_name c) (id c) img)) /\
    (forall k, max_observe a = Some k -> 0 < k ->
       Forall (fun out => (cp_len out <= Z.to_nat k)%nat) outs).
Proof.
  intros Hcalls Hne Hwf.
  destruct (act_loop_messages calls [] a Hwf)
    as (outs & msgs & a' & Hrun & Htr & Hmem & _ & Hlo & Hlm & Hlook & Hbound).
  exists outs. exists msgs. exists a'. conjs; try assumption.
  - unfold act. rewrite bind_gets, Hcalls.
    destruct calls as [|c rest]; [contradiction|].
    change (calls_truthy (Some (c :: rest))) with true.
    change (default [] (Some (c :: rest))) with (c :: rest).
    cbn [negb]. rewrite (bind_ok _ _ _ _ _ Hrun). reflexivity.
  - exact (act_trace_calls calls a outs a' Htr).
Qed.

(** X5: without pending calls, [act] raises the "tool call required" error
    under the policy REQUIRED; under the other policies it returns the
    content of the last message, or a fixed text when that content is
    empty, and raises [IndexError] on an empty memory.  The agent is not
    changed in any of these cases. *)
Theorem X5_act_without_calls (a : Agent W) :
  calls_truthy (tool_calls a) = false ->
  (tool_choices a = REQUIRED ->
   act json_loads str_lower a = (Raise (Exn ValueError TOOL_CALL_REQUIRED None), a)) /\
  (tool_choices a <> REQUIRED ->
   (memory a = [] ->
    exists e, exn_cls e = IndexError /\ act json_loads str_lower a = (Raise e, a)) /\
   (forall earlier m, memory a = (earlier ++ [m])%list ->
      act json_loads str_lower a
      = (Ok (if opt_truthy (content m) then default "" (content m)
             else "没有内容或命令可执行"), a))).
Proof.
  intros Hcalls. split.
  - intros Hc. unfold act. rewrite bind_gets, Hcalls. cbn [negb].
    rewrite bind_gets, Hc. reflexivity.
  - intros Hc.
    assert (choice_eqb (tool_choices a) REQUIRED = false) as Hb
      by (destruct (tool_choices a); try reflexivity; contradiction).
    split.
    + intros Hm. eexists. split; [|unfold act].
      2:{ rewrite bind_gets, Hcalls. cbn [negb]. rewrite bind_gets, Hb.
          rewrite bind_gets, Hm. reflexivity. }
      reflexivity.
    + intros earlier m Hm. unfold act. rewrite bind_gets, Hcalls. cbn [negb].
      rewrite bind_gets, Hb, bind_gets, Hm, last_snoc. reflexivity.
Qed.

End ActProofs.

(** ** The decision of [think] *)

Section ThinkProofs.
Context {W : Type}.
Variable json_loads : string -> option json.
Variable str_lower : string -> string.

Lemma function_names_ok {S} (calls : list ToolCall) (s : S) :
  Forall (fun c => function c <> None) calls ->
  exists ns, function_names calls s = (Ok ns, s).
Proof.
  induction 1 as [|c cs Hc _ (ns & IH)]; [eexists; reflexivity|].
  destruct (function c) as [f|] eqn:Hf; [|contradiction].
  exists (fn_name f :: ns). cbn [function_names]. unfold function_name.
  rewrite Hf. unfold bind at 1. cbn [ret]. unfold bind. rewrite IH. reflexivity.
Qed.

Lemma think_log_ok (response : Response) (a : Agent W) :
  Forall (fun c => function c <> None) (default [] (resp_tool_calls response)) ->
  think_log response a = (Ok tt, a).
Proof.
  intros Hwf. unfold think_log.
  destruct (resp_tool_calls response) as [[|c cs]|]; try reflexivity.
  simpl in Hwf. destruct (function_names_ok (S:=Agent W) (c :: cs) a Hwf) as (ns & Hn).
  unfold bind. rewrite Hn.
  inversion Hwf as [|? ? Hc _]; subst.
  destruct (function c); [reflexivity|contradiction].
Qed.

Lemma append_prompt_choice (a : Agent W) :
  tool_choices (append_next_step_prompt a) = tool_choices a.
Proof. unfold append_next_step_prompt. destruct (opt_truthy _); reflexivity. Qed.

(** [think] when the model answers and every returned call names a
    function. *)
Lemma think_answers (a : Agent W) (response : Response) (w' : W) :
  let a1 := append_next_step_prompt a in
  let calls := resp_tool_calls response in
  let text := resp_content response in
  llm a1 (memory a1) (system_msgs a1) (to_params (available_tools a1))
    (tool_choices a1) (env a1) = (Ok response, w') ->
  Forall (fun c => function c <> None) (default [] calls) ->
  think a
  = (Ok match tool_choices a with
        | NONE => opt_truthy text
        | REQUIRED => true
        | AUTO => calls_truthy calls || opt_truthy text
        end,
     match tool_choices a with
     | NONE => if opt_truthy text
               then add_message (assistant_message text None)
               else fun a2 => a2
     | _ => add_message (if calls_truthy calls
                         then from_tool_calls (default [] calls) text
                         else assistant_message text None)
     end (set_tool_calls calls (set_env w' a1))).
Proof.
  intros a1 calls text Hq Hwf.
  pose proof (append_prompt_choice a) as Hc. fold a1 in Hc.
  unfold think. unfold bind at 1. unfold modify at 1. fold a1.
  unfold bind at 1. unfold try_except at 1. unfold bind at 1.
  unfold ask_tool, lift_env. rewrite Hq. cbn [ret].
  unfold bind at 1. unfold modify at 1.
  unfold bind at 1. rewrite think_log_ok by exact Hwf.
  unfold try_except, bind, gets, modify, ret. cbn [tool_choices tool_calls set_tool_calls set_env].
  rewrite Hc. fold calls text.
  destruct (tool_choices a); cbn [choice_eqb andb].
  - destruct (calls_truthy calls); reflexivity.
  - destruct (calls_truthy calls); reflexivity.
  - destruct (opt_truthy text); reflexivity.
Qed.

(** X6: when the model answers and every returned call names a function,
    [think] stores the returned calls, leaves the state alone and decides
    by the policy: under NONE it goes on exactly when the answer has text,
    and records that text only; under REQUIRED it always goes on; under
    AUTO it goes on when there are calls or text.  Under REQUIRED and AUTO
    one assistant message is recorded, carrying the calls when there are
    some. *)
Theorem X6_think_decision (a : Agent W) (response : Response) (w' : W) :
  let a1 := append_next_step_prompt a in
  let calls := resp_tool_calls response in
  let text := resp_content response in
  llm a1 (memory a1) (system_msgs a1) (to_params (available_tools a1))
    (tool_choices a1) (env a1) = (Ok response, w') ->
  Forall (fun c => function c <> None) (default [] calls) ->
  exists a',
    think a
    = (Ok match tool_choices a with
          | NONE => opt_truthy text
          | REQUIRED => true
          | AUTO => calls_truthy calls || opt_truthy text
          end, a') /\
    tool_calls a' = calls /\ state a' = state a /\ env a' = w' /\
    memory a'
    = (memory a1 ++
       match tool_choices a with
       | NONE => if opt_truthy text then [assistant_message text None] else []
       | _ => [if calls_truthy calls
               then from_tool_calls (default [] calls) text
               else assistant_message text None]
       end)%list.
Proof.
  intros a1 calls text Hq Hwf. eexists. split.
  - exact (think_answers a response w' Hq Hwf).
  - fold a1 calls text.
    assert (state a1 = state a) as Hs by apply append_prompt_frame.
    destruct (tool_choices a); [| |destruct (opt_truthy text)];
      cbn; rewrite ?app_nil_r; auto.
Qed.

(** X7: the policy NONE does not keep returned calls from running: when
    the model returns calls together with some text, the step records the
    text as an assistant message and then [act] calls [execute_tool] on
    every returned call, in their order, returns the observations that
    these calls gave and records one tool message per call. *)
Theorem X7_step_runs_calls_under_NONE (a : Agent W) (response : Response)
    (w' : W) (calls : list ToolCall) :
  let a1 := append_next_step_prompt a in
  let text := resp_content response in
  llm a1 (memory a1) (system_msgs a1) (to_params (available_tools a1))
    (tool_choices a1) (env a1) = (Ok response, w') ->
  tool_choices a = NONE ->
  resp_tool_calls response = Some calls -> calls <> [] ->
  Forall (fun c => function c <> None) calls ->
  opt_truthy text = true ->
  exists outs msgs a',
    toolcall_step json_loads str_lower a = (Ok (join (LF +:+ LF) outs), a') /\
    act_trace json_loads str_lower calls
      (add_message (assistant_message text None)
         (set_tool_calls (Some calls) (set_env w' a1))) outs a' /\
    (forall i c, calls !! i = Some c ->
       exists (a0 : Agent W) s (b : Agent W),
         execute_tool json_loads str_lower (Some c)
           (set_current_base64_image None a0) = (Ok s, b) /\
         outs !! i = Some (observe_limit (max_observe b) s)) /\
    memory a' = (memory a1 ++ assistant_message text None :: msgs)%list /\
    length msgs = length calls /\
    (forall i c, calls !! i = Some c ->
       exists out img,
         outs !! i = Some out /\
         msgs !! i = Some (tool_message out (call_name c) (id c) img)).
Proof.
  intros a1 text Hq Hnone Hcalls Hne Hwf Htext.
  assert (Forall (fun c => function c <> None)
            (default [] (resp_tool_calls response))) as Hwf'
    by (rewrite Hcalls; exact Hwf).
  pose proof (think_answers a response w' Hq Hwf') as Hthink.
  fold a1 text in Hthink. rewrite Hnone, Htext, Hcalls in Hthink.
  set (a2 := add_message (assistant_message text None)
               (set_tool_calls (Some calls) (set_env w' a1))) in *.
  destruct (act_calls json_loads str_lower a2 calls eq_refl Hne Hwf)
    as (outs & msgs & a' & Hact & Htr & Hmem & _ & Hlm & Hlook & _).
  exists outs. exists msgs. exists a'. conjs; try assumption.
  - unfold toolcall_step, react_step. unfold bind. rewrite Hthink.
    cbn [negb]. exact Hact.
  - exact (act_trace_calls json_loads str_lower calls a2 outs a' Htr).
  - rewrite Hmem. unfold a2. cbn. rewrite <- app_assoc. reflexivity.
Qed.

(** X8: under the policy REQUIRED, a model answer without calls makes
    the step raise [ValueError] with the "tool call required" text, after
    the answer has been recorded as an assistant message. *)
Theorem X8_step_requires_calls (a : Agent W) (response : Response) (w' : W) :
  let a1 := append_next_step_prompt a in
  let text := resp_content response in
  llm a1 (memory a1) (system_msgs a1) (to_params (available_tools a1))
    (tool_choices a1) (env a1) = (Ok response, w') ->
  tool_choices a = REQUIRED ->
  calls_truthy (resp_tool_calls response) = false ->
  toolcall_step json_loads str_lower a
  = (Raise (Exn ValueError TOOL_CALL_REQUIRED None),
     add_message (assistant_message text None)
       (set_tool_calls (resp_tool_calls response) (set_env w' a1))).
Proof.
  intros a1 text Hq Hreq Hcalls.
  assert (Forall (fun c => function c <> None)
            (default [] (resp_tool_calls response))) as Hwf.
  { destruct (resp_tool_calls response) as [[|c cs]|];
      [constructor|discriminate|constructor]. }
  pose proof (think_answers a response w' Hq Hwf) as Hthink.
  fold a1 text in Hthink. rewrite Hreq, Hcalls in Hthink.
  unfold toolcall_step, react_step. unfold bind at 1. rewrite Hthink.
  cbn [negb]. unfold act. unfold bind at 1. unfold gets at 1.
  cbn [tool_calls add_message set_memory set_tool_calls]. rewrite Hcalls.
  cbn [negb]. unfold bind, gets.
  cbn [tool_choices add_message set_memory set_tool_calls set_env].
  pose proof (append_prompt_choice a) as Hc. fold a1 in Hc.
  rewrite Hc, Hreq. reflexivity.
Qed.

End ThinkProofs.

(** ** The state after [execute_tool] *)

Section ExecuteToolProofs.
Context {W : Type}.
Variable json_loads : string -> option json.
Variable str_lower : string -> string.

(** A call that names no function, an empty name or an unknown tool
    leaves the agent as it is. *)
Lemma execute_tool_unknown (c : ToolCall) (a : Agent W) :
  (function c = None \/
   exists f, function c = Some f /\
             (fn_name f = "" \/ tool_map (available_tools a) !! fn_name f = None)) ->
  exists s, execute_tool json_loads str_lower (Some c) a = (Ok s, a).
Proof.
  intros [Hf|(f & Hf & [Hn|Hmap])]; unfold execute_tool; rewrite Hf.
  - eexists; reflexivity.
  - rewrite Hn. eexists; reflexivity.
  - destruct (str_truthy (fn_name f)); cbn [negb]; [|eexists; reflexivity].
    rewrite bind_gets, Hmap. eexists; reflexivity.
Qed.

(** X9: [execute_tool] either leaves the state of the agent as it is or
    sets it to FINISHED, and it changes the state only for a call whose
    name is, in lower case, the lower-case form of one of the special tool
    names, is known to the collection and comes with a payload that
    [json.loads] accepts.  [str.lower] is a parameter, so that this holds
    of every name, ASCII or not. *)
Theorem X9_execute_tool_state (command : option ToolCall) (a : Agent W)
    (r : Res string) (a' : Agent W) :
  execute_tool json_loads str_lower command a = (r, a') ->
  (state a' = state a \/ state a' = FINISHED) /\
  (state a' <> state a ->
   exists c f, command = Some c /\ function c = Some f /\
               is_special_tool str_lower (fn_name f) a = true /\
               is_Some (tool_map (available_tools a) !! fn_name f) /\
               is_Some (json_loads (payload f))).
Proof.
  intros H.
  destruct command as [c|]; [|inversion H; subst; split; [auto|congruence]].
  destruct (function c) as [f|] eqn:Hf.
  2:{ destruct (execute_tool_unknown c a (or_introl Hf)) as (s & Hs).
      rewrite Hs in H. inversion H; subst. split; [auto|congruence]. }
  destruct (string_dec (fn_name f) "") as [Hn|Hn].
  { destruct (execute_tool_unknown c a
                (or_intror (ex_intro _ f (conj Hf (or_introl Hn))))) as (s & Hs).
    rewrite Hs in H. inversion H; subst. split; [auto|congruence]. }
  destruct (tool_map (available_tools a) !! fn_name f) as [t|] eqn:Hmap.
  2:{ destruct (execute_tool_unknown c a
                (or_intror (ex_intro _ f (conj Hf (or_intror Hmap))))) as (s & Hs).
    rewrite Hs in H. inversion H; subst. split; [auto|congruence]. }
  rewrite (execute_tool_known json_loads str_lower c f t a Hf Hn Hmap) in H.
  destruct (json_loads (payload f)) as [args|] eqn:Hj;
    [|inversion H; subst; split; [auto|congruence]].
  cbv zeta in H.
  assert (forall w', is_special_tool str_lower (fn_name f) (set_env w' a)
                     = is_special_tool str_lower (fn_name f) a) as Hsp by reflexivity.
  assert (forall v w',
            (let a2 := if is_special_tool str_lower (fn_name f) (set_env w' a)
                       then set_state FINISHED (set_env w' a) else set_env w' a in
             let a3 := match py_image v with
                       | Some img => set_current_base64_image (Some img) a2
                       | None => a2
                       end in
             state a3 = if is_special_tool str_lower (fn_name f) a then FINISHED else state a))
    as Hst.
  { intros v w'. cbv zeta. rewrite Hsp.
    destruct (py_image v), (is_special_tool str_lower (fn_name f) a); reflexivity. }
  assert (state a' = (if is_special_tool str_lower (fn_name f) a then FINISHED else state a)
          \/ state a' = state a) as Hcases.
  { destruct (tool_call t args (env a)) as [[v|e] w'].
    - specialize (Hst v w'). cbv zeta in Hst.
      destruct (py_bool v); [destruct (py_str v)|];
        inversion H; subst; auto.
    - destruct (isinstance e ToolError).
      + specialize (Hst (VResult ToolFailure (tool_failure (exn_str e))) w').
        cbv zeta in Hst.
        destruct (py_bool _); [destruct (py_str _)|];
          inversion H; subst; auto.
      + inversion H; subst. auto. }
  destruct (is_special_tool str_lower (fn_name f) a) eqn:Hspecial.
  - split; [destruct Hcases; auto|].
    intros _. exists c. exists f. conjs; eauto.
  - split; [destruct Hcases; auto|]. intros Hd. destruct Hcases; contradiction.
Qed.

(** X10: a call of a known special tool (its name being special by the
    comparison in lower case that [_is_special_tool] makes, [str.lower]
    being a parameter) with a readable payload finishes the agent whenever
    the tool returns, whatever it returns, and also when it fails with
    [ToolError], which the collection turns into a result; when the tool
    raises another exception the state stays as it was. *)
Theorem X10_special_tool_finishes (c : ToolCall) (f : Function)
    (t : BaseTool W) (args : json) (a : Agent W) (r : Res string)
    (a' : Agent W) :
  function c = Some f -> fn_name f <> "" ->
  tool_map (available_tools a) !! fn_name f = Some t ->
  json_loads (payload f) = Some args ->
  is_special_tool str_lower (fn_name f) a = true ->
  execute_tool json_loads str_lower (Some c) a = (r, a') ->
  (forall v w', tool_call t args (env a) = (Ok v, w') -> state a' = FINISHED) /\
  (forall e w', tool_call t args (env a) = (Raise e, w') ->
     isinstance e ToolError = true -> state a' = FINISHED) /\
  (forall e w', tool_call t args (env a) = (Raise e, w') ->
     isinstance e ToolError = false -> state a' = state a).
Proof.
  intros Hf Hn Hmap Hj Hsp H.
  rewrite (execute_tool_known json_loads str_lower c f t a Hf Hn Hmap), Hj in H.
  cbv zeta in H.
  assert (forall w', is_special_tool str_lower (fn_name f) (set_env w' a) = true) as Hsp'
    by (intros w'; exact Hsp).
  destruct (tool_call t args (env a)) as [[v|e] w'] eqn:Hcall; conjs;
    try discriminate.
  - intros v0 w0 Heq. inversion Heq; subst. rewrite Hsp' in H.
    destruct (py_image v0), (py_bool v0); try destruct (py_str v0);
      inversion H; reflexivity.
  - intros e0 w0 Heq He. inversion Heq; subst. rewrite He, Hsp' in H.
    destruct (py_image _), (py_bool _); try destruct (py_str _);
      inversion H; reflexivity.
  - intros e0 w0 Heq He. inversion Heq; subst. rewrite He in H.
    inversion H. reflexivity.
Qed.

(** X11: a result that is truthy but has neither an error nor an output,
    such as [ToolResult(system=...)], cannot be rendered: [str()] raises
    [TypeError], and [execute_tool] reports it as a problem of the tool,
    with the error marker in front, after the tool has acted on the
    world. *)
Theorem X11_unrenderable_result (c : ToolCall) (f : Function)
    (t : BaseTool W) (args : json) (a : Agent W) (cls : result_class)
    (res : ToolResult) (w' : W) :
  function c = Some f -> fn_name f <> "" ->
  tool_map (available_tools a) !! fn_name f = Some t ->
  json_loads (payload f) = Some args ->
  tool_call t args (env a) = (Ok (VResult cls res), w') ->
  opt_truthy (error res) = false -> output res = None ->
  ToolResult_bool res = true ->
  exists e a',
    exn_cls e = TypeError /\
    execute_tool json_loads str_lower (Some c) a = (Ok (tool_problem (fn_name f) e), a') /\
    error_prefixed (tool_problem (fn_name f) e) = true /\
    env a' = w'.
Proof.
  intros Hf Hn Hmap Hj Hcall Herr Hout Hb.
  rewrite (execute_tool_known json_loads str_lower c f t a Hf Hn Hmap), Hj.
  cbv zeta. rewrite Hcall. cbn [py_bool py_str]. rewrite Hb.
  unfold ToolResult_str. rewrite Herr, Hout. cbn [isinstance].
  eexists. eexists. conjs; [| reflexivity | reflexivity |].
  - reflexivity.
  - destruct (is_special_tool _ _ _), (py_image _); reflexivity.
Qed.

End ExecuteToolProofs.

(** ** Sums of tool results *)

Section ToolResultProofs.

Lemma str_truthy_append (s t : string) :
  str_truthy (s +:+ t) = str_truthy s || str_truthy t.
Proof. destruct s; [rewrite append_nil_l|rewrite append_cons]; reflexivity. Qed.

(** Concatenating fields never fails, and its result is truthy when one
    of the fields is. *)
Lemma combine_fields_concat (f g : option string) :
  exists x, combine_fields f g true = Ok x /\
            opt_truthy x = opt_truthy f || opt_truthy g.
Proof.
  unfold combine_fields.
  destruct (opt_truthy f) eqn:Hf, (opt_truthy g) eqn:Hg; cbn [andb orb];
    eexists; (split; [reflexivity|]); cbn [opt_truthy]; auto.
  destruct f as [s|], g as [t|]; try discriminate. cbn in *.
  rewrite str_truthy_append, Hf. reflexivity.
Qed.

(** Combining three fields gives the same from the left and from the
    right, failures included. *)
Lemma combine_fields_assoc (f g h : option string) (b : bool) :
  match combine_fields f g b with
  | Ok x => combine_fields x h b
  | Raise e => Raise e
  end
  = match combine_fields g h b with
    | Ok y => combine_fields f y b
    | Raise e => Raise e
    end.
Proof.
  destruct f as [[|c1 s1]|], g as [[|c2 s2]|], h as [[|c3 s3]|], b;
    try reflexivity.
  unfold combine_fields. cbn [opt_truthy str_truthy andb default from_option].
  unfold Datatypes.id. rewrite !append_cons.
  cbn [opt_truthy str_truthy andb default from_option].
  unfold Datatypes.id. rewrite ?append_cons. do 3 f_equal.
  apply append_assoc.
Qed.

(** X12: the sum of two results raises [ValueError] exactly when both
    carry an image.  Otherwise it is a result that is truthy when one of
    the two is, that reports an error when one of the two does, and that
    carries the image of the one that has it. *)
Theorem X12_add_image_conflict (r other : ToolResult) :
  (opt_truthy (result_base64_image r) = true ->
   opt_truthy (result_base64_image other) = true ->
   exists e, exn_cls e = ValueError /\ ToolResult_add r other = Raise e) /\
  (opt_truthy (result_base64_image r)
   && opt_truthy (result_base64_image other) = false ->
   exists s, ToolResult_add r other = Ok s /\
             ToolResult_bool s = ToolResult_bool r || ToolResult_bool other /\
             opt_truthy (error s)
             = opt_truthy (error r) || opt_truthy (error other) /\
             result_base64_image s
             = (if opt_truthy (result_base64_image r)
                then result_base64_image r else result_base64_image other)).
Proof.
  unfold ToolResult_add.
  destruct (combine_fields_concat (output r) (output other)) as (o & -> & Ho).
  destruct (combine_fields_concat (error r) (error other)) as (e & -> & He).
  destruct (combine_fields_concat (system_note r) (system_note other))
    as (s & Hs & Hs').
  split.
  - intros H1 H2. unfold combine_fields at 1. rewrite H1, H2. cbn.
    eexists. split; [|reflexivity]. reflexivity.
  - intros Hi. unfold combine_fields at 1. rewrite Hi, Hs.
    eexists. split; [reflexivity|]. unfold ToolResult_bool.
    cbn [output error result_base64_image system_note].
    rewrite Ho, He, Hs'. conjs; try reflexivity.
    destruct (opt_truthy (result_base64_image r)) eqn:Hir,
      (opt_truthy (result_base64_image other)) eqn:Hio;
      try discriminate; rewrite ?Hir, ?Hio;
      destruct (opt_truthy (output r)), (opt_truthy (output other)),
        (opt_truthy (error r)), (opt_truthy (error other)),
        (opt_truthy (system_note r)), (opt_truthy (system_note other));
      reflexivity.
Qed.

(** X13: adding results is associative: summing three results from the
    left and from the right gives the same result, or the same
    exception. *)
Theorem X13_add_assoc (r1 r2 r3 : ToolResult) :
  match ToolResult_add r1 r2 with
  | Ok s => ToolResult_add s r3
  | Raise e => Raise e
  end
  = match ToolResult_add r2 r3 with
    | Ok s => ToolResult_add r1 s
    | Raise e => Raise e
    end.
Proof.
  pose proof (combine_fields_assoc (output r1) (output r2) (output r3) true) as Ao.
  pose proof (combine_fields_assoc (error r1) (error r2) (error r3) true) as Ae.
  pose proof (combine_fields_assoc (system_note r1) (system_note r2)
                (system_note r3) true) as As.
  pose proof (combine_fields_assoc (result_base64_image r1)
                (result_base64_image r2) (result_base64_image r3) false) as Ai.
  unfold ToolResult_add.
  destruct (combine_fields_concat (output r1) (output r2)) as (o12 & Ho12 & _).
  destruct (combine_fields_concat (error r1) (error r2)) as (e12 & He12 & _).
  destruct (combine_fields_concat (system_note r1) (system_note r2))
    as (s12 & Hs12 & _).
  destruct (combine_fields_concat (output r2) (output r3)) as (o23 & Ho23 & _).
  destruct (combine_fields_concat (error r2) (error r3)) as (e23 & He23 & _).
  destruct (combine_fields_concat (system_note r2) (system_note r3))
    as (s23 & Hs23 & _).
  rewrite Ho12, Ho23 in Ao. rewrite He12, He23 in Ae. rewrite Hs12, Hs23 in As.
  rewrite Ho12, He12, Hs12, Ho23, He23, Hs23.
  destruct (combine_fields_concat o12 (output r3)) as (o & Ho & _).
  destruct (combine_fields_concat e12 (error r3)) as (e & He & _).
  destruct (combine_fields_concat s12 (system_note r3)) as (s & Hs & _).
  rewrite Ho in Ao. rewrite He in Ae. rewrite Hs in As.
  destruct (combine_fields (result_base64_image r1) (result_base64_image r2) false)
    as [i12|x12];
  destruct (combine_fields (result_base64_image r2) (result_base64_image r3) false)
    as [i23|x23];
    cbn [output error result_base64_image system_note];
    rewrite ?Ho, ?He, ?Hs, <- ?Ao, <- ?Ae, <- ?As.
  - rewrite Ai. reflexivity.
  - rewrite Ai. reflexivity.
  - rewrite <- Ai. reflexivity.
  - inversion Ai. reflexivity.
Qed.

End ToolResultProofs.

(** ** Collections of tools *)

Section CollectionProofs.
Context {W : Type}.

(** The map built by inserting tools one after the other holds, under a
    name, the last tool of that name. *)
Lemma tool_map_fold (ts : list (BaseTool W)) :
  forall (m : gmap string (BaseTool W)) (n : string),
    foldl (fun m t => <[tool_name t := t]> m) m ts !! n
    = match last (List.filter (fun t => String.eqb (tool_name t) n) ts) with
      | Some t => Some t
      | None => m !! n
      end.
Proof.
  induction ts as [|t ts IH]; intros m n; [reflexivity|].
  cbn [foldl List.filter]. rewrite IH.
  destruct (String.eqb (tool_name t) n) eqn:Hn.
  - apply String.eqb_eq in Hn. subst n. rewrite last_cons, lookup_insert_eq.
    destruct (last _); reflexivity.
  - apply String.eqb_neq in Hn. rewrite lookup_insert_ne by exact Hn.
    reflexivity.
Qed.

(** Adding tools to a collection gives the collection of all of them. *)
Lemma add_tools_init (ts ts0 : list (BaseTool W)) :
  add_tools ts (ToolCollection_init ts0) = ToolCollection_init (ts0 ++ ts).
Proof.
  revert ts0. induction ts as [|t ts IH]; intros ts0.
  - rewrite app_nil_r. reflexivity.
  - cbn [add_tools foldl].
    change (foldl (fun c t0 => add_tool t0 c) ?x ts) with (add_tools ts x).
    replace (add_tool t (ToolCollection_init ts0))
      with (ToolCollection_init (ts0 ++ [t])).
    + rewrite IH, <- app_assoc. reflexivity.
    + unfold ToolCollection_init, add_tool. cbn [tools tool_map].
      rewrite foldl_app. reflexivity.
Qed.

(** X14: in a collection built from some tools and extended by
    [add_tools], [get_tool] finds under a name the last tool of that name,
    in the order given, and nothing when no tool has the name; the tools
    that it shadows stay in the sequence of tools and are still listed by
    [to_params]. *)
Theorem X14_collection_lookup (ts0 ts : list (BaseTool W)) (n : string) :
  let tc := add_tools ts (ToolCollection_init ts0) in
  tools tc = (ts0 ++ ts)%list /\
  get_tool tc n
  = last (List.filter (fun t => String.eqb (tool_name t) n) (ts0 ++ ts)) /\
  to_params tc
  = map (fun t => (tool_name t, tool_description t)) (ts0 ++ ts)%list.
Proof.
  intros tc. unfold tc. rewrite add_tools_init. conjs; try reflexivity.
  unfold get_tool, ToolCollection_init. cbn [tool_map].
  rewrite tool_map_fold, lookup_empty. destruct (last _); reflexivity.
Qed.



End CollectionProofs.

(** ** Steps and executors of the planning flow *)

Section FlowStepProofs.
Context {W : Type}.

(** The scan for the first active step, started at any index. *)
Lemma first_active_step_from (sts statuses : list string) :
  forall k,
    let active j :=
      existsb (String.eqb (default (status_value NOT_STARTED) (statuses !! j)))
        get_active_statuses in
    match PlanningFlow.first_active_step k sts statuses with
    | Some (i, s) =>
        (k <= i)%nat /\ sts !! (i - k)%nat = Some s /\ active i = true /\
        forall j, (k <= j < i)%nat -> active j = false
    | None => forall j, (k <= j < k + length sts)%nat -> active j = false
    end.
Proof.
  induction sts as [|s sts IH]; intros k active.
  - intros j Hj. simpl in Hj. lia.
  - cbn [PlanningFlow.first_active_step]. fold (active k).
    destruct (active k) eqn:Hk.
    + conjs; [lia | rewrite Nat.sub_diag; reflexivity | exact Hk |].
      intros j Hj. lia.
    + specialize (IH (S k)). cbv zeta in IH. fold active in IH.
      destruct (PlanningFlow.first_active_step (S k) sts statuses) as [[i s']|].
      * destruct IH as (Hle & Hs & Ha & Hbefore). conjs; [lia | | exact Ha |].
        -- replace (i - k)%nat with (S (i - S k)) by lia. exact Hs.
        -- intros j Hj. destruct (decide (j = k)) as [->|]; [exact Hk|].
           apply Hbefore. lia.
      * intros j Hj. destruct (decide (j = k)) as [->|]; [exact Hk|].
        apply IH. simpl in Hj. lia.
Qed.

(** X16: the scan of [_get_current_step_info] returns the step of the
    least index whose status is active, a missing status counting as
    "not_started"; every step before it is inactive, and when it returns
    nothing no step is active. *)
Theorem X16_first_active_step (sts statuses : list string) :
  let active j :=
    existsb (String.eqb (default (status_value NOT_STARTED) (statuses !! j)))
      get_active_statuses in
  match PlanningFlow.first_active_step 0 sts statuses with
  | Some (i, s) =>
      sts !! i = Some s /\ active i = true /\
      forall j, (j < i)%nat -> active j = false
  | None => forall j, (j < length sts)%nat -> active j = false
  end.
Proof.
  intros active. pose proof (first_active_step_from sts statuses 0%nat) as H.
  cbv zeta in H. fold active in H.
  destruct (PlanningFlow.first_active_step 0 sts statuses) as [[i s]|].
  - destruct H as (_ & Hs & Ha & Hb). rewrite Nat.sub_0_r in Hs.
    conjs; [exact Hs | exact Ha |]. intros j Hj. apply Hb. lia.
  - intros j Hj. apply H. lia.
Qed.

(** X17: the direct update of the statuses made when marking the step
    fails puts "in_progress" at the index of the step, keeps the other
    statuses, and fills the gap up to an index beyond the end of the list
    with "not_started": the list is as long as before, or ends at that
    index. *)
Theorem X17_force_in_progress (i : nat) (statuses : list string) :
  let forced := PlanningFlow.force_in_progress i statuses in
  forced !! i = Some (status_value IN_PROGRESS) /\
  length forced = Nat.max (length statuses) (S i) /\
  (forall j, j <> i -> (j < length statuses)%nat -> forced !! j = statuses !! j) /\
  (forall j, (length statuses <= j < i)%nat ->
     forced !! j = Some (status_value NOT_STARTED)).
Proof.
  intros forced. unfold forced, PlanningFlow.force_in_progress.
  destruct (i <? length statuses)%nat eqn:Hi.
  - apply Nat.ltb_lt in Hi. conjs.
    + apply list_lookup_insert_eq. exact Hi.
    + rewrite length_insert. lia.
    + intros j Hj _. apply list_lookup_insert_ne. congruence.
    + intros j Hj. lia.
  - apply Nat.ltb_ge in Hi. conjs.
    + rewrite lookup_app_r by lia. rewrite lookup_app_r; rewrite length_replicate; [|lia].
      replace (i - length statuses - (i - length statuses))%nat with 0%nat by lia.
      reflexivity.
    + rewrite !length_app, length_replicate. simpl. lia.
    + intros j _ Hj. apply lookup_app_l. exact Hj.
    + intros j Hj. rewrite lookup_app_r by lia.
      rewrite lookup_app_l by (rewrite length_replicate; lia).
      apply lookup_replicate_2. lia.
Qed.

(** A key found among the executor keys names an agent. *)
Lemma find_agent_key (f : PlanningFlow.Flow W) (keys : list string) (k : string) :
  List.find (fun key => bool_decide (is_Some (PlanningFlow.agents f !! key))) keys
  = Some k -> is_Some (PlanningFlow.agents f !! k).
Proof.
  intros H. apply List.find_some in H as [_ H].
  apply bool_decide_eq_true in H. exact H.
Qed.

(** The scan of the executor keys stops at the first that names an
    agent. *)
Lemma find_first_agent (f : PlanningFlow.Flow W) (before : list string)
    (k : string) (rest : list string) :
  Forall (fun x => PlanningFlow.agents f !! x = None) before ->
  is_Some (PlanningFlow.agents f !! k) ->
  List.find (fun key => bool_decide (is_Some (PlanningFlow.agents f !! key)))
    (before ++ k :: rest) = Some k.
Proof.
  intros Hbefore Hk. induction Hbefore as [|x before Hx _ IH]; simpl.
  - rewrite (bool_decide_eq_true_2 _ Hk). reflexivity.
  - rewrite bool_decide_eq_false_2; [exact IH|].
    rewrite Hx. intros [? ?]; discriminate.
Qed.

Lemma find_no_agent (f : PlanningFlow.Flow W) (keys : list string) :
  Forall (fun x => PlanningFlow.agents f !! x = None) keys ->
  List.find (fun key => bool_decide (is_Some (PlanningFlow.agents f !! key)))
    keys = None.
Proof.
  induction 1 as [|x keys Hx _ IH]; simpl; [reflexivity|].
  rewrite bool_decide_eq_false_2; [exact IH|].
  rewrite Hx. intros [? ?]; discriminate.
Qed.

(** X18: the key that [get_executor] returns always names an agent of
    the flow.  A non-empty step type that is the key of an agent selects
    that agent; any other step type is ignored.  Then the first executor
    key that names an agent is taken, the keys before it naming none; and
    when no executor key names an agent, the primary agent is returned:
    the agent under the primary key if there is one, nothing otherwise. *)
Theorem X18_get_executor (step_type : option string) (f : PlanningFlow.Flow W) :
  (forall k, PlanningFlow.get_executor step_type f = Some k ->
     is_Some (PlanningFlow.agents f !! k)) /\
  (forall t, step_type = Some t -> t <> "" ->
     is_Some (PlanningFlow.agents f !! t) ->
     PlanningFlow.get_executor step_type f = Some t) /\
  ((forall t, step_type = Some t ->
      t = "" \/ PlanningFlow.agents f !! t = None) ->
   PlanningFlow.get_executor step_type f = PlanningFlow.get_executor None f) /\
  (forall before k rest,
     PlanningFlow.executor_keys f = (before ++ k :: rest)%list ->
     Forall (fun x => PlanningFlow.agents f !! x = None) before ->
     is_Some (PlanningFlow.agents f !! k) ->
     PlanningFlow.get_executor None f = Some k) /\
  (Forall (fun x => PlanningFlow.agents f !! x = None)
     (PlanningFlow.executor_keys f) ->
   PlanningFlow.get_executor None f = PlanningFlow.primary_agent f /\
   (forall p, PlanningFlow.primary_agent_key f = Some p ->
      is_Some (PlanningFlow.agents f !! p) ->
      PlanningFlow.get_executor None f = Some p) /\
   ((forall p, PlanningFlow.primary_agent_key f = Some p ->
       PlanningFlow.agents f !! p = None) ->
    PlanningFlow.get_executor None f = None)).
Proof.
  assert (forall k, PlanningFlow.get_executor None f = Some k ->
                    is_Some (PlanningFlow.agents f !! k)) as Hnone.
  { intros k. unfold PlanningFlow.get_executor.
    destruct (List.find _ _) as [key|] eqn:Hfind.
    - intros [= <-]. eapply find_agent_key. exact Hfind.
    - unfold PlanningFlow.primary_agent.
      destruct (PlanningFlow.primary_agent_key f) as [p|]; [|discriminate].
      destruct (PlanningFlow.agents f !! p) eqn:Hp; [|discriminate].
      intros [= <-]. rewrite Hp. eauto. }
  conjs.
  - intros k. destruct step_type as [t|]; [|apply Hnone].
    unfold PlanningFlow.get_executor.
    destruct (str_truthy t && bool_decide _) eqn:Ht; [|apply Hnone].
    intros [= <-]. apply andb_true_iff in Ht as [_ Ht].
    apply bool_decide_eq_true in Ht. exact Ht.
  - intros t -> Hne Hin. unfold PlanningFlow.get_executor.
    rewrite (str_truthy_true _ Hne), (bool_decide_eq_true_2 _ Hin). reflexivity.
  - intros Hno. destruct step_type as [t|]; [|reflexivity].
    unfold PlanningFlow.get_executor.
    destruct (Hno t eq_refl) as [->|Hnot]; [reflexivity|].
    rewrite bool_decide_eq_false_2, andb_false_r; [reflexivity|].
    rewrite Hnot. intros [? ?]; discriminate.
  - intros before k rest Hk Hbefore Hin. unfold PlanningFlow.get_executor.
    rewrite Hk, (find_first_agent f before k rest Hbefore Hin). reflexivity.
  - intros Hkeys.
    assert (PlanningFlow.get_executor None f = PlanningFlow.primary_agent f)
      as Hprim.
    { unfold PlanningFlow.get_executor.
      rewrite (find_no_agent f _ Hkeys). reflexivity. }
    rewrite Hprim. unfold PlanningFlow.primary_agent. conjs.
    + reflexivity.
    + intros p -> [x Hx]. rewrite Hx. reflexivity.
    + intros Hp. destruct (PlanningFlow.primary_agent_key f) as [p|];
        [|reflexivity].
      rewrite (Hp p eq_refl). reflexivity.
Qed.

(** The keys given to the agents of a list are pairwise distinct. *)
Lemma agent_key_inj (i j : nat) :
  "agent_" +:+ pretty i = "agent_" +:+ pretty j -> i = j.
Proof.
  intros H. rewrite !append_cons, append_nil_l in H.
  injection H as H. apply pretty_nat_inj in H. exact H.
Qed.

(** X19: a flow made from a list of agents, without a primary key and
    without executors, stores the agent at position [i] under the key
    agent_i and nothing under the keys beyond the list, takes all keys as
    executor keys in the order of the list, and, when the list is not
    empty, has the first agent as its primary agent and as the executor
    of every step whose type is not the key of an agent. *)
Theorem X19_flow_of_agent_list (l : list (Agent W)) (plan_id : string)
    (model : LLM W) (world : W) :
  let f := PlanningFlow_init (AgentList l) None [] plan_id model world in
  (forall i, PlanningFlow.agents f !! ("agent_" +:+ pretty i) = l !! i) /\
  PlanningFlow.executor_keys f
  = imap (fun i _ => "agent_" +:+ pretty i) l /\
  (l <> [] ->
   PlanningFlow.primary_agent f = Some ("agent_" +:+ pretty 0%nat) /\
   forall step_type,
     (forall t, step_type = Some t ->
        t = "" \/ PlanningFlow.agents f !! t = None) ->
     PlanningFlow.get_executor step_type f = Some ("agent_" +:+ pretty 0%nat)).
Proof.
  intros f.
  assert (forall i, PlanningFlow.agents f !! ("agent_" +:+ pretty i) = l !! i)
    as Hlook.
  { intros i. unfold f, PlanningFlow_init. cbn [PlanningFlow.agents agents_dict].
    destruct (l !! i) as [a|] eqn:Hi.
    - apply elem_of_list_to_map_1'.
      + intros y Hy. apply elem_of_reverse, elem_of_lookup_imap in Hy
          as (j & b & Heq & Hj).
        pose proof (f_equal fst Heq) as Hk. pose proof (f_equal snd Heq) as Hv.
        cbn [fst snd] in Hk, Hv. apply agent_key_inj in Hk. subst j. congruence.
      + apply elem_of_reverse, elem_of_lookup_imap. eauto.
    - apply not_elem_of_list_to_map_1. rewrite fmap_reverse, elem_of_reverse.
      intros Hin. apply list_elem_of_fmap in Hin as ([k b] & Hk & Hin).
      apply elem_of_lookup_imap in Hin as (j & c & Heq & Hj).
      pose proof (f_equal fst Heq) as Hk'. cbn [fst] in Hk'.
      rewrite Hk' in Hk. apply agent_key_inj in Hk. subst j. congruence. }
  assert (PlanningFlow.executor_keys f = imap (fun i _ => "agent_" +:+ pretty i) l)
    as Hkeys.
  { unfold f, PlanningFlow_init. cbn [PlanningFlow.executor_keys agents_dict].
    rewrite fmap_imap. reflexivity. }
  conjs; [exact Hlook | exact Hkeys |].
  intros Hne. destruct l as [|a l']; [contradiction|].
  assert (PlanningFlow.get_executor None f = Some ("agent_" +:+ pretty 0%nat))
    as Hex.
  { unfold PlanningFlow.get_executor. rewrite Hkeys. cbn [imap List.find].
    rewrite bool_decide_eq_true_2; [reflexivity|]. rewrite Hlook. eauto. }
  split.
  - unfold PlanningFlow.primary_agent.
    change (PlanningFlow.primary_agent_key f) with (Some ("agent_" +:+ pretty 0%nat)).
    cbv beta iota. rewrite Hlook. reflexivity.
  - intros step_type Hno. destruct step_type as [t|]; [|exact Hex].
    rewrite <- Hex. unfold PlanningFlow.get_executor.
    destruct (Hno t eq_refl) as [->|Hnot]; [reflexivity|].
    rewrite bool_decide_eq_false_2, andb_false_r; [reflexivity|].
    rewrite Hnot. intros [? ?]; discriminate.
Qed.

End FlowStepProofs.

(** ** The type tag of a step *)

Section TypeTagProofs.

(** The run of type characters at the head of a text. *)
Lemma type_run_split (s : string) :
  s = (type_run s).1 +:+ (type_run s).2 /\
  forallb is_type_char (list_ascii_of_string (type_run s).1) = true.
Proof.
  induction s as [|c s [IH1 IH2]]; [split; reflexivity|].
  cbn [type_run]. destruct (is_type_char c) eqn:Hc.
  - destruct (type_run s) as [run rest]. cbn [fst snd] in *.
    rewrite append_cons, <- IH1. cbn [list_ascii_of_string forallb].
    rewrite Hc, IH2. split; reflexivity.
  - cbn [fst snd]. rewrite append_nil_l. split; reflexivity.
Qed.

Lemma type_run_tag (t post : string) :
  forallb is_type_char (list_ascii_of_string t) = true ->
  type_run (t +:+ "]" +:+ post) = (t, "]" +:+ post).
Proof.
  induction t as [|c t IH]; intros Ht.
  - rewrite append_nil_l, append_cons. reflexivity.
  - cbn [list_ascii_of_string forallb] in Ht. apply andb_true_iff in Ht as [Hc Ht].
    rewrite append_cons. cbn [type_run]. rewrite Hc, (IH Ht). reflexivity.
Qed.

(** A tag read at the head of a text. *)
Lemma type_tag_here_sound (s t : string) :
  type_tag_here s = Some t ->
  exists post, s = "[" +:+ t +:+ "]" +:+ post /\ t <> "" /\
               forallb is_type_char (list_ascii_of_string t) = true.
Proof.
  unfold type_tag_here. destruct s as [|b r]; [discriminate|].
  destruct (Ascii.ascii_dec b "[") as [->|Hb].
  2:{ destruct b as [[] [] [] [] [] [] [] []]; try discriminate.
      exfalso. apply Hb. reflexivity. }
  destruct (type_run_split r) as [Hr Hall].
  destruct (type_run r) as [run rest]. cbn [fst snd] in *.
  destruct run as [|c run]; [discriminate|].
  destruct rest as [|d post]; [discriminate|].
  destruct (Ascii.ascii_dec d "]") as [->|Hd].
  2:{ destruct d as [[] [] [] [] [] [] [] []]; try discriminate.
      exfalso. apply Hd. reflexivity. }
  intros [= <-]. exists post. conjs; [|discriminate|exact Hall].
  rewrite Hr. norm_app. reflexivity.
Qed.

(** X20: the search for the type of a step finds a tag only where the
    text holds, anywhere, a non-empty run of capital letters and
    underscores between square brackets, and it finds one whenever the
    text holds such a bracketed run. *)
Theorem X20_search_type_tag (s : string) :
  (forall t, search_type_tag s = Some t ->
     exists pre post,
       s = pre +:+ "[" +:+ t +:+ "]" +:+ post /\ t <> "" /\
       forallb is_type_char (list_ascii_of_string t) = true) /\
  (forall pre t post,
     s = pre +:+ "[" +:+ t +:+ "]" +:+ post -> t <> "" ->
     forallb is_type_char (list_ascii_of_string t) = true ->
     is_Some (search_type_tag s)).
Proof.
  split.
  - induction s as [|c s IH]; intros t H.
    + discriminate.
    + cbn [search_type_tag] in H.
      destruct (type_tag_here (String c s)) as [t'|] eqn:Hhere.
      * injection H as ->. apply type_tag_here_sound in Hhere
          as (post & Hs & Hne & Hall).
        exists "". exists post. rewrite append_nil_l. auto.
      * destruct (IH t H) as (pre & post & -> & Hne & Hall).
        exists (String c pre). exists post. rewrite append_cons. auto.
  - intros pre t post -> Hne Hall. induction pre as [|c pre IH].
    + rewrite append_nil_l, append_cons, append_nil_l.
      destruct t as [|c t]; [contradiction|].
      cbn [search_type_tag type_tag_here].
      rewrite (type_run_tag _ post Hall), !append_cons. eauto.
    + rewrite append_cons. cbn [search_type_tag].
      destruct (type_tag_here _); [eauto|exact IH].
Qed.

End TypeTagProofs.

(** ** The bounds of [is_stuck] *)

Section StuckProofs.
Context {W : Type}.

(** X21: an agent is found stuck only with at least two messages, a last
    message with text, and a duplicate threshold below the number of
    messages; with a threshold of zero or less, it is found stuck as soon
    as it has two messages and the last one has text. *)
Theorem X21_is_stuck_bounds (a : Agent W) :
  (is_stuck a = true ->
   (2 <= length (memory a))%nat /\
   (exists m, last (memory a) = Some m /\ opt_truthy (content m) = true) /\
   duplicate_threshold a < Z.of_nat (length (memory a))) /\
  (duplicate_threshold a <= 0 ->
   is_stuck a
   = (2 <=? length (memory a))%nat &&
     match last (memory a) with
     | Some m => opt_truthy (content m)
     | None => false
     end).
Proof.
  unfold is_stuck. split.
  - destruct (length (memory a) <? 2)%nat eqn:Hl; [discriminate|].
    apply Nat.ltb_ge in Hl.
    destruct (last (memory a)) as [m|] eqn:Hm; [|discriminate].
    destruct (opt_truthy (content m)) eqn:Hc; [|discriminate]. cbn [negb].
    intros H. apply Z.leb_le in H. conjs; [exact Hl | eauto |].
    pose proof (List.filter_length_le
                  (fun msg => role_eqb (role msg) assistant &&
                              bool_decide (content msg = content m))
                  (removelast (memory a))) as Hf.
    destruct (memory a) as [|x l] eqn:Hmem using rev_ind; [discriminate|].
    rewrite removelast_last in Hf, H. rewrite length_app. simpl. lia.
  - intros Ht. destruct (length (memory a) <? 2)%nat eqn:Hl.
    + apply Nat.ltb_lt in Hl.
      replace (2 <=? length (memory a))%nat with false; [reflexivity|].
      symmetry. apply Nat.leb_gt. exact Hl.
    + apply Nat.ltb_ge in Hl.
      replace (2 <=? length (memory a))%nat with true
        by (symmetry; apply Nat.leb_le; exact Hl).
      destruct (last (memory a)) as [m|]; [|reflexivity].
      destruct (opt_truthy (content m)); [|reflexivity]. cbn [negb andb].
      apply Z.leb_le. lia.
Qed.

End StuckProofs.

(** ** The further properties on concrete agents *)



(** X3 on the agent whose model only talks, with a budget of 3. *)
Lemma X3_witness :
  exists res,
    run example_step cleanup 3 (Some "hi") (agent llm_talk IDLE 3 0) = Some res.
Proof.
  apply (X3_run_terminates example_step cleanup (toolcall_step_frame loads lower)
           3 (Some "hi") (agent llm_talk IDLE 3 0)).
  vm_compute. lia.
Defined.

(** X4 on two pending calls: [terminate], and [bash] without a command. *)
Lemma X4_witness :
  exists outs msgs a',
    act loads lower
      (worker llm_talk AUTO (Some two_calls) [terminate; bash_no_command])
    = (Ok (join (LF +:+ LF) outs), a') /\
    act_trace loads lower two_calls
      (worker llm_talk AUTO (Some two_calls) [terminate; bash_no_command])
      outs a' /\
    memory a' = ([msg user "hi"] ++ msgs)%list /\
    length msgs = 2%nat /\
    Forall (fun out => (cp_len out <= 12)%nat) outs.
Proof.
  destruct (X4_act_tool_messages loads lower
              (worker llm_talk AUTO (Some two_calls) [terminate; bash_no_command])
              two_calls)
    as (outs & msgs & a' & Hact & Htr & _ & Hmem & _ & Hlen & _ & Hbound).
  - reflexivity.
  - discriminate.
  - repeat constructor; discriminate.
  - exists outs. exists msgs. exists a'. conjs; try assumption.
    apply (Hbound 12); [reflexivity | lia].
Defined.

(** X5 on an agent that must call a tool and has no pending call. *)
Lemma X5_witness :
  act loads lower (worker llm_talk REQUIRED None [terminate])
  = (Raise (Exn ValueError TOOL_CALL_REQUIRED None),
     worker llm_talk REQUIRED None [terminate]).
Proof.
  apply (proj1 (X5_act_without_calls loads lower
                  (worker llm_talk REQUIRED None [terminate]) eq_refl)).
  reflexivity.
Defined.

(** X6 on a model that asks for [terminate], under the policy AUTO. *)
Lemma X6_witness :
  exists a',
    think (worker llm_terminate AUTO None [terminate]) = (Ok true, a') /\
    tool_calls a' = Some [call "call_1" "terminate" (Some status_success)] /\
    state a' = RUNNING.
Proof.
  destruct (X6_think_decision (worker llm_terminate AUTO None [terminate])
              {| resp_content := Some "done";
                 resp_tool_calls :=
                   Some [call "call_1" "terminate" (Some status_success)] |}
              1%nat)
    as (a' & Hthink & Hcalls & Hstate & _).
  - reflexivity.
  - repeat constructor; discriminate.
  - exists a'. conjs; assumption.
Defined.

(** X7 on a model that asks for [terminate] although no tool may be
    called: the call is executed, and it finishes the agent. *)
Lemma X7_witness :
  exists outs msgs a',
    toolcall_step loads lower
      (worker llm_terminate NONE None [terminate; bash_no_command])
    = (Ok (join (LF +:+ LF) outs), a') /\
    (exists (a0 : Agent nat) s b,
       execute_tool loads lower
         (Some (call "call_1" "terminate" (Some status_success)))
         (set_current_base64_image None a0) = (Ok s, b) /\
       outs !! 0%nat = Some (observe_limit (max_observe b) s)) /\
    length msgs = 1%nat /\
    memory a'
    = ([msg user "hi"; user_message "next" None;
        assistant_message (Some "done") None] ++ msgs)%list.
Proof.
  destruct (X7_step_runs_calls_under_NONE loads lower
              (worker llm_terminate NONE None [terminate; bash_no_command])
              {| resp_content := Some "done";
                 resp_tool_calls :=
                   Some [call "call_1" "terminate" (Some status_success)] |}
              1%nat [call "call_1" "terminate" (Some status_success)])
    as (outs & msgs & a' & Hstep & _ & Hcalls & Hmem & Hlen & _).
  - reflexivity.
  - reflexivity.
  - reflexivity.
  - discriminate.
  - repeat constructor; discriminate.
  - reflexivity.
  - exists outs. exists msgs. exists a'. conjs; try assumption.
    exact (Hcalls 0%nat _ eq_refl).
Defined.

(** X8 on a model that only talks although a tool must be called. *)
Lemma X8_witness :
  exists a',
    toolcall_step loads lower (worker llm_talk REQUIRED None [terminate])
    = (Raise (Exn ValueError TOOL_CALL_REQUIRED None), a') /\
    memory a'
    = [msg user "hi"; user_message "next" None;
       assistant_message (Some "thought 0") None].
Proof.
  eexists. split.
  - apply (X8_step_requires_calls loads lower
             (worker llm_talk REQUIRED None [terminate])
             {| resp_content := Some "thought 0"; resp_tool_calls := None |}
             1%nat); reflexivity.
  - reflexivity.
Defined.

(** X9 on a call of [terminate]: the state changes, to FINISHED, and the
    name of the call is a special tool name. *)
Lemma X9_witness :
  exists r a',
    execute_tool loads lower
      (Some (call "call_1" "terminate" (Some status_success)))
      (worker llm_talk AUTO None [terminate; bash_no_command]) = (r, a') /\
    state a' = FINISHED /\
    is_special_tool lower "terminate"
      (worker llm_talk AUTO None [terminate; bash_no_command]) = true.
Proof.
  assert (exists r a',
            execute_tool loads lower
              (Some (call "call_1" "terminate" (Some status_success)))
              (worker llm_talk AUTO None [terminate; bash_no_command]) = (r, a')
            /\ state a' = FINISHED)
    as (r & a' & H & Hs)
    by (eexists; eexists; split; [vm_compute; reflexivity | reflexivity]).
  exists r. exists a'. split; [exact H|]. split; [exact Hs|].
  destruct (proj2 (X9_execute_tool_state loads lower _ _ r a' H))
    as (c & f & Hc & Hf & Hsp & _).
  - rewrite Hs. discriminate.
  - inversion Hc; subst c. inversion Hf; subst f. exact Hsp.
Defined.

(** X10 on a call of [terminate]. *)
Lemma X10_witness :
  exists r a',
    execute_tool loads lower (Some (call "call_1" "terminate" (Some status_success)))
      (worker llm_talk AUTO None [terminate]) = (r, a') /\
    state a' = FINISHED.
Proof.
  assert (exists r a',
            execute_tool loads lower
              (Some (call "call_1" "terminate" (Some status_success)))
              (worker llm_talk AUTO None [terminate]) = (r, a'))
    as (r & a' & H) by (eexists; eexists; vm_compute; reflexivity).
  exists r. exists a'. split; [exact H|].
  destruct (X10_special_tool_finishes loads lower
              (call "call_1" "terminate" (Some status_success))
              {| fn_name := "terminate"; arguments := Some status_success |}
              terminate (JObj [("status", JStr "success")])
              (worker llm_talk AUTO None [terminate]) r a')
    as (Hok & _); try reflexivity; try exact H; [discriminate|].
  apply (Hok (VStr "交互已完成，状态: success") O). reflexivity.
Defined.

(** X11 on [bash] asked to restart. *)
Lemma X11_witness :
  exists e a',
    exn_cls e = TypeError /\
    execute_tool loads lower (Some (call "call_1" "bash" None))
      (worker llm_talk AUTO None [bash_restart])
    = (Ok (tool_problem "bash" e), a') /\
    error_prefixed (tool_problem "bash" e) = true /\
    env a' = O.
Proof.
  apply (X11_unrenderable_result loads lower (call "call_1" "bash" None)
           {| fn_name := "bash"; arguments := None |} bash_restart (JObj [])
           (worker llm_talk AUTO None [bash_restart]) PlainResult
           {| output := None; error := None; result_base64_image := None;
              system_note := Some "工具已重新启动。" |} O);
    try reflexivity.
  discriminate.
Defined.

(** X12 on two results that both carry an image. *)
Lemma X12_witness :
  exists e, exn_cls e = ValueError /\
            ToolResult_add image_result image_result = Raise e.
Proof.
  apply (proj1 (X12_add_image_conflict image_result image_result));
    reflexivity.
Defined.

(** X18 on the flow with one executor and a step of a type that no agent
    has as its key. *)
Lemma X18_witness :
  PlanningFlow.get_executor (Some "search") flow
  = PlanningFlow.get_executor None flow.
Proof.
  apply (proj1 (proj2 (proj2 (X18_get_executor (Some "search") flow)))).
  intros t [= <-]. right. vm_compute. reflexivity.
Defined.

(** X19 on a flow made from two agents. *)
Lemma X19_witness :
  PlanningFlow.primary_agent
    (PlanningFlow_init
       (AgentList [agent llm_talk IDLE 3 0; agent llm_terminate IDLE 3 0])
       None [] "plan_1" llm_talk O)
  = Some ("agent_" +:+ pretty 0%nat).
Proof.
  apply (proj2 (proj2 (X19_flow_of_agent_list
                         [agent llm_talk IDLE 3 0; agent llm_terminate IDLE 3 0]
                         "plan_1" llm_talk O))).
  discriminate.
Defined.

(** X20 on the first step of the sample plan. *)
Lemma X20_witness : is_Some (search_type_tag "[SEARCH] find data").
Proof.
  apply (proj2 (X20_search_type_tag "[SEARCH] find data")
           "" "SEARCH" " find data");
    [reflexivity | discriminate | reflexivity].
Defined.

(** X21 on a memory whose last message, of a user, repeats two answers. *)
Lemma X21_witness :
  duplicate_threshold
    (set_memory [msg assistant "a"; msg assistant "a"; msg user "a"]
       (agent llm_talk RUNNING 3 0))
  < 3.
Proof.
  apply (proj1 (X21_is_stuck_bounds
                  (set_memory [msg assistant "a"; msg assistant "a"; msg user "a"]
                     (agent llm_talk RUNNING 3 0)))).
  vm_compute. reflexivity.
Defined.
